(** * The [bigchaindb] command: a shallow embedding of
    [bigchaindb/commands/bigchain.py]

    The commands of the file are embedded as functions in a small
    state-and-exception monad over a [world]: the process-wide configuration
    dictionary [bigchaindb.config], the part of the storage backend the
    commands can observe (does the database exist, how many genesis blocks
    were written) and the chronological trace of everything the command did
    to the outside (prints, log records, backend calls).

    Collaborators that live outside the file (the key generator, the
    RethinkDB launcher, the backend's administration functions, Python's
    [json.dumps]) are gathered in the record [externals] and are universally
    quantified in the theorems; so are Python's [str] of a value
    ([formatting]) and, for [drop] and [configure], the configuration
    patching and [schema.drop_database] ([surroundings]).

    [drop] and [configure] talk to the operator and to the file system:
    they run in the same kind of monad over a [host], a [world] together
    with the lines waiting on standard input, the configuration files and
    [bigchaindb._database_map].

    [load] starts worker processes.  Each process that runs [_run_load] is
    a small machine ([_run_load_step]): it starts its reporting thread,
    builds [Bigchain()] from the configuration it was forked with, and then
    alternates between writing a transaction and counting it.  A run of the
    pool is an interleaving of such steps, given by a schedule; the number
    of CPUs, which [ProcessGroup] falls back to, is a parameter.
    [int(count / multiprocess)] is Python's float division, modelled on the
    integers ([int_truediv]).

    [create_parser] and [main] are not embedded: they are [argparse]
    declarations and a call of [utils.start]. *)

From stdpp Require Import gmap strings list pretty.
From Stdlib Require Import ZArith Lia Sorted.

Set Warnings "-register-all".

(** ** Python values *)

(** The configuration is a JSON-like tree of Python values; a [dict] with
    string keys is a finite map. *)
Inductive json :=
| JNull
| JBool (b : bool)
| JInt (n : Z)
| JStr (s : string)
| JList (l : list json)
| JDict (d : gmap string json).

(** Python truthiness, as used by [if private_key], [or] and [not]. *)
Definition truthy (v : json) : bool :=
  match v with
  | JNull => false
  | JBool b => b
  | JInt n => negb (n =? 0)%Z
  | JStr s => negb (String.eqb s "")
  | JList l => match l with [] => false | _ => true end
  | JDict d => negb (bool_decide (size d = 0))
  end.

(** ['x' * n] *)
Fixpoint str_repeat (c : string) (n : nat) : string :=
  match n with
  | O => ""
  | S n' => c +:+ str_repeat c n'
  end.

(** [repr] of a list of strings, as ['{}'.format] prints it (quotes inside
    the strings are not escaped: host names have none). *)
Definition py_repr_list (l : list string) : string :=
  "[" +:+ String.concat ", " ((fun s => "'" +:+ s +:+ "'") <$> l) +:+ "]".

(** ** Exceptions and process exit *)

Inductive exn :=
| DatabaseAlreadyExists
| KeypairNotFoundException
| StartupError (reason : string)
| OperationError (msg : string)
| NotImplementedError (msg : string)
| ZeroDivisionError
| OverflowError
| KeyError (key : string)
| TypeError
| SystemExit (msg : string).

(** [str(e)], what [print(e)] and ['{}'.format(e)] show. *)
Definition exn_str (e : exn) : string :=
  match e with
  | DatabaseAlreadyExists => ""
  | KeypairNotFoundException => ""
  | StartupError r => r
  | OperationError m => m
  | NotImplementedError m => m
  | ZeroDivisionError => "division by zero"
  | OverflowError => "integer division result too large for a float"
  | KeyError k => "'" +:+ k +:+ "'"
  | TypeError => ""
  | SystemExit m => m
  end.

Inductive result (A : Type) :=
| Ok (a : A)
| Raise (e : exn).
Arguments Ok {A} a.
Arguments Raise {A} e.

(** The exit status of the process whose command ended with [r]: a command
    that returns ends with status 0; [sys.exit(<string>)] and an uncaught
    exception both end the interpreter with status 1. *)
Definition exit_status {A} (r : result A) : Z :=
  match r with
  | Ok _ => 0
  | Raise _ => 1
  end.

(** ** The world *)

Inductive connection := Conn.

Inductive event :=
| Stdout (line : string)                   (* print(...) *)
| Stderr (line : string)                   (* print(..., file=sys.stderr) *)
| LogWarning (msg : string)
| LogInfo (msg : string) (args : list json)
| SetupLogging
| Connect                                  (* backend.connect() *)
| InitDatabase                             (* schema.init_database(...) *)
| CreateGenesisBlock                       (* b.create_genesis_block() *)
| GenerateKeyPair
| StartRethinkDB
| ProcessesStart                           (* processes.start() *)
| SetShards (n : Z)
| SetReplicas (n : Z)
| AddReplicas (hosts : list string)
| RemoveReplicas (hosts : list string).

Record world := World {
  config : gmap string json;      (* bigchaindb.config *)
  db_exists : bool;
  genesis_blocks : nat;
  trace : list event              (* oldest first *)
}.

(** What a run that took [w] to [w'] added to the trace. *)
Definition new_events (w w' : world) : list event :=
  drop (length (trace w)) (trace w').

(** ** The command monad *)

Definition M (A : Type) : Type := world -> result A * world.

Definition ret {A} (a : A) : M A := fun w => (Ok a, w).

Definition bind {A B} (m : M A) (k : A -> M B) : M B :=
  fun w =>
    match m w with
    | (Ok a, w') => k a w'
    | (Raise e, w') => (Raise e, w')
    end.

Notation "x <- m ;; k" := (bind m (fun x => k))
  (at level 20, m at level 99, k at level 200, only parsing).
Notation "m ;; k" := (bind m (fun _ => k))
  (at level 100, k at level 200, right associativity, only parsing).

Definition raise {A} (e : exn) : M A := fun w => (Raise e, w).

(** [try: m  except <handler's exceptions>: ...]; [handler e = None] when no
    clause matches [e], which then propagates. *)
Definition try_except {A} (m : M A) (handler : exn -> option (M A)) : M A :=
  fun w =>
    match m w with
    | (Ok a, w') => (Ok a, w')
    | (Raise e, w') =>
        match handler e with
        | Some h => h w'
        | None => (Raise e, w')
        end
    end.

(** The world after the events [evs] were added to its trace. *)
Definition logged (evs : list event) (w : world) : world :=
  World (config w) (db_exists w) (genesis_blocks w) (trace w ++ evs).

Definition emit (e : event) : M unit :=
  fun w => (Ok tt, logged [e] w).

Definition print (s : string) : M unit := emit (Stdout s).
Definition print_stderr (s : string) : M unit := emit (Stderr s).

(** [sys.exit(msg)]: raises [SystemExit]; the interpreter prints [msg] on
    standard error and exits with status 1. *)
Definition sys_exit {A} (msg : string) : M A := raise (SystemExit msg).

Definition get_config : M (gmap string json) := fun w => (Ok (config w), w).

Definition set_config (c : gmap string json) : M unit :=
  fun w => (Ok tt, World c (db_exists w) (genesis_blocks w) (trace w)).

(** [d[k]] *)
Definition subscript (d : json) (k : string) : M json :=
  match d with
  | JDict m => match m !! k with
               | Some v => ret v
               | None => raise (KeyError k)
               end
  | _ => raise TypeError
  end.

(** [d[k] = v], giving the updated dictionary *)
Definition setitem (d : json) (k : string) (v : json) : M json :=
  match d with
  | JDict m => ret (JDict (<[k := v]> m))
  | _ => raise TypeError
  end.

(** [del d[k]], giving the updated dictionary *)
Definition delitem (d : json) (k : string) : M json :=
  match d with
  | JDict m => match m !! k with
               | Some _ => ret (JDict (delete k m))
               | None => raise (KeyError k)
               end
  | _ => raise TypeError
  end.

(** [bigchaindb.config['keypair'][field]] *)
Definition config_keypair (field : string) : M json :=
  c <- get_config ;;
  kp <- subscript (JDict c) "keypair" ;;
  subscript kp field.

(** [bigchaindb.config['keypair'][field] = v] *)
Definition set_config_keypair (field : string) (v : json) : M unit :=
  c <- get_config ;;
  kp <- subscript (JDict c) "keypair" ;;
  kp' <- setitem kp field v ;;
  set_config (<["keypair" := kp']> c).

Definition try_except_else {A B} (m : M A) (handler : exn -> option (M B))
    (orelse : A -> M B) : M B :=
  fun w =>
    match m w with
    | (Ok a, w') => orelse a w'
    | (Raise e, w') =>
        match handler e with
        | Some h => h w'
        | None => (Raise e, w')
        end
    end.

(** ** Collaborators outside the file *)

(** What the imported functions answer.  The commands only see these
    answers, so the theorems hold for every choice of them. *)
Record externals := Externals {
  version : string;                       (* bigchaindb.__version__ *)
  json_dumps : json -> string;            (* json.dumps(_, indent=4, sort_keys=True) *)
  generate_key_pair : string * string;    (* crypto.generate_key_pair(): (private, public) *)
  rethinkdb_start : string + Z;           (* utils.start_rethinkdb(): the StartupError's text, or the pid *)
  admin_set_shards : Z -> option exn;     (* None: done; Some e: raises e *)
  admin_set_replicas : Z -> option exn;
  admin_add_replicas : list string -> option exn;
  admin_remove_replicas : list string -> option exn
}.

(** The [argparse] namespace built by [create_parser]: the two [start]
    flags are [store_true], [num_shards] and [num_replicas] are [type=int]
    positionals (every integer is accepted), [replicas] is the list of
    hosts, [multiprocess] and [count] are the [type=int] options of [load]
    ([-m] given without a number leaves [None] in [multiprocess]; the record
    holds integers only, so that invocation is not covered). *)
Record args := Args {
  allow_temp_keypair : bool;
  start_rethinkdb : bool;
  num_shards : Z;
  num_replicas : Z;
  replicas : list string;
  multiprocess : Z;
  count : Z
}.

(** The defaults of [create_parser].  The default [False] of
    [multiprocess] is the integer 0 to Python's arithmetic: [count / False]
    divides by zero, and [ProcessGroup] takes [False or cpu_count()]. *)
Definition parser_defaults : args :=
  {| allow_temp_keypair := false; start_rethinkdb := false;
     num_shards := 1; num_replicas := 1; replicas := [];
     multiprocess := 0; count := 0 |}.

Record Bigchain := {
  me : json;
  me_private : json;
  b_connection : connection
}.

Section Commands.
Context (ext : externals).

(** Modelled from the spec: [bigchaindb.Bigchain()], the node object, lives
    in [bigchaindb/core.py].  It reads the keypair of the configuration
    and, as [_run_init] notes, "throws an exception if it does not exist":
    [KeypairNotFoundException] unless both keys are set. *)
Definition Bigchain_new : M Bigchain :=
  pub <- config_keypair "public" ;;
  priv <- config_keypair "private" ;;
  if truthy pub && truthy priv
  then ret {| me := pub; me_private := priv; b_connection := Conn |}
  else raise KeypairNotFoundException.

(** Modelled from the spec: [schema.init_database] of the backend handle
    creates the database, or signals "already exists". *)
Definition init_database (c : connection) : M unit :=
  emit InitDatabase ;;
  fun w =>
    if db_exists w then (Raise DatabaseAlreadyExists, w)
    else (Ok tt, World (config w) true (genesis_blocks w) (trace w)).

(** Modelled from the spec: [Bigchain.create_genesis_block] writes the
    genesis record. *)
Definition create_genesis_block (b : Bigchain) : M unit :=
  emit CreateGenesisBlock ;;
  fun w => (Ok tt, World (config w) (db_exists w) (S (genesis_blocks w)) (trace w)).

(** [backend.connect()] *)
Definition backend_connect : M connection := emit Connect ;; ret Conn.

(** A call of one of [bigchaindb.backend.admin]'s functions: the call
    reaches the backend, which answers. *)
Definition backend_call (e : event) (answer : option exn) : M unit :=
  emit e ;;
  match answer with
  | None => ret tt
  | Some x => raise x
  end.

Definition set_shards (conn : connection) (shards : Z) : M unit :=
  backend_call (SetShards shards) (admin_set_shards ext shards).
Definition set_replicas (conn : connection) (n : Z) : M unit :=
  backend_call (SetReplicas n) (admin_set_replicas ext n).
Definition add_replicas (conn : connection) (hosts : list string) : M unit :=
  backend_call (AddReplicas hosts) (admin_add_replicas ext hosts).
Definition remove_replicas (conn : connection) (hosts : list string) : M unit :=
  backend_call (RemoveReplicas hosts) (admin_remove_replicas ext hosts).

(** [utils.start_rethinkdb()], giving the pid *)
Definition utils_start_rethinkdb : M Z :=
  emit StartRethinkDB ;;
  match rethinkdb_start ext with
  | inl reason => raise (StartupError reason)
  | inr pid => ret pid
  end.

(** *** [run_show_config] *)

Definition run_show_config (a : args) : M unit :=
  c <- get_config ;;                            (* copy.deepcopy(bigchaindb.config) *)
  c <- delitem (JDict c) "CONFIGURED" ;;
  kp <- subscript c "keypair" ;;
  private_key <- subscript kp "private" ;;
  kp <- setitem kp "private"
          (if truthy private_key then JStr (str_repeat "x" 45) else JNull) ;;
  c <- setitem c "keypair" kp ;;
  print (json_dumps ext c).

(** *** [_run_init], [run_init] *)

Definition _run_init : M unit :=
  b <- Bigchain_new ;;
  init_database (b_connection b) ;;
  print "Create genesis block." ;;
  create_genesis_block b ;;
  print "Done, have fun!".

Definition run_init (a : args) : M unit :=
  try_except _run_init
    (fun e =>
       match e with
       | DatabaseAlreadyExists =>
           Some (print_stderr "The database already exists." ;;
                 print_stderr "If you wish to re-initialize it, first drop it.")
       | _ => None
       end).

(** *** [run_start] *)

Definition run_start (a : args) : M unit :=
  print ("BigchainDB Version " +:+ version ext) ;;
  emit SetupLogging ;;
  (if allow_temp_keypair a then
     priv <- config_keypair "private" ;;
     key <- (if truthy priv then ret priv            (* private or public *)
             else config_keypair "public") ;;
     if negb (truthy key) then
       emit GenerateKeyPair ;;
       let '(private_key, public_key) := generate_key_pair ext in
       set_config_keypair "private" (JStr private_key) ;;
       set_config_keypair "public" (JStr public_key)
     else
       emit (LogWarning "Keypair found, no need to create one on the fly.")
   else ret tt) ;;
  (if start_rethinkdb a then
     pid <- try_except utils_start_rethinkdb
              (fun e =>
                 match e with
                 | StartupError _ =>
                     Some (sys_exit ("Error starting RethinkDB, reason is: " +:+ exn_str e))
                 | _ => None
                 end) ;;
     emit (LogInfo ("RethinkDB started with PID " +:+ pretty pid) [])
   else ret tt) ;;
  try_except _run_init
    (fun e =>
       match e with
       | DatabaseAlreadyExists => Some (ret tt)
       | KeypairNotFoundException =>
           Some (sys_exit ("Can't start BigchainDB, no keypair found. "
                           +:+ "Did you run `bigchaindb configure`?"))
       | _ => None
       end) ;;
  pub <- config_keypair "public" ;;
  emit (LogInfo "Starting BigchainDB main process with public key %s" [pub]) ;;
  emit ProcessesStart.

(** *** The topology commands *)

Definition run_set_shards (a : args) : M unit :=
  conn <- backend_connect ;;
  try_except (set_shards conn (num_shards a))
    (fun e =>
       match e with
       | OperationError _ => Some (print_stderr (exn_str e))
       | _ => None
       end).

Definition run_set_replicas (a : args) : M unit :=
  conn <- backend_connect ;;
  try_except (set_replicas conn (num_replicas a))
    (fun e =>
       match e with
       | OperationError _ => Some (print_stderr (exn_str e))
       | _ => None
       end).

Definition run_add_replicas (a : args) : M unit :=
  conn <- backend_connect ;;
  try_except_else (add_replicas conn (replicas a))
    (fun e =>
       match e with
       | OperationError _ | NotImplementedError _ => Some (print_stderr (exn_str e))
       | _ => None
       end)
    (fun _ => print ("Added " +:+ py_repr_list (replicas a) +:+ " to the replicaset.")).

Definition run_remove_replicas (a : args) : M unit :=
  conn <- backend_connect ;;
  try_except_else (remove_replicas conn (replicas a))
    (fun e =>
       match e with
       | OperationError _ | NotImplementedError _ => Some (print_stderr (exn_str e))
       | _ => None
       end)
    (fun _ => print ("Removed " +:+ py_repr_list (replicas a) +:+ " from the replicaset.")).

End Commands.

(** ** The load generator *)

(** Modelled from the spec: [Transaction.create] and [Transaction.sign] of
    [bigchaindb/models.py] build and sign the single-input single-output
    transfer a worker submits. *)
Record transaction := Tx {
  tx_signers : list json;
  tx_recipients : list (list json * Z);
  tx_signed_with : list json
}.

Definition Transaction_create (signers : list json)
    (recipients : list (list json * Z)) : transaction :=
  Tx signers recipients [].

Definition Transaction_sign (tx : transaction) (keys : list json) : transaction :=
  Tx (tx_signers tx) (tx_recipients tx) keys.

(** *** [int(a / b)]

    Python's [a / b] on two integers is the double nearest to the exact
    quotient, ties going to the even significand; it raises
    [ZeroDivisionError] when [b] is zero and [OverflowError] when the
    quotient is beyond the doubles.  [int] then drops the fraction. *)

(** The integer nearest to [n / d], ties to the even one ([0 <= n],
    [0 < d]). *)
Definition round_half_even (n d : Z) : Z :=
  let q := (n / d)%Z in
  let r := (n `mod` d)%Z in
  if (2 * r <? d)%Z then q
  else if (d <? 2 * r)%Z then (q + 1)%Z
  else if Z.even q then q else (q + 1)%Z.

(** [a * 2^k / b] as a fraction of integers, for any sign of [k]. *)
Definition scaled (a b k : Z) : Z * Z :=
  if (0 <=? k)%Z then (a * 2 ^ k, b)%Z else (a, b * 2 ^ (- k))%Z.

(** The double nearest to [a / b] for positive [a] and [b], given as
    [(m, k)] for the value [m / 2^k]: [k] is chosen so that the scaled
    quotient has 53 binary digits, [2^52 <= a * 2^k / b < 2^53], and [m] is
    that quotient rounded. *)
Definition nearest_double (a b : Z) : Z * Z :=
  let k0 := (53 + Z.log2 b - Z.log2 a)%Z in
  let '(n0, d0) := scaled a b k0 in
  let k := if (2 ^ 53 * d0 <=? n0)%Z then (k0 - 1)%Z else k0 in
  let '(n, d) := scaled a b k in
  (round_half_even n d, k).

Definition int_truediv (a b : Z) : M Z :=
  if (b =? 0)%Z then raise ZeroDivisionError
  else if (a =? 0)%Z then ret 0%Z
  else
    let '(m, k) := nearest_double (Z.abs a) (Z.abs b) in
    let magnitude := if (k <=? 0)%Z then (m * 2 ^ (- k))%Z else (m / 2 ^ k)%Z in
    if (2 ^ 1024 <=? magnitude)%Z then raise OverflowError
    else ret (Z.sgn a * Z.sgn b * magnitude)%Z.

(** *** The worker processes *)

(** Where a process that runs [_run_load] stands. *)
Inductive stage :=
| Entered                        (* about to call logstats.thread.start(stats) *)
| Reporting                      (* its reporting thread started; about to build Bigchain() *)
| Submitting (b : Bigchain)      (* at the top of the loop body: create, sign, write *)
| Counting (b : Bigchain)        (* the transaction is written; the counter and tx_left are next *)
| Exited                         (* left the loop through break and returned *)
| Died (e : exn).                (* ended by an exception nothing catches *)

(** A worker process.  Each process has its own copy of the [Logstats]
    child it was given, and the thread started on entry reports from it in
    the background; that thread belongs to the [logstats] library, so what
    the copy holds at a given time is not modelled: [increments] counts how
    often the process has run [stats['transactions'] += 1]. *)
Record worker := Worker {
  at_stage : stage;
  tx_left : option Z;              (* the local variable tx_left *)
  increments : Z
}.

(** A process that has just been started on [_run_load(tx_left, stats)]. *)
Definition fresh_worker (tx_left : option Z) : worker := Worker Entered tx_left 0.

(** The processes of one load run: each works on the state it was forked
    from, the parent's; the backend's backlog is the one thing they
    share. *)
Record pool := Pool {
  workers : list worker;
  forked_from : world;
  written : list transaction       (* what the run wrote to the backlog, oldest first *)
}.

(** How many processes a [ProcessGroup] starts.  Modelled from the spec
    and from the help of [--multiprocess] ("if no value is provided, the
    number of processes is equal to the number of cores of the host
    machine"): [ProcessGroup] of [bigchaindb/utils.py] keeps
    [concurrency or mp.cpu_count()] and starts one process for each
    [i in range(...)] of it, none when the number is negative. *)
Definition processes (cpu_count : positive) (concurrency : Z) : nat :=
  Z.to_nat (if (concurrency =? 0)%Z then Z.pos cpu_count else concurrency).

(** Modelled from the spec: [ProcessGroup(concurrency, target, args).start()]
    of [bigchaindb/utils.py] starts the processes, which each run [target]
    on [args]; here the target is [_run_load], entered with the same
    [tx_left] in every process. *)
Definition ProcessGroup_start (cpu_count : positive) (concurrency : Z)
    (tx_left : option Z) (parent : world) : pool :=
  Pool (replicate (processes cpu_count concurrency) (fresh_worker tx_left)) parent [].

(** [run_load]: the [Logstats] object made here and the reporting thread
    started on it stay in the parent; the workers get [stats.get_child()].
    ([print] with two arguments writes them with a space in between; for the
    default [False] Python writes [False] where [pretty] gives [0].) *)
Definition run_load (cpu_count : positive) (a : args) : M pool :=
  print ("Starting %s processes " +:+ pretty (multiprocess a)) ;;
  tx_left <- (if (count a >? 0)%Z
              then q <- int_truediv (count a) (multiprocess a) ;; ret (Some q)
              else ret None) ;;
  fun w => (Ok (ProcessGroup_start cpu_count (multiprocess a) tx_left w), w).

(** One step of a process that runs [_run_load], with the transactions it
    writes to the backlog: the reporting thread is started, then
    [bigchaindb.Bigchain()] is built from the configuration of the process
    (it raises on a node without keypair), then the loop alternates between
    submitting a transaction and counting it. *)
Definition _run_load_step (node : world) (wk : worker) : worker * list transaction :=
  match at_stage wk with
  | Entered => (Worker Reporting (tx_left wk) (increments wk), [])
  | Reporting =>
      match (Bigchain_new node).1 with
      | Ok b => (Worker (Submitting b) (tx_left wk) (increments wk), [])
      | Raise e => (Worker (Died e) (tx_left wk) (increments wk), [])
      end
  | Submitting b =>
      let tx := Transaction_create [me b] [([me b], 1%Z)] in
      let tx := Transaction_sign tx [me_private b] in
      (Worker (Counting b) (tx_left wk) (increments wk), [tx])
  | Counting b =>
      let n := (increments wk + 1)%Z in         (* stats['transactions'] += 1 *)
      match tx_left wk with
      | None => (Worker (Submitting b) None n, [])
      | Some t =>
          let t := (t - 1)%Z in
          if (t =? 0)%Z then (Worker Exited (Some t) n, [])
          else (Worker (Submitting b) (Some t) n, [])
      end
  | Exited | Died _ => (wk, [])
  end.

(** A process that runs [_run_load] on its own, observed for [fuel]
    steps. *)
Fixpoint _run_load (fuel : nat) (node : world) (wk : worker)
    : worker * list transaction :=
  match fuel with
  | O => (wk, [])
  | S fuel =>
      let '(wk, txs) := _run_load_step node wk in
      let '(wk, txs') := _run_load fuel node wk in
      (wk, txs ++ txs')
  end.

(** The processes run in parallel; a schedule lists which of them takes
    the next step.  A process that has ended (or an index that names no
    process) does nothing. *)
Definition pool_step (p : pool) (i : nat) : pool :=
  match workers p !! i with
  | Some wk =>
      let '(wk, txs) := _run_load_step (forked_from p) wk in
      Pool (<[i := wk]> (workers p)) (forked_from p) (written p ++ txs)
  | None => p
  end.

Fixpoint pool_run (p : pool) (schedule : list nat) : pool :=
  match schedule with
  | [] => p
  | i :: schedule => pool_run (pool_step p i) schedule
  end.

(** The quota a worker holds ([None]: unbounded). *)
Definition quota (w : worker) : option Z := tx_left w.

Definition sum_quotas (ws : list worker) : Z :=
  foldr (fun w acc => (default 0 (quota w) + acc)%Z) 0%Z ws.

Fixpoint sum_over (f : worker -> Z) (ws : list worker) : Z :=
  match ws with
  | [] => 0
  | w :: ws => f w + sum_over f ws
  end%Z.

(** The counter of the run: all the workers' increments together. *)
Definition total_increments (p : pool) : Z := sum_over increments (workers p).

(** The snapshots of the counter along a schedule. *)
Fixpoint snapshots (p : pool) (schedule : list nat) : list Z :=
  match schedule with
  | [] => [total_increments p]
  | i :: schedule => total_increments p :: snapshots (pool_step p i) schedule
  end.

(** * Notions used in the statements *)

(** The transaction every pass submits. *)
Definition self_transfer (b : Bigchain) : transaction :=
  Transaction_sign (Transaction_create [me b] [([me b], 1%Z)]) [me_private b].

(** A worker has completed: it left its loop through [break]. *)
Definition exited (wk : worker) : Prop := at_stage wk = Exited.

Definition all_exited (p : pool) : Prop := Forall exited (workers p).

(** A worker has ended, one way or the other. *)
Definition finished (wk : worker) : Prop :=
  at_stage wk = Exited \/ exists e, at_stage wk = Died e.

Definition all_finished (p : pool) : Prop := Forall finished (workers p).


(** A worker of a bounded run with quota [q], on a node where
    [Bigchain()] gives [built]: its increments and what is left of its
    quota add up to [q]. *)
Definition on_track (built : result Bigchain) (q : Z) (wk : worker) : Prop :=
  match at_stage wk with
  | Entered | Reporting => tx_left wk = Some q /\ increments wk = 0%Z
  | Submitting b | Counting b =>
      built = Ok b
      /\ exists t, tx_left wk = Some t /\ (0 < t <= q)%Z /\ increments wk = (q - t)%Z
  | Exited => (exists b, built = Ok b) /\ increments wk = q
  | Died e => built = Raise e /\ increments wk = 0%Z
  end.



(** 1 for a worker that has written a transaction it has not counted
    yet. *)
Definition uncounted (wk : worker) : Z :=
  match at_stage wk with
  | Counting _ => 1
  | _ => 0
  end.

(** A worker that is in its loop holds the node object [Bigchain()] gave. *)
Definition built_with (built : result Bigchain) (wk : worker) : Prop :=
  match at_stage wk with
  | Submitting b | Counting b => built = Ok b
  | _ => True
  end.

(** A transaction is the transfer to itself of the node [Bigchain()]
    gave. *)
Definition self_transfer_of (built : result Bigchain) (tx : transaction) : Prop :=
  exists b, built = Ok b /\ tx = Tx [me b] [([me b], 1%Z)] [me_private b].

(** [bigchaindb load -m m -c c] *)
Definition load_args (m c : Z) : args :=
  {| allow_temp_keypair := false; start_rethinkdb := false;
     num_shards := 1; num_replicas := 1; replicas := [];
     multiprocess := m; count := c |}.

(** The keypair entry [field] of the configuration, when it is there. *)
Definition keypair_field (c : gmap string json) (field : string) : option json :=
  match c !! "keypair" with
  | Some (JDict kp) => kp !! field
  | _ => None
  end.

(** The keypair is configured: both keys are set. *)
Definition keypair_configured (c : gmap string json) : Prop :=
  exists pub priv,
    keypair_field c "public" = Some pub /\ keypair_field c "private" = Some priv
    /\ truthy pub = true /\ truthy priv = true.

(** The four topology commands, as the dispatcher calls them. *)
Inductive topology_op :=
| SetShardsOp (n : Z)
| SetReplicasOp (n : Z)
| AddReplicasOp (hosts : list string)
| RemoveReplicasOp (hosts : list string).

Definition topology_args (op : topology_op) : args :=
  match op with
  | SetShardsOp n =>
      {| allow_temp_keypair := false; start_rethinkdb := false; num_shards := n;
         num_replicas := 1; replicas := []; multiprocess := 0; count := 0 |}
  | SetReplicasOp n =>
      {| allow_temp_keypair := false; start_rethinkdb := false; num_shards := 1;
         num_replicas := n; replicas := []; multiprocess := 0; count := 0 |}
  | AddReplicasOp hosts | RemoveReplicasOp hosts =>
      {| allow_temp_keypair := false; start_rethinkdb := false; num_shards := 1;
         num_replicas := 1; replicas := hosts; multiprocess := 0; count := 0 |}
  end.

Definition run_topology (ext : externals) (op : topology_op) : M unit :=
  match op with
  | SetShardsOp _ => run_set_shards ext (topology_args op)
  | SetReplicasOp _ => run_set_replicas ext (topology_args op)
  | AddReplicasOp _ => run_add_replicas ext (topology_args op)
  | RemoveReplicasOp _ => run_remove_replicas ext (topology_args op)
  end.

(** The backend call an operation makes, and what the backend answers. *)
Definition op_event (op : topology_op) : event :=
  match op with
  | SetShardsOp n => SetShards n
  | SetReplicasOp n => SetReplicas n
  | AddReplicasOp hosts => AddReplicas hosts
  | RemoveReplicasOp hosts => RemoveReplicas hosts
  end.

Definition backend_answer (ext : externals) (op : topology_op) : option exn :=
  match op with
  | SetShardsOp n => admin_set_shards ext n
  | SetReplicasOp n => admin_set_replicas ext n
  | AddReplicasOp hosts => admin_add_replicas ext hosts
  | RemoveReplicasOp hosts => admin_remove_replicas ext hosts
  end.

Definition is_replica_set_op (op : topology_op) : bool :=
  match op with
  | AddReplicasOp _ | RemoveReplicasOp _ => true
  | _ => false
  end.

Definition is_OperationError (e : exn) : bool :=
  match e with OperationError _ => true | _ => false end.

Definition is_NotImplementedError (e : exn) : bool :=
  match e with NotImplementedError _ => true | _ => false end.

(** An event that reaches the storage backend. *)
Definition touches_backend (e : event) : bool :=
  match e with
  | Connect | InitDatabase | CreateGenesisBlock
  | SetShards _ | SetReplicas _ | AddReplicas _ | RemoveReplicas _ => true
  | _ => false
  end.

Definition stderr_lines (evs : list event) : list string :=
  omap (fun e => match e with Stderr s => Some s | _ => None end) evs.

Definition stdout_lines (evs : list event) : list string :=
  omap (fun e => match e with Stdout s => Some s | _ => None end) evs.

(** A backend that accepts every request, and one without sharding (its
    [set_shards] is not implemented). *)
Definition accepting_backend : externals :=
  {| version := "0.10.0"; json_dumps := fun _ => "";
     generate_key_pair := ("priv", "pub"); rethinkdb_start := inr 1%Z;
     admin_set_shards := fun _ => None; admin_set_replicas := fun _ => None;
     admin_add_replicas := fun _ => None; admin_remove_replicas := fun _ => None |}.

Definition backend_without_sharding : externals :=
  {| version := "0.10.0"; json_dumps := fun _ => "";
     generate_key_pair := ("priv", "pub"); rethinkdb_start := inr 1%Z;
     admin_set_shards := fun _ => Some (NotImplementedError "");
     admin_set_replicas := fun _ => Some (NotImplementedError "");
     admin_add_replicas := fun _ => None; admin_remove_replicas := fun _ => None |}.

Definition replica_set_less_backend : externals :=
  {| version := "0.10.0"; json_dumps := fun _ => "";
     generate_key_pair := ("priv", "pub"); rethinkdb_start := inr 1%Z;
     admin_set_shards := fun _ => None; admin_set_replicas := fun _ => None;
     admin_add_replicas :=
       fun _ => Some (NotImplementedError "This command is specific to the MongoDB backend.");
     admin_remove_replicas :=
       fun _ => Some (NotImplementedError "This command is specific to the MongoDB backend.") |}.

Definition empty_world : world := World ∅ false 0 [].

(** A configuration as [bigchaindb configure] leaves it, and one whose
    keypair was never set. *)
Definition configured_config : gmap string json :=
  {[ "CONFIGURED" := JBool true;
     "keypair" := JDict {[ "public" := JStr "pub"; "private" := JStr "priv" ]} ]}.

Definition keyless_config : gmap string json :=
  {[ "CONFIGURED" := JBool true;
     "keypair" := JDict {[ "public" := JNull; "private" := JNull ]} ]}.

(** What [_run_init] printed and called when it went through. *)
Definition init_events : list event :=
  [InitDatabase; Stdout "Create genesis block."; CreateGenesisBlock;
   Stdout "Done, have fun!"].

(** Events that belong to database initialisation, genesis creation or the
    handoff. *)
Definition before_init (e : event) : Prop :=
  match e with
  | InitDatabase | CreateGenesisBlock | ProcessesStart => False
  | _ => True
  end.

Definition not_genesis (e : event) : Prop :=
  match e with
  | CreateGenesisBlock => False
  | _ => True
  end.

(** [w'] comes from [w] by events that satisfy [P] and, possibly, changes of
    the configuration: the backend's data is as it was. *)
Definition extends (P : event -> Prop) (w w' : world) : Prop :=
  db_exists w' = db_exists w
  /\ genesis_blocks w' = genesis_blocks w
  /\ exists evs, trace w' = trace w ++ evs /\ Forall P evs.

Definition quiet {A} (P : event -> Prop) (m : M A) : Prop :=
  forall w, extends P w (m w).2.

(** What [run_start] does from its [try: _run_init()] on. *)
Definition start_init_and_handoff : M unit :=
  try_except _run_init
    (fun e =>
       match e with
       | DatabaseAlreadyExists => Some (ret tt)
       | KeypairNotFoundException =>
           Some (sys_exit ("Can't start BigchainDB, no keypair found. "
                           +:+ "Did you run `bigchaindb configure`?"))
       | _ => None
       end) ;;
  pub <- config_keypair "public" ;;
  emit (LogInfo "Starting BigchainDB main process with public key %s" [pub]) ;;
  emit ProcessesStart.

(** The message [start] exits with when the keypair is missing. *)
Definition keypair_missing_message : string :=
  "Can't start BigchainDB, no keypair found. Did you run `bigchaindb configure`?".

(** What [start] tells the operator when it cannot go on without a keypair:
    the RethinkDB error if RethinkDB was asked for and did not start, the
    missing keypair otherwise. *)
Definition start_exit_message (ext : externals) (a : args) : string :=
  if start_rethinkdb a then
    match rethinkdb_start ext with
    | inl reason => "Error starting RethinkDB, reason is: " +:+ reason
    | inr _ => keypair_missing_message
    end
  else keypair_missing_message.

(** What [start] does before it gives up. *)
Definition start_events_without_keypair (ext : externals) (a : args) : list event :=
  [Stdout ("BigchainDB Version " +:+ version ext); SetupLogging]
  ++ (if allow_temp_keypair a
      then [LogWarning "Keypair found, no need to create one on the fly."] else [])
  ++ (if start_rethinkdb a then
        StartRethinkDB ::
        match rethinkdb_start ext with
        | inl _ => []
        | inr pid => [LogInfo ("RethinkDB started with PID " +:+ pretty pid) []]
        end
      else []).

(** What is printed in place of a private key. *)
Definition private_key_mask : string := str_repeat "x" 45.

(** The configuration [c] with its private key set to [k]
    ([c['keypair']['private'] = k]); a configuration without a keypair
    dictionary has no private key to set. *)
Definition with_private_key (k : json) (c : gmap string json) : gmap string json :=
  match c !! "keypair" with
  | Some (JDict kp) => <["keypair" := JDict (<["private" := k]> kp)]> c
  | _ => c
  end.

(** The dictionary [run_show_config] hands to [json.dumps]. *)
Definition redacted (c kp : gmap string json) (private_key : json) : json :=
  JDict (<["keypair" :=
             JDict (<["private" :=
                        if truthy private_key then JStr private_key_mask else JNull]> kp)]>
           (delete "CONFIGURED" c)).

(** ** The steps of [run_start] *)

(** The first step of [run_start] after logging is set up: with
    [--dev-allow-temp-keypair], a keypair is generated when none is there. *)
Definition keypair_phase (ext : externals) (a : args) : M unit :=
  if allow_temp_keypair a then
    priv <- config_keypair "private" ;;
    key <- (if truthy priv then ret priv else config_keypair "public") ;;
    if negb (truthy key) then
      emit GenerateKeyPair ;;
      let '(private_key, public_key) := generate_key_pair ext in
      set_config_keypair "private" (JStr private_key) ;;
      set_config_keypair "public" (JStr public_key)
    else
      emit (LogWarning "Keypair found, no need to create one on the fly.")
  else ret tt.

(** The second step: with [--dev-start-rethinkdb], RethinkDB is started. *)
Definition rethinkdb_phase (ext : externals) (a : args) : M unit :=
  if start_rethinkdb a then
    pid <- try_except (utils_start_rethinkdb ext)
             (fun e =>
                match e with
                | StartupError _ =>
                    Some (sys_exit ("Error starting RethinkDB, reason is: " +:+ exn_str e))
                | _ => None
                end) ;;
    emit (LogInfo ("RethinkDB started with PID " +:+ pretty pid) [])
  else ret tt.

(** RethinkDB is not asked for, or it starts. *)
Definition rethinkdb_up (ext : externals) (a : args) : Prop :=
  start_rethinkdb a = false \/ exists pid, rethinkdb_start ext = inr pid.

(** What the second step adds to the trace. *)
Definition rethinkdb_events (ext : externals) (a : args) : list event :=
  if start_rethinkdb a then
    StartRethinkDB ::
    match rethinkdb_start ext with
    | inl _ => []
    | inr pid => [LogInfo ("RethinkDB started with PID " +:+ pretty pid) []]
    end
  else [].

(** What [start] prints and logs before it looks at the keypair. *)
Definition start_banner (ext : externals) : list event :=
  [Stdout ("BigchainDB Version " +:+ version ext); SetupLogging].

(** What the initialisation adds to the trace of a configured node, and
    the genesis records it leaves. *)
Definition init_step_events (db_was_there : bool) : list event :=
  if db_was_there then [InitDatabase] else init_events.

Definition genesis_after_init (w : world) : nat :=
  if db_exists w then genesis_blocks w else S (genesis_blocks w).

(** The handoff of [start]: the log record and [processes.start()]. *)
Definition handoff_events (pub : json) : list event :=
  [LogInfo "Starting BigchainDB main process with public key %s" [pub]; ProcessesStart].

(** What the first step logs when it finds a key and generates none. *)
Definition keypair_found_events (a : args) : list event :=
  if allow_temp_keypair a
  then [LogWarning "Keypair found, no need to create one on the fly."] else [].

(** A configuration with an empty keypair, as the defaults have it. *)
Definition empty_keypair_config : gmap string json :=
  {[ "CONFIGURED" := JBool true;
     "keypair" := JDict {[ "public" := JNull; "private" := JNull ]} ]}.

(** A RethinkDB that does not start. *)
Definition rethinkdb_down : externals :=
  {| version := "0.10.0"; json_dumps := fun _ => "";
     generate_key_pair := ("priv", "pub"); rethinkdb_start := inl "address in use";
     admin_set_shards := fun _ => None; admin_set_replicas := fun _ => None;
     admin_add_replicas := fun _ => None; admin_remove_replicas := fun _ => None |}.

(** [bigchaindb start] with the given flags. *)
Definition start_args (temp_keypair rethinkdb : bool) : args :=
  {| allow_temp_keypair := temp_keypair; start_rethinkdb := rethinkdb;
     num_shards := 1; num_replicas := 1; replicas := [];
     multiprocess := 0; count := 0 |}.

(** What a topology command prints on standard output when the backend
    accepted the change. *)
Definition confirmation (op : topology_op) : list string :=
  match op with
  | AddReplicasOp hosts => ["Added " +:+ py_repr_list hosts +:+ " to the replicaset."]
  | RemoveReplicasOp hosts => ["Removed " +:+ py_repr_list hosts +:+ " from the replicaset."]
  | _ => []
  end.

(** A backend that answers every request with an error of its own. *)
Definition broken_backend : externals :=
  {| version := "0.10.0"; json_dumps := fun _ => "";
     generate_key_pair := ("priv", "pub"); rethinkdb_start := inr 1%Z;
     admin_set_shards := fun _ => Some (KeyError "shards");
     admin_set_replicas := fun _ => Some (KeyError "replicas");
     admin_add_replicas := fun _ => Some TypeError;
     admin_remove_replicas := fun _ => Some TypeError |}.

(** ** [run_export_my_pubkey] *)

(** How Python turns values into text: [str] of a configuration value that
    is not a string, and of the [argparse] namespace. *)
Record formatting := Formatting {
  str_value : json -> string;
  str_args : args -> string
}.

(** ['{}'.format(v)] and what [print(v)] shows: a string as it is. *)
Definition format (fmt : formatting) (v : json) : string :=
  match v with
  | JStr s => s
  | _ => str_value fmt v
  end.

Definition run_export_my_pubkey (fmt : formatting) (a : args) : M unit :=
  print_stderr ("bigchaindb args = " +:+ str_args fmt a) ;;
  pubkey <- config_keypair "public" ;;
  match pubkey with
  | JNull =>                                       (* pubkey is None *)
      sys_exit ("This node's public key wasn't set anywhere "
                +:+ "so it can't be exported")
  | _ => print (format fmt pubkey)
  end.

(** A formatting for the examples. *)
Definition plain_formatting : formatting :=
  {| str_value := fun _ => "None"; str_args := fun _ => "Namespace()" |}.

(** ** The operator's side: [drop] and [configure] *)

(** [run_drop] and [run_configure] also read standard input and the
    configuration files, and [run_configure] changes the module-level
    dictionary [bigchaindb._database_map].  A [host] adds these to the
    [world]. *)
Record host := Host {
  node : world;
  stdin : list string;               (* the lines not read yet *)
  files : gmap string json;          (* the configuration files, by path *)
  database_map : gmap string json;   (* bigchaindb._database_map *)
  dropped : list json                (* the names given to schema.drop_database, oldest first *)
}.

Inductive outcome (A : Type) :=
| Returned (a : A)
| Raised (e : exn)
| EOFError.                          (* input() at the end of standard input *)
Arguments Returned {A} a.
Arguments Raised {A} e.
Arguments EOFError {A}.

Definition H (A : Type) : Type := host -> outcome A * host.

Definition hret {A} (a : A) : H A := fun h => (Returned a, h).

Definition hbind {A B} (m : H A) (k : A -> H B) : H B :=
  fun h =>
    match m h with
    | (Returned a, h') => k a h'
    | (Raised e, h') => (Raised e, h')
    | (EOFError, h') => (EOFError, h')
    end.

Declare Scope host_scope.
Delimit Scope host_scope with host.
Notation "x <- m ;; k" := (hbind m (fun x => k))
  (at level 20, m at level 99, k at level 200, only parsing) : host_scope.
Notation "m ;; k" := (hbind m (fun _ => k))
  (at level 100, k at level 200, right associativity, only parsing) : host_scope.

Definition with_node (w : world) (h : host) : host :=
  Host w (stdin h) (files h) (database_map h) (dropped h).

(** A command of the [world] run on a [host]. *)
Definition lift {A} (m : M A) : H A :=
  fun h =>
    match m (node h) with
    | (Ok a, w) => (Returned a, with_node w h)
    | (Raise e, w) => (Raised e, with_node w h)
    end.

(** [input()] *)
Definition input : H string :=
  fun h =>
    match stdin h with
    | [] => (EOFError, h)
    | line :: rest =>
        (Returned line, Host (node h) rest (files h) (database_map h) (dropped h))
    end.

(** Modelled from the spec: [utils.input_on_stderr(prompt)] is the
    interactive prompt of [configure] and [drop]; it writes [prompt] on
    standard error (no newline follows it) and reads the answer. *)
Definition input_on_stderr (prompt : string) : H string :=
  (lift (print_stderr prompt) ;; input)%host.

(** [os.path.exists(path)], on a file system that holds the configuration
    files *)
Definition os_path_exists (path : string) : H bool :=
  fun h => (Returned (bool_decide (is_Some (files h !! path))), h).

(** Modelled from the spec: [config_utils.write_config(conf, path)] writes
    the configuration to the file. *)
Definition write_config (conf : json) (path : string) : H unit :=
  fun h =>
    (Returned tt,
     Host (node h) (stdin h) (<[path := conf]> (files h)) (database_map h) (dropped h)).

(** [bigchaindb._database_map[backend]] *)
Definition get_database_map (backend : string) : H json :=
  fun h =>
    match database_map h !! backend with
    | Some db => (Returned db, h)
    | None => (Raised (KeyError backend), h)
    end.

(** The dictionary held by [bigchaindb._database_map[backend]] after an
    item assignment through an alias. *)
Definition set_database_map (backend : string) (db : json) : H unit :=
  fun h =>
    (Returned tt,
     Host (node h) (stdin h) (files h) (<[backend := db]> (database_map h)) (dropped h)).

(** What the two commands read of the [argparse] namespace: [config] and
    [yes] are options of [utils.base_parser], [backend] is the positional
    of [configure]. *)
Record options := Options {
  config_option : option string;     (* args.config *)
  yes : bool;                        (* args.yes *)
  backend : string                   (* args.backend *)
}.

(** More collaborators outside the file. *)
Record surroundings := Surroundings {
  CONFIG_DEFAULT_PATH : string;      (* bigchaindb.config_utils.CONFIG_DEFAULT_PATH *)
  (* config_utils.update(copy.deepcopy(c), config_utils.env_config(c)) *)
  env_update : gmap string json -> gmap string json;
  (* schema.drop_database(conn, dbname): None: done; Some e: raises e *)
  schema_drop_database : json -> option exn
}.

(** [answer or val], for the line [answer] typed at a prompt: the line
    itself, a string, unless it is empty. *)
Definition or_default (answer : string) (val : json) : json :=
  if String.eqb answer "" then val else JStr answer.

Section Operator.
Context (ext : externals) (fmt : formatting) (sur : surroundings).
Local Open Scope host_scope.

(** [bigchaindb.config['database']['name']] *)
Definition config_database_name : M json :=
  bind get_config (fun c =>
  bind (subscript (JDict c) "database") (fun db =>
  subscript db "name")).

(** Modelled from the spec: [schema.drop_database(conn, dbname)] drops the
    database, and with it the genesis block. *)
Definition drop_database (conn : connection) (dbname : json) : H unit :=
  fun h =>
    let h' := Host (node h) (stdin h) (files h) (database_map h) (dropped h ++ [dbname]) in
    match schema_drop_database sur dbname with
    | None =>
        (Returned tt,
         with_node (World (config (node h)) false 0 (trace (node h))) h')
    | Some e => (Raised e, h')
    end.

(** *** [run_drop] *)

Definition run_drop (o : options) : H unit :=
  dbname <- lift config_database_name ;;
  confirmed <- (if negb (yes o) then
                  response <- input_on_stderr
                                ("Do you want to drop `" +:+ format fmt dbname
                                 +:+ "` database? [y/n]: ") ;;
                  hret (String.eqb response "y")  (* if response != 'y': return *)
                else hret true) ;;
  if confirmed then
    conn <- lift backend_connect ;;
    dbname <- lift config_database_name ;;
    drop_database conn dbname
  else hret tt.

(** *** [run_configure] *)

(** [input_on_stderr(prompt) or val] *)
Definition input_or (prompt : string) (val : json) : H json :=
  answer <- input_on_stderr prompt ;;
  hret (or_default answer val).

(** One pass of [for key in ('bind', )]. *)
Definition ask_server (conf : gmap string json) (key : string) : H (gmap string json) :=
  server <- lift (subscript (JDict conf) "server") ;;
  val <- lift (subscript server key) ;;
  new <- input_or ("API Server " +:+ key +:+ "? (default `" +:+ format fmt val +:+ "`): ")
           val ;;
  server <- lift (subscript (JDict conf) "server") ;;
  server <- lift (setitem server key new) ;;
  hret (<["server" := server]> conf).

(** One pass of [for key in ('host', 'port', 'name')]: [conf['database']]
    is the dictionary of [_database_map] itself, which the assignment
    changes too.  (Whether [bigchaindb.config['database']] is that same
    dictionary is decided where the two are defined, in
    [bigchaindb/__init__.py]; [config] is kept as it is here, and no
    statement below speaks of it after an interactive [configure].) *)
Definition ask_database (o : options) (conf : gmap string json) (key : string)
    : H (gmap string json) :=
  database <- lift (subscript (JDict conf) "database") ;;
  val <- lift (subscript database key) ;;
  new <- input_or ("Database " +:+ key +:+ "? (default `" +:+ format fmt val +:+ "`): ")
           val ;;
  database <- lift (subscript (JDict conf) "database") ;;
  database <- lift (setitem database key new) ;;
  set_database_map (backend o) database ;;
  hret (<["database" := database]> conf).

(** [for key in keys: conf = body(conf, key)] *)
Fixpoint for_keys (body : gmap string json -> string -> H (gmap string json))
    (keys : list string) (conf : gmap string json) : H (gmap string json) :=
  match keys with
  | [] => hret conf
  | key :: keys' => conf <- body conf key ;; for_keys body keys' conf
  end.

Definition config_path_of (o : options) : string :=
  match config_option o with                  (* args.config or CONFIG_DEFAULT_PATH *)
  | Some p => if String.eqb p "" then CONFIG_DEFAULT_PATH sur else p
  | None => CONFIG_DEFAULT_PATH sur
  end.

(** The part of [run_configure] after the two early returns. *)
Definition write_new_config (o : options) (config_path : string) : H unit :=
  c <- lift get_config ;;
  let conf := env_update sur c in
  lift (print_stderr "Generating keypair") ;;
  lift (emit GenerateKeyPair) ;;
  let '(private_key, public_key) := generate_key_pair ext in
  keypair <- lift (subscript (JDict conf) "keypair") ;;
  keypair <- lift (setitem keypair "private" (JStr private_key)) ;;
  let conf := <["keypair" := keypair]> conf in
  keypair <- lift (subscript (JDict conf) "keypair") ;;
  keypair <- lift (setitem keypair "public" (JStr public_key)) ;;
  let conf := <["keypair" := keypair]> conf in
  lift (print_stderr ("Generating default configuration for backend " +:+ backend o)) ;;
  database <- get_database_map (backend o) ;;
  let conf := <["database" := database]> conf in
  conf <- (if negb (yes o) then
             conf <- for_keys ask_server ["bind"] conf ;;
             conf <- for_keys (ask_database o) ["host"; "port"; "name"] conf ;;
             val <- lift (subscript (JDict conf) "backlog_reassign_delay") ;;
             new <- input_or ("Stale transaction reassignment delay (in seconds)? (default `"
                              +:+ format fmt val +:+ "`): ") val ;;
             hret (<["backlog_reassign_delay" := new]> conf)
           else hret conf) ;;
  (if negb (String.eqb config_path "-") then
     write_config (JDict conf) config_path
   else
     lift (print (json_dumps ext (JDict conf)))) ;;
  lift (print_stderr ("Configuration written to " +:+ config_path)) ;;
  lift (print_stderr "Ready to go!").

Definition run_configure (o : options) (skip_if_exists : bool) : H unit :=
  let config_path := config_path_of o in
  config_file_exists <- (if negb (String.eqb config_path "-")
                         then os_path_exists config_path
                         else hret false) ;;
  if config_file_exists && skip_if_exists then hret tt
  else
    go_on <- (if config_file_exists && negb (yes o) then
                want <- input_on_stderr
                          ("Config file `" +:+ config_path
                           +:+ "` exists, do you want to override it? (cannot be undone) [y/N]: ") ;;
                hret (String.eqb want "y")    (* if want != 'y': return *)
              else hret true) ;;
    if go_on then write_new_config o config_path else hret tt.

End Operator.

(** The name of the database in the configuration. *)
Definition database_name (c : gmap string json) : option json :=
  match c !! "database" with
  | Some (JDict db) => db !! "name"
  | _ => None
  end.

Definition drop_prompt (fmt : formatting) (dbname : json) : string :=
  "Do you want to drop `" +:+ format fmt dbname +:+ "` database? [y/n]: ".

(** A node whose configuration names its database. *)
Definition drop_test_config : gmap string json :=
  {[ "database" := JDict {[ "name" := JStr "bigchain" ]};
     "keypair" := JDict {[ "public" := JStr "pub"; "private" := JStr "priv" ]} ]}.

Definition plain_surroundings : surroundings :=
  {| CONFIG_DEFAULT_PATH := "/root/.bigchaindb";
     env_update := fun c => c;
     schema_drop_database := fun _ => None |}.

(** An initialised node with the operator's lines waiting. *)
Definition drop_test_host (lines : list string) : host :=
  Host (World drop_test_config true 1 []) lines ∅ ∅ [].

Definition drop_options (y : bool) : options :=
  {| config_option := None; yes := y; backend := "rethinkdb" |}.

(** [m] leaves the component [f] of the host as it is, however it ends. *)
Definition keeps {A X} (f : host -> X) (m : H A) : Prop :=
  forall h, f (m h).2 = f h.

Definition overwrite_prompt (config_path : string) : string :=
  "Config file `" +:+ config_path
  +:+ "` exists, do you want to override it? (cannot be undone) [y/N]: ".

(** The keypair dictionary after the two assignments of a generated pair. *)
Definition with_generated_keypair (ext : externals) (kp : gmap string json) : json :=
  JDict (<["public" := JStr (generate_key_pair ext).2]>
           (<["private" := JStr (generate_key_pair ext).1]> kp)).

(** The configuration [configure --yes] writes: the patched configuration
    with the generated keypair and the defaults of the backend. *)
Definition default_conf (ext : externals) (sur : surroundings) (c kp : gmap string json)
    (database : json) : gmap string json :=
  <["database" := database]>
    (<["keypair" := with_generated_keypair ext kp]> (env_update sur c)).

(** What [configure] writes on standard error around the prompts. *)
Definition configure_preamble (o : options) : list event :=
  [Stderr "Generating keypair"; GenerateKeyPair;
   Stderr ("Generating default configuration for backend " +:+ backend o)].

Definition configure_epilogue (config_path : string) : list event :=
  [Stderr ("Configuration written to " +:+ config_path); Stderr "Ready to go!"].

(** A configuration with every entry [configure] asks about. *)
Definition configure_test_config : gmap string json :=
  {[ "server" := JDict {[ "bind" := JStr "localhost:9984" ]};
     "keypair" := JDict {[ "public" := JNull; "private" := JNull ]};
     "backlog_reassign_delay" := JInt 120 ]}.

Definition rethinkdb_defaults : gmap string json :=
  {[ "backend" := JStr "rethinkdb"; "host" := JStr "localhost";
     "port" := JInt 28015; "name" := JStr "bigchain" ]}.

Definition configure_test_host (lines : list string) (fs : gmap string json) : host :=
  Host (World configure_test_config false 0 []) lines fs
    {[ "rethinkdb" := JDict rethinkdb_defaults ]} [].

Definition configure_options (path : option string) (y : bool) : options :=
  {| config_option := path; yes := y; backend := "rethinkdb" |}.

(** The entries [configure] asks about are there: the patched
    configuration [conf] has a keypair dictionary, a server dictionary with
    [bind] and the reassignment delay, and the backend's defaults
    [database] are a dictionary with [host], [port] and [name]. *)
Definition has_defaults (conf : gmap string json) (database : json) : Prop :=
  (exists kp, conf !! "keypair" = Some (JDict kp))
  /\ (exists srv, conf !! "server" = Some (JDict srv) /\ is_Some (srv !! "bind"))
  /\ is_Some (conf !! "backlog_reassign_delay")
  /\ exists dbm, database = JDict dbm
       /\ is_Some (dbm !! "host") /\ is_Some (dbm !! "port") /\ is_Some (dbm !! "name").

Definition with_yes (o : options) : options :=
  {| config_option := config_option o; yes := true; backend := backend o |}.

(** The backend's defaults after the answers [host], [port] and [name]. *)
Definition answered_database (dbm : gmap string json) (hv pv nv : json)
    (host port name : string) : gmap string json :=
  <["name" := or_default name nv]>
    (<["port" := or_default port pv]> (<["host" := or_default host hv]> dbm)).

(** The configuration after the answers [bind] and [delay], with
    [database] for the backend. *)
Definition answered_conf (conf srv : gmap string json) (bv dv : json)
    (database : gmap string json) (bind delay : string) : gmap string json :=
  <["backlog_reassign_delay" := or_default delay dv]>
    (<["database" := JDict database]>
       (<["server" := JDict (<["bind" := or_default bind bv]> srv)]> conf)).

Definition server_prompt (fmt : formatting) (key : string) (val : json) : string :=
  "API Server " +:+ key +:+ "? (default `" +:+ format fmt val +:+ "`): ".

Definition database_prompt (fmt : formatting) (key : string) (val : json) : string :=
  "Database " +:+ key +:+ "? (default `" +:+ format fmt val +:+ "`): ".

Definition delay_prompt (fmt : formatting) (val : json) : string :=
  "Stale transaction reassignment delay (in seconds)? (default `"
  +:+ format fmt val +:+ "`): ".
(** * Properties *)

(** ** The commands *)

Lemma new_events_logged evs w : new_events w (logged evs w) = evs.
Proof. unfold new_events, logged; cbn. apply drop_app_length. Qed.

Lemma logged_logged evs1 evs2 w :
  logged evs2 (logged evs1 w) = logged (evs1 ++ evs2) w.
Proof. unfold logged; cbn. rewrite app_assoc. reflexivity. Qed.

Lemma bind_ok {A B} (m : M A) (k : A -> M B) w a w1 :
  m w = (Ok a, w1) -> bind m k w = k a w1.
Proof. unfold bind. intros ->. reflexivity. Qed.

Lemma bind_raise {A B} (m : M A) (k : A -> M B) w e w1 :
  m w = (Raise e, w1) -> bind m k w = (Raise e, w1).
Proof. unfold bind. intros ->. reflexivity. Qed.

Lemma config_keypair_eval field w v :
  keypair_field (config w) field = Some v ->
  config_keypair field w = (Ok v, w).
Proof.
  unfold keypair_field, config_keypair, bind, get_config, subscript. intros H.
  destruct (config w !! "keypair") as [[| | | | |kp]|]; try discriminate.
  cbn. rewrite H. reflexivity.
Qed.

Lemma Bigchain_new_eval w pub priv :
  keypair_field (config w) "public" = Some pub ->
  keypair_field (config w) "private" = Some priv ->
  Bigchain_new w =
    if truthy pub && truthy priv
    then (Ok {| me := pub; me_private := priv; b_connection := Conn |}, w)
    else (Raise KeypairNotFoundException, w).
Proof.
  intros Hpub Hpriv. unfold Bigchain_new.
  rewrite (bind_ok _ _ _ _ _ (config_keypair_eval _ _ _ Hpub)).
  rewrite (bind_ok _ _ _ _ _ (config_keypair_eval _ _ _ Hpriv)).
  destruct (truthy pub && truthy priv); reflexivity.
Qed.

(** *** The topology commands *)

(** What a topology command does, whatever the backend answers. *)
Lemma run_topology_eval ext op w :
  run_topology ext op w =
    match backend_answer ext op with
    | None =>
        match op with
        | AddReplicasOp hosts =>
            (Ok tt, logged [Connect; op_event op;
                            Stdout ("Added " +:+ py_repr_list hosts +:+ " to the replicaset.")] w)
        | RemoveReplicasOp hosts =>
            (Ok tt, logged [Connect; op_event op;
                            Stdout ("Removed " +:+ py_repr_list hosts +:+ " from the replicaset.")] w)
        | _ => (Ok tt, logged [Connect; op_event op] w)
        end
    | Some e =>
        if is_OperationError e || (is_NotImplementedError e && is_replica_set_op op)
        then (Ok tt, logged [Connect; op_event op; Stderr (exn_str e)] w)
        else (Raise e, logged [Connect; op_event op] w)
    end.
Proof.
  destruct op as [n|n|hosts|hosts]; cbn;
    unfold run_set_shards, run_set_replicas, run_add_replicas, run_remove_replicas,
      set_shards, set_replicas, add_replicas, remove_replicas, backend_call,
      backend_connect, try_except, try_except_else, bind, emit, print, print_stderr,
      ret, raise; cbn;
    match goal with |- context [match ?x with Some _ => _ | None => _ end] =>
      destruct x as [[]|] end; cbn;
    unfold print_stderr, print, emit; rewrite ?logged_logged; reflexivity.
Qed.

(** C4, as the code has it: [set-shards] and [set-replicas] do not look at
    the number.  For every integer, zero and the negative ones included, the
    command connects to the backend and hands it the number unchanged; a
    rejection can only be the backend's answer. *)
Theorem set_shards_set_replicas_pass_every_integer ext a w :
  (exists rest,
     new_events w (run_set_shards ext a w).2 = Connect :: SetShards (num_shards a) :: rest)
  /\ (exists rest,
        new_events w (run_set_replicas ext a w).2
        = Connect :: SetReplicas (num_replicas a) :: rest).
Proof.
  split.
  - pose proof (run_topology_eval ext (SetShardsOp (num_shards a)) w) as H.
    change (run_topology ext (SetShardsOp (num_shards a)) w)
      with (run_set_shards ext a w) in H. rewrite H. cbn.
    destruct (admin_set_shards ext (num_shards a)) as [e|];
      [destruct (is_OperationError e || _)|]; cbn [snd];
      rewrite new_events_logged; eexists; reflexivity.
  - pose proof (run_topology_eval ext (SetReplicasOp (num_replicas a)) w) as H.
    change (run_topology ext (SetReplicasOp (num_replicas a)) w)
      with (run_set_replicas ext a w) in H. rewrite H. cbn.
    destruct (admin_set_replicas ext (num_replicas a)) as [e|];
      [destruct (is_OperationError e || _)|]; cbn [snd];
      rewrite new_events_logged; eexists; reflexivity.
Qed.

(** C4 fails at [set-replicas -1]: the value is not positive, yet the command
    connects to the backend and calls [set_replicas] with it. *)
Lemma set_replicas_minus_one_reaches_backend :
  (-1 <= 0)%Z
  /\ new_events empty_world
       (run_set_replicas accepting_backend (topology_args (SetReplicasOp (-1))) empty_world).2
     = [Connect; SetReplicas (-1)]
  /\ existsb touches_backend
       (new_events empty_world
          (run_set_replicas accepting_backend (topology_args (SetReplicasOp (-1)))
             empty_world).2)
     = true.
Proof. split; [lia|]. split; reflexivity. Qed.

(** C7: a rejection by the backend ([OperationError]), in any of the four
    commands, and a missing replica-set capability ([NotImplementedError]
    from [add-replicas] or [remove-replicas], the two replica-set
    operations) is printed on standard error; the command then returns
    (exit status 0) having called the backend once. *)
Theorem topology_error_is_reported ext op e w :
  backend_answer ext op = Some e ->
  is_OperationError e || (is_NotImplementedError e && is_replica_set_op op) = true ->
  run_topology ext op w = (Ok tt, logged [Connect; op_event op; Stderr (exn_str e)] w)
  /\ exit_status (run_topology ext op w).1 = 0%Z
  /\ stderr_lines (new_events w (run_topology ext op w).2) = [exn_str e].
Proof.
  intros Hans Hcaught. rewrite run_topology_eval, Hans, Hcaught. cbn [fst snd].
  rewrite new_events_logged. split; [reflexivity|]. split; [reflexivity|].
  destruct op; reflexivity.
Qed.

Lemma topology_error_is_reported_witness :
  run_topology replica_set_less_backend (AddReplicasOp ["localhost:27017"]) empty_world
  = (Ok tt,
     logged [Connect; AddReplicas ["localhost:27017"];
             Stderr "This command is specific to the MongoDB backend."] empty_world)
  /\ exit_status
       (run_topology replica_set_less_backend (AddReplicasOp ["localhost:27017"])
          empty_world).1 = 0%Z
  /\ stderr_lines
       (new_events empty_world
          (run_topology replica_set_less_backend (AddReplicasOp ["localhost:27017"])
             empty_world).2)
     = ["This command is specific to the MongoDB backend."].
Proof.
  apply (topology_error_is_reported replica_set_less_backend
           (AddReplicasOp ["localhost:27017"])
           (NotImplementedError "This command is specific to the MongoDB backend.")
           empty_world); reflexivity.
Defined.

(** [set-shards] is no replica-set operation, and [run_set_shards] has a
    clause for [OperationError] only: on a backend whose [set_shards] is not
    implemented the [NotImplementedError] leaves the command, nothing is
    printed by it on standard error, and the process ends with status 1. *)
Lemma set_shards_not_implemented_is_fatal :
  backend_answer backend_without_sharding (SetShardsOp 3) = Some (NotImplementedError "")
  /\ (run_set_shards backend_without_sharding (topology_args (SetShardsOp 3)) empty_world).1
     = Raise (NotImplementedError "")
  /\ exit_status
       (run_set_shards backend_without_sharding (topology_args (SetShardsOp 3)) empty_world).1
     <> 0%Z
  /\ stderr_lines
       (new_events empty_world
          (run_set_shards backend_without_sharding (topology_args (SetShardsOp 3))
             empty_world).2)
     = [].
Proof. repeat split. discriminate. Qed.

(** *** [init] *)

Lemma _run_init_eval w pub priv :
  keypair_field (config w) "public" = Some pub ->
  keypair_field (config w) "private" = Some priv ->
  _run_init w =
    if truthy pub && truthy priv then
      if db_exists w then (Raise DatabaseAlreadyExists, logged [InitDatabase] w)
      else (Ok tt, World (config w) true (S (genesis_blocks w)) (trace w ++ init_events))
    else (Raise KeypairNotFoundException, w).
Proof.
  intros Hpub Hpriv. unfold _run_init, bind.
  rewrite (Bigchain_new_eval w pub priv Hpub Hpriv).
  destruct (truthy pub && truthy priv); [|reflexivity].
  unfold init_database, bind, emit. cbn.
  destruct (db_exists w); [reflexivity|].
  unfold print, create_genesis_block, bind, emit, logged. cbn.
  rewrite <- !app_assoc. reflexivity.
Qed.

(** C3, as the code has it: on a node whose keypair is configured, [init]
    on a fresh backend creates the database and one genesis record; a second
    [init] creates nothing, says on standard error that the database already
    exists, and returns (exit status 0). *)
Theorem init_twice_creates_one_genesis a w :
  keypair_configured (config w) ->
  db_exists w = false ->
  genesis_blocks w = 0 ->
  let first := run_init a w in
  let second := run_init a first.2 in
  first.1 = Ok tt
  /\ genesis_blocks first.2 = 1
  /\ new_events w first.2 = init_events
  /\ second.1 = Ok tt
  /\ exit_status second.1 = 0%Z
  /\ genesis_blocks second.2 = 1
  /\ new_events first.2 second.2
     = [InitDatabase; Stderr "The database already exists.";
        Stderr "If you wish to re-initialize it, first drop it."].
Proof.
  intros (pub & priv & Hpub & Hpriv & Tpub & Tpriv) Hdb Hgen.
  assert (run_init a w
          = (Ok tt, World (config w) true 1 (trace w ++ init_events))) as E1.
  { unfold run_init, try_except.
    rewrite (_run_init_eval w pub priv Hpub Hpriv), Tpub, Tpriv, Hdb, Hgen.
    reflexivity. }
  cbn zeta. rewrite E1. cbn [fst snd].
  assert (run_init a (World (config w) true 1 (trace w ++ init_events))
          = (Ok tt,
             logged [InitDatabase; Stderr "The database already exists.";
                     Stderr "If you wish to re-initialize it, first drop it."]
               (World (config w) true 1 (trace w ++ init_events)))) as E2.
  { unfold run_init, try_except.
    rewrite (_run_init_eval (World (config w) true 1 (trace w ++ init_events))
               pub priv Hpub Hpriv), Tpub, Tpriv. cbn.
    unfold print_stderr, bind, emit. cbn. rewrite !logged_logged. reflexivity. }
  rewrite E2. cbn [fst snd].
  repeat split.
  - unfold new_events; cbn. apply drop_app_length.
  - apply new_events_logged.
Qed.

Lemma init_twice_creates_one_genesis_witness :
  let w := World configured_config false 0 [] in
  let first := run_init parser_defaults w in
  let second := run_init parser_defaults first.2 in
  first.1 = Ok tt
  /\ genesis_blocks first.2 = 1
  /\ new_events w first.2 = init_events
  /\ second.1 = Ok tt
  /\ exit_status second.1 = 0%Z
  /\ genesis_blocks second.2 = 1
  /\ new_events first.2 second.2
     = [InitDatabase; Stderr "The database already exists.";
        Stderr "If you wish to re-initialize it, first drop it."].
Proof.
  apply (init_twice_creates_one_genesis parser_defaults
           (World configured_config false 0 [])); [|reflexivity|reflexivity].
  exists (JStr "pub"), (JStr "priv"). repeat split; vm_compute; reflexivity.
Defined.

(** C3 fails on a node without a keypair: [Bigchain()] raises
    [KeypairNotFoundException], which [run_init] does not catch; both runs
    end with status 1 and the fresh backend gets no genesis record. *)
Lemma init_twice_without_keypair :
  let w := World keyless_config false 0 [] in
  let first := run_init parser_defaults w in
  let second := run_init parser_defaults first.2 in
  db_exists w = false
  /\ first.1 = Raise KeypairNotFoundException
  /\ second.1 = Raise KeypairNotFoundException
  /\ exit_status second.1 <> 0%Z
  /\ genesis_blocks second.2 = 0.
Proof. vm_compute. repeat split. discriminate. Qed.

(** *** [start] *)

Lemma extends_refl P w : extends P w w.
Proof. repeat split. exists []. rewrite app_nil_r. split; [reflexivity|constructor]. Qed.

Lemma extends_trans P w1 w2 w3 :
  extends P w1 w2 -> extends P w2 w3 -> extends P w1 w3.
Proof.
  intros (Hd1 & Hg1 & e1 & Ht1 & Hp1) (Hd2 & Hg2 & e2 & Ht2 & Hp2).
  split; [congruence|]. split; [congruence|].
  exists (e1 ++ e2). split.
  - rewrite Ht2, Ht1, app_assoc. reflexivity.
  - apply Forall_app; split; assumption.
Qed.

Lemma quiet_ret {A} P (a : A) : quiet P (ret a).
Proof. intros w. apply extends_refl. Qed.

Lemma quiet_raise {A} P e : quiet P (@raise A e).
Proof. intros w. apply extends_refl. Qed.

Lemma quiet_emit (P : event -> Prop) e : P e -> quiet P (emit e).
Proof.
  intros He w. repeat split. exists [e]. split; [reflexivity|].
  constructor; [assumption|constructor].
Qed.

Lemma quiet_bind {A B} P (m : M A) (k : A -> M B) :
  quiet P m -> (forall a, quiet P (k a)) -> quiet P (bind m k).
Proof.
  intros Hm Hk w. unfold bind. specialize (Hm w).
  destruct (m w) as [[a|e] w1]; cbn in Hm |- *; [|assumption].
  eapply extends_trans; [eassumption|]. apply Hk.
Qed.

Lemma quiet_try_except {A} P (m : M A) handler :
  quiet P m -> (forall e h, handler e = Some h -> quiet P h) ->
  quiet P (try_except m handler).
Proof.
  intros Hm Hh w. unfold try_except. specialize (Hm w).
  destruct (m w) as [[a|e] w1]; cbn in Hm |- *; [assumption|].
  destruct (handler e) as [h|] eqn:He; [|assumption].
  eapply extends_trans; [eassumption|]. apply (Hh e h He).
Qed.

Lemma quiet_get_config P : quiet P get_config.
Proof. intros w. apply extends_refl. Qed.

Lemma quiet_set_config P c : quiet P (set_config c).
Proof.
  intros w. repeat split. exists []. cbn. rewrite app_nil_r.
  split; [reflexivity|constructor].
Qed.

Lemma quiet_subscript P d k : quiet P (subscript d k).
Proof.
  destruct d as [| | | | |m]; cbn; try apply quiet_raise.
  destruct (m !! k); [apply quiet_ret|apply quiet_raise].
Qed.

Lemma quiet_setitem P d k v : quiet P (setitem d k v).
Proof. destruct d; cbn; try apply quiet_raise. apply quiet_ret. Qed.

Lemma quiet_config_keypair P field : quiet P (config_keypair field).
Proof.
  unfold config_keypair. apply quiet_bind; [apply quiet_get_config|]. intros c.
  apply quiet_bind; [apply quiet_subscript|]. intros kp. apply quiet_subscript.
Qed.

Lemma quiet_set_config_keypair P field v : quiet P (set_config_keypair field v).
Proof.
  unfold set_config_keypair. apply quiet_bind; [apply quiet_get_config|]. intros c.
  apply quiet_bind; [apply quiet_subscript|]. intros kp.
  apply quiet_bind; [apply quiet_setitem|]. intros kp'. apply quiet_set_config.
Qed.

Create HintDb quiet.
#[export] Hint Resolve quiet_ret quiet_raise quiet_get_config quiet_set_config
  quiet_subscript quiet_setitem quiet_config_keypair quiet_set_config_keypair : quiet.

(** Reading the keypair changes nothing, and fails only with [KeyError] or
    [TypeError]. *)
Lemma config_keypair_reads field w :
  (config_keypair field w).2 = w
  /\ forall e, (config_keypair field w).1 = Raise e ->
               e <> DatabaseAlreadyExists /\ e <> KeypairNotFoundException.
Proof.
  unfold config_keypair, bind, get_config, subscript.
  destruct (config w !! "keypair") as [[| | | | |kp]|]; cbn;
    try (split; [reflexivity|intros e [= <-]; split; discriminate]).
  destruct (kp !! field); cbn; (split; [reflexivity|intros e [= <-]; split; discriminate]).
Qed.

(** [Bigchain()] only reads the configuration. *)
Lemma Bigchain_new_reads w : (Bigchain_new w).2 = w.
Proof.
  unfold Bigchain_new, bind.
  destruct (config_keypair_reads "public" w) as [H1 _].
  destruct (config_keypair "public" w) as [[pub|e] w1]; cbn in H1; subst w1; [|reflexivity].
  destruct (config_keypair_reads "private" w) as [H2 _].
  destruct (config_keypair "private" w) as [[priv|e] w1]; cbn in H2; subst w1; [|reflexivity].
  destruct (truthy pub && truthy priv); reflexivity.
Qed.

Lemma Bigchain_new_raises w e :
  (Bigchain_new w).1 = Raise e -> e <> DatabaseAlreadyExists.
Proof.
  unfold Bigchain_new, bind.
  destruct (config_keypair_reads "public" w) as [H1 R1].
  destruct (config_keypair "public" w) as [[pub|e1] w1]; cbn in H1, R1; subst w1;
    [|intros [= <-]; apply (R1 e1 eq_refl)].
  destruct (config_keypair_reads "private" w) as [H2 R2].
  destruct (config_keypair "private" w) as [[priv|e2] w1]; cbn in H2, R2; subst w1;
    [|intros [= <-]; apply (R2 e2 eq_refl)].
  destruct (truthy pub && truthy priv); cbn; [discriminate|intros [= <-]; discriminate].
Qed.

(** The three ways [_run_init] can go. *)
Lemma _run_init_cases w :
  (exists e, _run_init w = (Raise e, w) /\ e <> DatabaseAlreadyExists)
  \/ (db_exists w = true
      /\ _run_init w = (Raise DatabaseAlreadyExists, logged [InitDatabase] w))
  \/ (db_exists w = false
      /\ _run_init w
         = (Ok tt, World (config w) true (S (genesis_blocks w)) (trace w ++ init_events))).
Proof.
  unfold _run_init, bind.
  pose proof (Bigchain_new_reads w) as Hw. pose proof (Bigchain_new_raises w) as He.
  destruct (Bigchain_new w) as [[b|e] w1]; cbn in Hw, He; subst w1.
  - right. unfold init_database, bind, emit. cbn.
    destruct (db_exists w); [left; split; reflexivity|right; split; [reflexivity|]].
    unfold print, create_genesis_block, bind, emit, logged. cbn.
    rewrite <- !app_assoc. reflexivity.
  - left. exists e. split; [reflexivity|]. apply He. reflexivity.
Qed.

Lemma bind_phase {A B} P (m : M A) (k : A -> M B) w :
  quiet P m ->
  exists w1, extends P w w1
    /\ ((exists a, bind m k w = k a w1) \/ (exists e, bind m k w = (Raise e, w1))).
Proof.
  intros Hm. specialize (Hm w). unfold bind.
  destruct (m w) as [[a|e] w1]; cbn in Hm; exists w1; (split; [assumption|]); eauto.
Qed.

Ltac solve_quiet :=
  repeat first
    [ solve [auto with quiet]
    | apply quiet_emit; exact I
    | apply quiet_bind; [|intros ?]
    | apply quiet_try_except;
        [|let e := fresh "e" in let h := fresh "h" in let Hh := fresh "Hh" in
          intros e h Hh; destruct e; try discriminate Hh; injection Hh as <-]
    | match goal with
      | |- quiet _ (if ?c then _ else _) => destruct c
      | |- quiet _ (match ?x with inl _ => _ | inr _ => _ end) => destruct x
      | |- quiet _ (let '(_, _) := ?x in _) => destruct x
      end
    | progress unfold print, print_stderr, sys_exit, utils_start_rethinkdb ].

(** [run_start] first runs steps that leave the backend alone, and then, if
    none of them ended the command, the initialisation and the handoff. *)
Lemma run_start_phases ext a w :
  exists w1, extends before_init w w1
    /\ (run_start ext a w = start_init_and_handoff w1
        \/ exists e, run_start ext a w = (Raise e, w1)).
Proof.
  unfold run_start.
  match goal with |- context [bind ?m ?k w] =>
    destruct (bind_phase before_init m k w ltac:(solve_quiet))
      as (w1 & E1 & [[[] ->] | [e ->]]) end;
    [|exists w1; split; [assumption|right; eauto]].
  match goal with |- context [bind ?m ?k w1] =>
    destruct (bind_phase before_init m k w1 ltac:(solve_quiet))
      as (w2 & E2 & [[[] ->] | [e ->]]) end;
    [|exists w2; split; [eapply extends_trans; eassumption|right; eauto]].
  match goal with |- context [bind ?m ?k w2] =>
    destruct (bind_phase before_init m k w2 ltac:(solve_quiet))
      as (w3 & E3 & [[[] ->] | [e ->]]) end;
    [|exists w3; split; [repeat (eapply extends_trans; [eassumption|]); first [assumption|apply extends_refl]
                        |right; eauto]].
  match goal with |- context [bind ?m ?k w3] =>
    destruct (bind_phase before_init m k w3 ltac:(solve_quiet))
      as (w4 & E4 & [[[] ->] | [e ->]]) end;
    (exists w4; split; [repeat (eapply extends_trans; [eassumption|]); first [assumption|apply extends_refl]|]).
  - left. reflexivity.
  - right. eauto.
Qed.

Lemma try_except_ok {A} (m : M A) handler w a w1 :
  m w = (Ok a, w1) -> try_except m handler w = (Ok a, w1).
Proof. unfold try_except. intros ->. reflexivity. Qed.

Lemma try_except_caught {A} (m : M A) handler w e h w1 :
  m w = (Raise e, w1) -> handler e = Some h -> try_except m handler w = h w1.
Proof. unfold try_except. intros -> ->. reflexivity. Qed.

Lemma try_except_uncaught {A} (m : M A) handler w e w1 :
  m w = (Raise e, w1) -> handler e = None -> try_except m handler w = (Raise e, w1).
Proof. unfold try_except. intros -> ->. reflexivity. Qed.

Lemma new_events_app w w' evs :
  trace w' = trace w ++ evs -> new_events w w' = evs.
Proof. unfold new_events. intros ->. apply drop_app_length. Qed.

Lemma before_init_not_genesis e : before_init e -> not_genesis e.
Proof. destruct e; cbn; auto. Qed.

Lemma not_genesis_elem evs :
  Forall not_genesis evs -> CreateGenesisBlock ∈ evs -> False.
Proof. intros H Hin. rewrite Forall_forall in H. apply (H _ Hin). Qed.

(** The handoff: the log record and [processes.start()]. *)
Lemma quiet_handoff :
  quiet not_genesis
    (pub <- config_keypair "public" ;;
     emit (LogInfo "Starting BigchainDB main process with public key %s" [pub]) ;;
     emit ProcessesStart).
Proof. solve_quiet. Qed.

(** From the initialisation on, [run_start] stops with an exception and no
    further effect, or finds the database there and goes on without creating
    a genesis record, or creates the database and its genesis record. *)
Lemma start_init_and_handoff_shape w1 :
  (exists e, start_init_and_handoff w1 = (Raise e, w1))
  \/ (db_exists w1 = true
      /\ extends not_genesis (logged [InitDatabase] w1) (start_init_and_handoff w1).2)
  \/ (db_exists w1 = false
      /\ extends not_genesis
           (World (config w1) true (S (genesis_blocks w1)) (trace w1 ++ init_events))
           (start_init_and_handoff w1).2).
Proof.
  unfold start_init_and_handoff.
  destruct (_run_init_cases w1) as [(e & He & Hne) | [(Hdb & He) | (Hdb & He)]].
  - left. destruct e; try contradiction;
      try (eexists; apply bind_raise; apply (try_except_uncaught _ _ _ _ _ He); reflexivity).
    eexists. apply bind_raise.
    rewrite (try_except_caught _ _ _ _ _ _ He eq_refl). reflexivity.
  - right; left. split; [assumption|].
    erewrite bind_ok; [|rewrite (try_except_caught _ _ _ _ _ _ He eq_refl); reflexivity].
    apply quiet_handoff.
  - right; right. split; [assumption|].
    erewrite bind_ok; [|apply (try_except_ok _ _ _ _ _ He)].
    apply quiet_handoff.
Qed.

(** [run_start] as a whole: either no genesis record is created, or the
    database was not there and the events of a fresh initialisation, with the
    genesis creation right after [init_database], are part of the run. *)
Lemma run_start_shape ext a w :
  let w' := (run_start ext a w).2 in
  (Forall not_genesis (new_events w w') /\ genesis_blocks w' = genesis_blocks w)
  \/ (db_exists w = false
      /\ genesis_blocks w' = S (genesis_blocks w)
      /\ exists pre post,
           new_events w w' = pre ++ init_events ++ post
           /\ Forall before_init pre /\ Forall not_genesis post).
Proof.
  cbn zeta.
  destruct (run_start_phases ext a w) as (w1 & (Hd & Hg & pre & Ht & Hpre) & [-> | [e ->]]).
  - destruct (start_init_and_handoff_shape w1)
      as [(e & ->) | [(Hdb & Hq) | (Hdb & Hq)]]; cbn [snd].
    + left. rewrite (new_events_app _ _ _ Ht). split; [|assumption].
      eapply Forall_impl; [eassumption|apply before_init_not_genesis].
    + left. destruct Hq as (_ & Hg' & post & Ht' & Hpost). cbn in Hg', Ht'.
      split; [|congruence].
      rewrite (new_events_app w _ (pre ++ [InitDatabase] ++ post)).
      * apply Forall_app; split;
          [eapply Forall_impl; [eassumption|apply before_init_not_genesis]|].
        constructor; [exact I|assumption].
      * rewrite Ht', Ht, <- !app_assoc. reflexivity.
    + right. destruct Hq as (_ & Hg' & post & Ht' & Hpost). cbn in Hg', Ht'.
      split; [congruence|]. split; [congruence|].
      exists pre, post. split; [|split; assumption].
      apply new_events_app. rewrite Ht', Ht, <- !app_assoc. reflexivity.
  - left. cbn [snd]. rewrite (new_events_app _ _ _ Ht). split; [|assumption].
    eapply Forall_impl; [eassumption|apply before_init_not_genesis].
Qed.

(** C5: in [start], when the database already exists no genesis creation is
    attempted and the number of genesis records stays as it was; a genesis
    creation only ever happens on a backend whose database was not there,
    right after the [init_database] call that created it (only the
    announcement is printed in between), and then exactly once. *)
Theorem start_creates_genesis_only_after_fresh_init ext a w :
  let w' := (run_start ext a w).2 in
  (db_exists w = true ->
     Forall not_genesis (new_events w w') /\ genesis_blocks w' = genesis_blocks w)
  /\ (CreateGenesisBlock ∈ new_events w w' ->
        db_exists w = false
        /\ genesis_blocks w' = S (genesis_blocks w)
        /\ exists pre post,
             new_events w w'
             = pre ++ [InitDatabase; Stdout "Create genesis block."; CreateGenesisBlock;
                       Stdout "Done, have fun!"] ++ post
             /\ Forall before_init pre /\ Forall not_genesis post).
Proof.
  cbn zeta. destruct (run_start_shape ext a w) as [[Hno Hg] | (Hdb & Hg & Hev)].
  - split; [intros _; split; assumption|].
    intros Hin. destruct (not_genesis_elem _ Hno Hin).
  - split; [intros Hex; congruence|].
    intros _. split; [assumption|]. split; assumption.
Qed.

Lemma bind_assoc {A B C} (m : M A) (k : A -> M B) (h : B -> M C) w :
  bind (bind m k) h w = bind m (fun a => bind (k a) h) w.
Proof. unfold bind. destruct (m w) as [[a|e] w1]; reflexivity. Qed.

Ltac step :=
  first
    [ rewrite bind_assoc
    | erewrite bind_ok
        by (first [reflexivity | apply config_keypair_eval; eassumption]) ].

Lemma start_gives_up ext a w pub priv evs :
  keypair_field (config w) "public" = Some pub ->
  keypair_field (config w) "private" = Some priv ->
  truthy pub && truthy priv = false ->
  bind
    (if start_rethinkdb a
     then
       bind
         (try_except (utils_start_rethinkdb ext)
            (fun e =>
               match e with
               | StartupError _ =>
                   Some (sys_exit ("Error starting RethinkDB, reason is: " +:+ exn_str e))
               | _ => None
               end))
         (fun pid => emit (LogInfo ("RethinkDB started with PID " +:+ pretty pid) []))
     else ret tt)
    (fun _ => start_init_and_handoff) (logged evs w)
  = (Raise (SystemExit (start_exit_message ext a)),
     logged (evs ++ (if start_rethinkdb a then
                       StartRethinkDB ::
                       match rethinkdb_start ext with
                       | inl _ => []
                       | inr pid => [LogInfo ("RethinkDB started with PID " +:+ pretty pid) []]
                       end
                     else [])) w).
Proof.
  intros Hpub Hpriv Hmiss.
  assert (forall evs', start_init_and_handoff (logged evs' w)
          = (Raise (SystemExit keypair_missing_message), logged evs' w)) as Hinit.
  { intros evs'. unfold start_init_and_handoff. apply bind_raise.
    erewrite try_except_caught;
      [|rewrite (_run_init_eval (logged evs' w) pub priv Hpub Hpriv), Hmiss; reflexivity
       |reflexivity].
    reflexivity. }
  unfold start_exit_message. destruct (start_rethinkdb a).
  - unfold utils_start_rethinkdb. destruct (rethinkdb_start ext) as [reason|pid].
    + rewrite bind_assoc. apply bind_raise. cbn. rewrite logged_logged. reflexivity.
    + rewrite bind_assoc. erewrite bind_ok by reflexivity.
      erewrite bind_ok by reflexivity. rewrite !logged_logged. apply Hinit.
  - erewrite bind_ok by reflexivity. rewrite app_nil_r. apply Hinit.
Qed.

Lemma run_start_without_keypair ext a w pub priv :
  keypair_field (config w) "public" = Some pub ->
  keypair_field (config w) "private" = Some priv ->
  truthy pub && truthy priv = false ->
  allow_temp_keypair a = false \/ truthy priv || truthy pub = true ->
  run_start ext a w
  = (Raise (SystemExit (start_exit_message ext a)),
     logged (start_events_without_keypair ext a) w).
Proof.
  intros Hpub Hpriv Hmiss Hpolicy.
  unfold run_start, start_events_without_keypair.
  do 2 step. rewrite logged_logged.
  destruct (allow_temp_keypair a).
  - destruct Hpolicy as [|Hp]; [discriminate|].
    do 3 step.
    pose proof Hp as Hp'.
    destruct (truthy priv) eqn:Tpriv in Hp' |- *; cbn [orb] in Hp'; step;
      rewrite ?Tpriv, ?Hp'; cbn [negb]; step; rewrite logged_logged.
    all: rewrite (start_gives_up ext a w pub priv _ Hpub Hpriv Hmiss);
      rewrite <- !app_assoc; reflexivity.
  - step.
    rewrite (start_gives_up ext a w pub priv _ Hpub Hpriv Hmiss).
    rewrite <- !app_assoc. reflexivity.
Qed.

(** C6: when [start] needs a persisted keypair (temporary keypairs are not
    allowed, or one of the two keys is there, so none is generated) and the
    keypair is not complete, the command ends in [sys.exit] with a message
    (exit status 1): the missing-keypair message, or, when RethinkDB was
    asked for and failed to start first, that error.  Nothing is tried twice,
    the database is not initialised, and the node's processes are not
    started. *)
Theorem start_without_keypair_is_fatal ext a w pub priv :
  keypair_field (config w) "public" = Some pub ->
  keypair_field (config w) "private" = Some priv ->
  truthy pub && truthy priv = false ->
  allow_temp_keypair a = false \/ truthy priv || truthy pub = true ->
  let r := run_start ext a w in
  r.1 = Raise (SystemExit (start_exit_message ext a))
  /\ exit_status r.1 = 1%Z
  /\ start_exit_message ext a <> ""
  /\ r.2 = logged (start_events_without_keypair ext a) w
  /\ Forall before_init (new_events w r.2).
Proof.
  intros Hpub Hpriv Hmiss Hpolicy. cbn zeta.
  rewrite (run_start_without_keypair ext a w pub priv Hpub Hpriv Hmiss Hpolicy).
  cbn [fst snd]. rewrite new_events_logged.
  split; [reflexivity|]. split; [reflexivity|]. split; [|split; [reflexivity|]].
  - unfold start_exit_message.
    destruct (start_rethinkdb a); [destruct (rethinkdb_start ext)|]; discriminate.
  - unfold start_events_without_keypair.
    repeat first [apply Forall_app; split | apply Forall_cons; split | apply Forall_nil];
      try exact I.
    + destruct (allow_temp_keypair a); repeat constructor.
    + destruct (start_rethinkdb a); [destruct (rethinkdb_start ext)|]; repeat constructor.
Qed.

Lemma start_without_keypair_is_fatal_witness :
  let r := run_start accepting_backend parser_defaults (World keyless_config false 0 []) in
  r.1 = Raise (SystemExit (start_exit_message accepting_backend parser_defaults))
  /\ exit_status r.1 = 1%Z
  /\ start_exit_message accepting_backend parser_defaults <> ""
  /\ r.2 = logged (start_events_without_keypair accepting_backend parser_defaults)
             (World keyless_config false 0 [])
  /\ Forall before_init (new_events (World keyless_config false 0 []) r.2).
Proof.
  apply (start_without_keypair_is_fatal accepting_backend parser_defaults
           (World keyless_config false 0 []) JNull JNull);
    [vm_compute; reflexivity|vm_compute; reflexivity|reflexivity|left; reflexivity].
Defined.

(** [start] on a configured node, once on a fresh backend and once more. *)
Example start_fresh_then_again :
  let w := World configured_config false 0 [] in
  let first := run_start accepting_backend parser_defaults w in
  let second := run_start accepting_backend parser_defaults first.2 in
  first.1 = Ok tt /\ genesis_blocks first.2 = 1
  /\ second.1 = Ok tt /\ genesis_blocks second.2 = 1
  /\ new_events first.2 second.2
     = [Stdout "BigchainDB Version 0.10.0"; SetupLogging; InitDatabase;
        LogInfo "Starting BigchainDB main process with public key %s" [JStr "pub"];
        ProcessesStart].
Proof. vm_compute. repeat split. Qed.

(** *** [show-config] *)

Lemma run_show_config_eval ext a w :
  run_show_config ext a w =
    match config w !! "CONFIGURED" with
    | None => (Raise (KeyError "CONFIGURED"), w)
    | Some _ =>
        match config w !! "keypair" with
        | None => (Raise (KeyError "keypair"), w)
        | Some (JDict kp) =>
            match kp !! "private" with
            | None => (Raise (KeyError "private"), w)
            | Some private_key =>
                (Ok tt, logged [Stdout (json_dumps ext (redacted (config w) kp private_key))] w)
            end
        | Some _ => (Raise TypeError, w)
        end
    end.
Proof.
  unfold run_show_config, bind, get_config, delitem, subscript.
  destruct (config w !! "CONFIGURED") as [v|]; [|reflexivity]. cbn.
  rewrite lookup_delete_ne by discriminate.
  destruct (config w !! "keypair") as [[| | | | |kp]|]; try reflexivity. cbn.
  destruct (kp !! "private") as [pk|]; reflexivity.
Qed.

Lemma truthy_nonempty k : k <> "" -> truthy (JStr k) = true.
Proof. intros Hk. cbn. apply negb_true_iff, String.eqb_neq, Hk. Qed.

(** With a private key [k] set, [show-config] prints the same thing whatever
    [k] is. *)
Lemma run_show_config_with_private_key ext a c kp k db g t :
  c !! "keypair" = Some (JDict kp) -> k <> "" ->
  run_show_config ext a (World (with_private_key (JStr k) c) db g t) =
    match c !! "CONFIGURED" with
    | None => (Raise (KeyError "CONFIGURED"), World (with_private_key (JStr k) c) db g t)
    | Some _ =>
        (Ok tt,
         logged [Stdout (json_dumps ext (redacted c kp (JStr private_key_mask)))]
           (World (with_private_key (JStr k) c) db g t))
    end.
Proof.
  intros Hkp Hk. rewrite run_show_config_eval. unfold with_private_key. rewrite Hkp. cbn.
  rewrite lookup_insert_ne by discriminate.
  destruct (c !! "CONFIGURED"); [|reflexivity].
  rewrite !lookup_insert_eq. unfold redacted.
  rewrite (truthy_nonempty k Hk). cbn [truthy].
  rewrite insert_insert_eq, delete_insert_ne by discriminate.
  rewrite insert_insert_eq. reflexivity.
Qed.

Lemma with_private_key_absent k c :
  (forall kp, c !! "keypair" <> Some (JDict kp)) -> with_private_key k c = c.
Proof.
  intros H. unfold with_private_key.
  destruct (c !! "keypair") as [[| | | | |kp]|] eqn:E; try reflexivity.
  destruct (H kp eq_refl).
Qed.

(** [show-config] works on a copy: the configuration stays as it is. *)
Lemma run_show_config_config ext a w :
  config (run_show_config ext a w).2 = config w.
Proof.
  rewrite run_show_config_eval.
  destruct (config w !! "CONFIGURED"); [|reflexivity].
  destruct (config w !! "keypair") as [[| | | | |kp]|]; try reflexivity.
  destruct (kp !! "private"); reflexivity.
Qed.

(** C9: take any configuration and set its private key to [k1], or to [k2],
    both non-empty.  [show-config] ends the same way and prints the same
    text in both cases; what it prints is [json.dumps] of a dictionary built
    from the rest of the configuration, with the mask of 45 [x] where the
    key was; and the configuration itself keeps its key. *)
Theorem show_config_hides_private_key ext a c k1 k2 db g t :
  k1 <> "" -> k2 <> "" ->
  let run k := run_show_config ext a (World (with_private_key (JStr k) c) db g t) in
  (run k1).1 = (run k2).1
  /\ trace (run k1).2 = trace (run k2).2
  /\ stdout_lines (trace (run k1).2) = stdout_lines (trace (run k2).2)
  /\ config (run k1).2 = with_private_key (JStr k1) c
  /\ (forall kp v,
        c !! "keypair" = Some (JDict kp) -> c !! "CONFIGURED" = Some v ->
        (run k1).1 = Ok tt
        /\ trace (run k1).2
           = t ++ [Stdout (json_dumps ext
                             (JDict (<["keypair" :=
                                         JDict (<["private" := JStr private_key_mask]> kp)]>
                                       (delete "CONFIGURED" c))))]).
Proof.
  intros Hk1 Hk2. cbn zeta.
  destruct (c !! "keypair") as [kpv|] eqn:Hkp.
  2: { rewrite !(with_private_key_absent _ c)
         by (intros kp; rewrite Hkp; discriminate).
       rewrite run_show_config_config.
       repeat split; try reflexivity; congruence. }
  destruct kpv as [| | | | |kp].
  1-5: rewrite !(with_private_key_absent _ c)
         by (intros d; rewrite Hkp; discriminate);
       rewrite run_show_config_config;
       repeat split; try reflexivity; congruence.
  rewrite (run_show_config_with_private_key ext a c kp k1 db g t Hkp Hk1).
  rewrite (run_show_config_with_private_key ext a c kp k2 db g t Hkp Hk2).
  destruct (c !! "CONFIGURED") as [v|]; cbn [fst snd trace config logged].
  - repeat split; try reflexivity. simplify_eq. reflexivity.
  - repeat split; try reflexivity; congruence.
Qed.

Lemma show_config_hides_private_key_witness :
  let run k :=
    run_show_config accepting_backend parser_defaults
      (World (with_private_key (JStr k) configured_config) true 1 []) in
  (run "5Kb8kLf9zgWQnogidDA76MzPL6TsZZY36hWXMssSzNydYXYB9KF").1
  = (run "priv").1
  /\ trace (run "5Kb8kLf9zgWQnogidDA76MzPL6TsZZY36hWXMssSzNydYXYB9KF").2
     = trace (run "priv").2
  /\ stdout_lines (trace (run "5Kb8kLf9zgWQnogidDA76MzPL6TsZZY36hWXMssSzNydYXYB9KF").2)
     = stdout_lines (trace (run "priv").2)
  /\ config (run "5Kb8kLf9zgWQnogidDA76MzPL6TsZZY36hWXMssSzNydYXYB9KF").2
     = with_private_key (JStr "5Kb8kLf9zgWQnogidDA76MzPL6TsZZY36hWXMssSzNydYXYB9KF")
         configured_config
  /\ (forall kp v,
        configured_config !! "keypair" = Some (JDict kp) ->
        configured_config !! "CONFIGURED" = Some v ->
        (run "5Kb8kLf9zgWQnogidDA76MzPL6TsZZY36hWXMssSzNydYXYB9KF").1 = Ok tt
        /\ trace (run "5Kb8kLf9zgWQnogidDA76MzPL6TsZZY36hWXMssSzNydYXYB9KF").2
           = [] ++ [Stdout (json_dumps accepting_backend
                              (JDict (<["keypair" :=
                                          JDict (<["private" := JStr private_key_mask]> kp)]>
                                        (delete "CONFIGURED" configured_config))))]).
Proof.
  apply (show_config_hides_private_key accepting_backend parser_defaults configured_config
           "5Kb8kLf9zgWQnogidDA76MzPL6TsZZY36hWXMssSzNydYXYB9KF" "priv" true 1 []);
    discriminate.
Defined.

(** ** The load generator *)

(** *** [int(a / b)] below [2^53] *)

Lemma round_half_even_bounds n d :
  (0 < d)%Z ->
  round_half_even n d = (n / d)%Z
  \/ (round_half_even n d = (n / d + 1)%Z /\ (d <= 2 * (n `mod` d))%Z).
Proof.
  intros Hd. unfold round_half_even. cbv zeta.
  destruct (Z.ltb_spec (2 * (n `mod` d)) d); [left; reflexivity|].
  destruct (Z.ltb_spec d (2 * (n `mod` d))); [right; split; [reflexivity|lia]|].
  destruct (Z.even (n / d)); [left; reflexivity|right; split; [reflexivity|lia]].
Qed.

Lemma scaled_nonneg a b k : (0 <= k)%Z -> scaled a b k = (a * 2 ^ k, b)%Z.
Proof. intros Hk. unfold scaled. destruct (Z.leb_spec 0 k); [reflexivity|lia]. Qed.

(** Below [2^53] the nearest double keeps every digit of the quotient's
    integer part: its exponent leaves [b < 2^(k+1)]. *)
Lemma nearest_double_small a b :
  (0 < a < 2 ^ 53)%Z -> (0 < b)%Z ->
  exists k, (0 <= k)%Z /\ (b < 2 ^ (k + 1))%Z
    /\ nearest_double a b = (round_half_even (a * 2 ^ k) b, k).
Proof.
  intros [Ha Ha53] Hb.
  destruct (Z.log2_spec a Ha) as [Hla1 Hla2].
  destruct (Z.log2_spec b Hb) as [Hlb1 Hlb2].
  pose proof (Z.log2_nonneg a) as Hla0. pose proof (Z.log2_nonneg b) as Hlb0.
  assert (Z.log2 a < 53)%Z as Hla53 by (apply Z.log2_lt_pow2; lia).
  unfold nearest_double.
  set (k0 := (53 + Z.log2 b - Z.log2 a)%Z).
  assert (1 <= k0)%Z as Hk0 by (unfold k0; lia).
  rewrite (scaled_nonneg a b k0) by lia.
  assert (2 ^ k0 * 2 ^ Z.log2 a = 2 ^ 53 * 2 ^ Z.log2 b)%Z as Hpow.
  { rewrite <- !Z.pow_add_r by lia. f_equal. unfold k0. lia. }
  assert (0 < 2 ^ k0)%Z as Hp0 by (apply Z.pow_pos_nonneg; lia).
  assert (0 < 2 ^ Z.log2 a)%Z as Hpa by (apply Z.pow_pos_nonneg; lia).
  assert (0 < 2 ^ Z.log2 b)%Z as Hpb by (apply Z.pow_pos_nonneg; lia).
  rewrite Z.pow_succ_r in Hla2, Hlb2 by lia.
  assert (2 ^ k0 = 2 * 2 ^ (k0 - 1))%Z as Hk0'.
  { replace k0 with (Z.succ (k0 - 1)) at 1 by lia. apply Z.pow_succ_r. lia. }
  assert (0 < 2 ^ (k0 - 1))%Z as Hp1 by (apply Z.pow_pos_nonneg; lia).
  destruct (Z.leb_spec (2 ^ 53 * b) (a * 2 ^ k0)) as [Hbig|Hsmall].
  - exists (k0 - 1)%Z. rewrite (scaled_nonneg a b (k0 - 1)) by lia.
    split; [lia|]. split; [|reflexivity].
    replace (k0 - 1 + 1)%Z with k0 by lia. nia.
  - exists k0. rewrite (scaled_nonneg a b k0) by lia.
    split; [lia|]. split; [|reflexivity].
    rewrite Z.pow_add_r by lia. nia.
Qed.

(** With that room, rounding the scaled quotient cannot carry into the
    integer part. *)
Lemma round_half_even_scaled a b k :
  (0 <= a)%Z -> (0 < b)%Z -> (0 <= k)%Z -> (b < 2 ^ (k + 1))%Z ->
  (round_half_even (a * 2 ^ k) b / 2 ^ k = a / b)%Z.
Proof.
  intros Ha Hb Hk Hroom.
  rewrite Z.pow_add_r in Hroom by lia. change (2 ^ 1)%Z with 2%Z in Hroom.
  set (P := (2 ^ k)%Z) in *.
  assert (0 < P)%Z as HP by (apply Z.pow_pos_nonneg; lia).
  pose proof (Z.div_mod a b ltac:(lia)) as Hab.
  pose proof (Z.mod_pos_bound a b Hb) as Hr.
  pose proof (Z.div_mod (a * P) b ltac:(lia)) as Hn.
  pose proof (Z.mod_pos_bound (a * P) b Hb) as Hr'.
  assert (0 <= a / b)%Z as Hq by (apply Z.div_pos; lia).
  set (q := (a / b)%Z) in *. set (r := (a `mod` b)%Z) in *.
  set (q' := (a * P / b)%Z) in *. set (r' := ((a * P) `mod` b)%Z) in *.
  assert (q * P <= q')%Z as Hlow.
  { unfold q'. apply Z.div_le_lower_bound; [lia|nia]. }
  assert (q' < (q + 1) * P)%Z as Hup.
  { unfold q'. apply Z.div_lt_upper_bound; [lia|nia]. }
  symmetry. apply (Z.div_unique_pos _ _ _ (round_half_even (a * P) b - q * P)%Z).
  - destruct (round_half_even_bounds (a * P) b Hb) as [E|[E Hhalf]];
      fold q' r' in E |- *; rewrite E.
    + lia.
    + fold r' in Hhalf. split; [lia|].
      assert (q' + 1 <> (q + 1) * P)%Z; [|lia].
      intros Heq. nia.
  - lia.
Qed.

(** While the dividend is below [2^53], [int(a / b)] is the integer
    quotient. *)
Lemma int_truediv_exact a b w :
  (0 <= a < 2 ^ 53)%Z -> (0 < b)%Z -> int_truediv a b w = (Ok (a / b)%Z, w).
Proof.
  intros [Ha Ha53] Hb. unfold int_truediv.
  destruct (Z.eqb_spec b 0) as [|_]; [lia|].
  destruct (Z.eqb_spec a 0) as [->|Hne]; [rewrite Z.div_0_l by lia; reflexivity|].
  rewrite (Z.abs_eq a), (Z.abs_eq b) by lia.
  destruct (nearest_double_small a b ltac:(lia) Hb) as (k & Hk & Hroom & ->).
  pose proof (round_half_even_scaled a b k ltac:(lia) Hb Hk Hroom) as Hm.
  assert ((if (k <=? 0)%Z then round_half_even (a * 2 ^ k) b * 2 ^ (- k)
           else round_half_even (a * 2 ^ k) b / 2 ^ k)%Z = (a / b)%Z) as ->.
  { destruct (Z.leb_spec k 0); [|exact Hm].
    assert (k = 0%Z) as -> by lia. cbn [Z.opp]. rewrite Z.pow_0_r, Z.mul_1_r.
    rewrite Z.pow_0_r, Z.div_1_r in Hm. exact Hm. }
  assert (a / b <= a)%Z as Hle by (apply Z.div_le_upper_bound; nia).
  assert (2 ^ 53 < 2 ^ 1024)%Z as Hbig by (apply Z.pow_lt_mono_r; lia).
  destruct (Z.leb_spec (2 ^ 1024) (a / b)); [lia|].
  rewrite (Z.sgn_pos a), (Z.sgn_pos b) by lia. unfold ret. do 2 f_equal. lia.
Qed.

(** *** What [run_load] starts *)

Lemma run_load_with_quota cpus a w q :
  (0 < count a)%Z ->
  (forall w', int_truediv (count a) (multiprocess a) w' = (Ok q, w')) ->
  run_load cpus a w =
    (Ok (ProcessGroup_start cpus (multiprocess a) (Some q)
           (logged [Stdout ("Starting %s processes " +:+ pretty (multiprocess a))] w)),
     logged [Stdout ("Starting %s processes " +:+ pretty (multiprocess a))] w).
Proof.
  intros Hc Hq. unfold run_load, bind, print, emit.
  destruct (Z.gtb_spec (count a) 0) as [_|]; [|lia].
  rewrite Hq. reflexivity.
Qed.

Lemma run_load_bounded cpus a w :
  (0 < count a < 2 ^ 53)%Z -> (0 < multiprocess a)%Z ->
  run_load cpus a w =
    (Ok (Pool (replicate (Z.to_nat (multiprocess a))
                 (fresh_worker (Some (count a / multiprocess a)%Z)))
           (logged [Stdout ("Starting %s processes " +:+ pretty (multiprocess a))] w) []),
     logged [Stdout ("Starting %s processes " +:+ pretty (multiprocess a))] w).
Proof.
  intros Hc Hm.
  rewrite (run_load_with_quota cpus a w (count a / multiprocess a)%Z)
    by (lia || (intros w'; apply int_truediv_exact; lia)).
  unfold ProcessGroup_start, processes.
  destruct (Z.eqb_spec (multiprocess a) 0); [lia|reflexivity].
Qed.


Lemma sum_quotas_replicate n q :
  sum_quotas (replicate n (fresh_worker q)) = (Z.of_nat n * default 0 q)%Z.
Proof.
  induction n as [|n IH]; [reflexivity|].
  unfold sum_quotas in *. cbn [replicate foldr quota fresh_worker tx_left].
  rewrite IH. lia.
Qed.

(** X1: the quotas [run_load] hands out while the count is below [2^53]:
    every worker is started with the same quota, the integer quotient
    [C / W], which is not negative; together they get [C] less the remainder
    of the division, which is [C] exactly when [W] divides [C]. *)
Lemma run_load_quotas cpus a w :
  (0 < count a < 2 ^ 53)%Z -> (0 < multiprocess a)%Z ->
  exists p,
    (run_load cpus a w).1 = Ok p
    /\ workers p = replicate (Z.to_nat (multiprocess a))
                     (fresh_worker (Some (count a / multiprocess a)%Z))
    /\ (0 <= count a / multiprocess a)%Z
    /\ sum_quotas (workers p) = (count a - count a `mod` multiprocess a)%Z
    /\ (sum_quotas (workers p) = count a <-> (multiprocess a | count a)%Z).
Proof.
  intros Hc Hm. rewrite run_load_bounded by lia. eexists; split; [reflexivity|].
  cbn [workers].
  pose proof (Z.div_mod (count a) (multiprocess a) ltac:(lia)) as Hdm.
  pose proof (Z.mod_pos_bound (count a) (multiprocess a) Hm) as Hmod.
  split; [reflexivity|]. split; [apply Z.div_pos; lia|].
  rewrite sum_quotas_replicate, Z2Nat.id by lia. cbn [default from_option]. unfold id.
  split; [lia|]. split.
  - intros H. apply Z.mod_divide; lia.
  - intros H. apply Z.mod_divide in H; lia.
Qed.

Lemma run_load_quotas_witness :
  (0 < count (load_args 4 10) < 2 ^ 53)%Z /\ (0 < multiprocess (load_args 4 10))%Z
  /\ exists p,
       (run_load 8 (load_args 4 10) empty_world).1 = Ok p
       /\ workers p = replicate (Z.to_nat (multiprocess (load_args 4 10)))
                        (fresh_worker
                           (Some (count (load_args 4 10) / multiprocess (load_args 4 10))%Z))
       /\ (0 <= count (load_args 4 10) / multiprocess (load_args 4 10))%Z
       /\ sum_quotas (workers p)
          = (count (load_args 4 10)
             - count (load_args 4 10) `mod` multiprocess (load_args 4 10))%Z
       /\ (sum_quotas (workers p) = count (load_args 4 10)
           <-> (multiprocess (load_args 4 10) | count (load_args 4 10))%Z).
Proof.
  split; [split; reflexivity|]. split; [reflexivity|].
  apply (run_load_quotas 8 (load_args 4 10) empty_world); [split|]; reflexivity.
Defined.

(** *** The steps of the workers *)

Lemma sum_over_insert f ws i w w' :
  ws !! i = Some w ->
  sum_over f (<[i := w']> ws) = (sum_over f ws - f w + f w')%Z.
Proof.
  revert i; induction ws as [|x ws IH]; intros [|i] H; simplify_eq/=.
  - lia.
  - rewrite (IH _ H). lia.
Qed.

Lemma sum_over_replicate f n w :
  sum_over f (replicate n w) = (Z.of_nat n * f w)%Z.
Proof. induction n as [|n IH]; [reflexivity|]. cbn [replicate sum_over]. lia. Qed.

Lemma pool_step_forked p i : forked_from (pool_step p i) = forked_from p.
Proof.
  unfold pool_step. destruct (workers p !! i); [|reflexivity].
  destruct (_run_load_step _ _). reflexivity.
Qed.

Lemma pool_run_forked schedule p : forked_from (pool_run p schedule) = forked_from p.
Proof.
  revert p; induction schedule as [|i schedule IH]; intros p; cbn; [reflexivity|].
  rewrite IH. apply pool_step_forked.
Qed.

Lemma pool_step_length p i : length (workers (pool_step p i)) = length (workers p).
Proof.
  unfold pool_step. destruct (workers p !! i); [|reflexivity].
  destruct (_run_load_step _ _). cbn. apply length_insert.
Qed.

Lemma pool_run_length schedule p :
  length (workers (pool_run p schedule)) = length (workers p).
Proof.
  revert p; induction schedule as [|i schedule IH]; intros p; cbn; [reflexivity|].
  rewrite IH. apply pool_step_length.
Qed.

(** A property of the workers that every step of a worker keeps holds
    along every schedule. *)
Lemma pool_run_invariant (P : worker -> Prop) schedule p :
  (forall wk, P wk -> P (_run_load_step (forked_from p) wk).1) ->
  Forall P (workers p) -> Forall P (workers (pool_run p schedule)).
Proof.
  revert p; induction schedule as [|i schedule IH]; intros p Hstep H; cbn; [assumption|].
  apply IH.
  - rewrite pool_step_forked. exact Hstep.
  - unfold pool_step. destruct (workers p !! i) as [wk|] eqn:Hi; [|assumption].
    pose proof (Hstep wk (Forall_lookup_1 _ _ _ _ H Hi)) as Hwk.
    destruct (_run_load_step _ _). cbn in *. apply Forall_insert; assumption.
Qed.

Lemma _run_load_step_increments node wk :
  (increments wk <= increments (_run_load_step node wk).1)%Z.
Proof.
  unfold _run_load_step. destruct wk as [[| |b|b| |e] tl n]; cbn; try lia.
  - destruct (Bigchain_new node).1; cbn; lia.
  - destruct tl as [t|]; [destruct (t - 1 =? 0)%Z|]; cbn; lia.
Qed.

Lemma pool_step_mono p i :
  (total_increments p <= total_increments (pool_step p i))%Z.
Proof.
  unfold pool_step, total_increments.
  destruct (workers p !! i) as [wk|] eqn:Hi; [|lia].
  pose proof (_run_load_step_increments (forked_from p) wk) as Hinc.
  destruct (_run_load_step _ _). cbn in *.
  rewrite (sum_over_insert _ _ _ _ _ Hi). lia.
Qed.

(** The snapshots of the counter never go down. *)
Lemma snapshots_sorted schedule p : Sorted Z.le (snapshots p schedule).
Proof.
  revert p; induction schedule as [|i schedule IH]; intros p; cbn.
  - repeat constructor.
  - constructor; [apply IH|].
    destruct schedule; cbn; constructor; apply pool_step_mono.
Qed.

(** *** Bounded runs *)

Lemma on_track_step node q wk :
  (0 < q)%Z ->
  on_track (Bigchain_new node).1 q wk ->
  on_track (Bigchain_new node).1 q (_run_load_step node wk).1.
Proof.
  intros Hq. unfold on_track, _run_load_step.
  destruct wk as [[| |b|b| |e] tl n]; cbn; try (intros H; exact H).
  - intros [-> ->]. destruct (Bigchain_new node).1 as [b|e]; cbn.
    + split; [reflexivity|]. exists q. split; [reflexivity|]. lia.
    + split; reflexivity.
  - intros (Hb & t & -> & Ht & ->).
    destruct (Z.eqb_spec (t - 1) 0) as [E|E]; cbn.
    + split; [eauto|lia].
    + split; [assumption|]. exists (t - 1)%Z. split; [reflexivity|lia].
Qed.

Lemma on_track_start built q n :
  Forall (on_track built q) (replicate n (fresh_worker (Some q))).
Proof. apply Forall_replicate. split; reflexivity. Qed.

Lemma on_track_run q schedule p :
  (0 < q)%Z ->
  Forall (on_track (Bigchain_new (forked_from p)).1 q) (workers p) ->
  Forall (on_track (Bigchain_new (forked_from p)).1 q) (workers (pool_run p schedule)).
Proof.
  intros Hq. apply pool_run_invariant. intros wk. apply on_track_step, Hq.
Qed.

(** When every worker of a bounded run has ended, each one that got into
    its loop has made its quota of increments, and one that died building
    [Bigchain()] has made none. *)
Lemma sum_over_finished built q ws :
  Forall (on_track built q) ws -> Forall finished ws ->
  sum_over increments ws
  = (Z.of_nat (length ws) * match built with Ok _ => q | Raise _ => 0 end)%Z.
Proof.
  induction 1 as [|wk ws Hwk _ IH]; intros Hfin; [reflexivity|].
  apply Forall_cons in Hfin as [Hf Hfin]. cbn [sum_over length]. rewrite (IH Hfin).
  assert (increments wk = match built with Ok _ => q | Raise _ => 0%Z end) as ->; [|lia].
  unfold on_track in Hwk. destruct Hf as [E|[e E]]; rewrite E in Hwk.
  - destruct Hwk as [[b ->] ->]. reflexivity.
  - destruct Hwk as [-> ->]. reflexivity.
Qed.

(** When every worker of a bounded run has ended, the counter stands at
    the number of workers times the quota, or at 0 on a node where
    [Bigchain()] fails. *)
Lemma pool_completion_total q n node schedule :
  (0 < q)%Z ->
  let p := pool_run (Pool (replicate n (fresh_worker (Some q))) node []) schedule in
  all_finished p ->
  total_increments p
  = (Z.of_nat n * match (Bigchain_new node).1 with Ok _ => q | Raise _ => 0 end)%Z.
Proof.
  intros Hq p Hall. subst p. unfold total_increments.
  rewrite (sum_over_finished (Bigchain_new node).1 q _
             (on_track_run q schedule (Pool _ node []) Hq (on_track_start _ q n)) Hall).
  rewrite pool_run_length. cbn. rewrite length_replicate. reflexivity.
Qed.

Lemma Bigchain_new_configured w :
  keypair_configured (config w) ->
  exists pub priv,
    (Bigchain_new w).1 = Ok {| me := pub; me_private := priv; b_connection := Conn |}.
Proof.
  intros (pub & priv & Hpub & Hpriv & Tpub & Tpriv). exists pub, priv.
  rewrite (Bigchain_new_eval w pub priv Hpub Hpriv), Tpub, Tpriv. reflexivity.
Qed.

(** *** A worker on its own *)

Lemma _run_load_app k1 k2 node wk :
  _run_load (k1 + k2) node wk
  = (let '(wk1, txs1) := _run_load k1 node wk in
     let '(wk2, txs2) := _run_load k2 node wk1 in
     (wk2, txs1 ++ txs2)).
Proof.
  revert wk; induction k1 as [|k1 IH]; intros wk; cbn [_run_load Nat.add].
  - destruct (_run_load k2 node wk). reflexivity.
  - destruct (_run_load_step node wk) as [wk1 txs1]. rewrite IH.
    destruct (_run_load k1 node wk1) as [wk2 txs2].
    destruct (_run_load k2 node wk2) as [wk3 txs3].
    rewrite app_assoc. reflexivity.
Qed.

(** The two steps before the loop. *)
Lemma _run_load_entry node b tl :
  (Bigchain_new node).1 = Ok b ->
  _run_load 2 node (fresh_worker tl) = (Worker (Submitting b) tl 0, []).
Proof. intros Hb. cbn. rewrite Hb. reflexivity. Qed.

(** One pass through the loop takes two steps. *)
Lemma _run_load_pass node b tl n :
  _run_load 2 node (Worker (Submitting b) tl n)
  = ((_run_load_step node (Worker (Counting b) tl n)).1, [self_transfer b]).
Proof.
  cbn. destruct tl as [t|]; [destruct (t - 1 =? 0)%Z|]; reflexivity.
Qed.


(** A positive quota [k] is used up in exactly [k] passes. *)
Lemma _run_load_passes_quota node b n k :
  (0 < k)%nat ->
  _run_load (2 * k) node (Worker (Submitting b) (Some (Z.of_nat k)) n)
  = (Worker Exited (Some 0%Z) (n + Z.of_nat k), replicate k (self_transfer b)).
Proof.
  revert n; induction k as [|k IH]; intros n Hk; [lia|].
  replace (2 * S k) with (2 + 2 * k) by lia.
  rewrite _run_load_app, _run_load_pass. cbn [_run_load_step at_stage tx_left increments fst].
  destruct (Z.eqb_spec (Z.of_nat (S k) - 1) 0) as [E|E]; cbn [fst].
  - assert (k = 0%nat) as -> by lia. rewrite E. reflexivity.
  - replace (Z.of_nat (S k) - 1)%Z with (Z.of_nat k) by lia.
    rewrite IH by lia. cbn [replicate app].
    replace (n + Z.of_nat (S k))%Z with (n + 1 + Z.of_nat k)%Z by lia. reflexivity.
Qed.

(** A worker on its own, entered with a positive quota, on a node where
    [Bigchain()] succeeds. *)
Lemma _run_load_quota node b n :
  (Bigchain_new node).1 = Ok b -> (0 < n)%Z ->
  _run_load (2 + 2 * Z.to_nat n) node (fresh_worker (Some n))
  = (Worker Exited (Some 0%Z) n, replicate (Z.to_nat n) (self_transfer b)).
Proof.
  intros Hb Hn. rewrite _run_load_app, (_run_load_entry node b _ Hb).
  replace (Some n) with (Some (Z.of_nat (Z.to_nat n))) by (f_equal; lia).
  rewrite _run_load_passes_quota by lia. cbn [app].
  rewrite Z2Nat.id, Z.add_0_l by lia. reflexivity.
Qed.



(** A worker taking [k] steps in a row. *)
Lemma pool_run_solo k p i wk :
  workers p !! i = Some wk ->
  pool_run p (replicate k i)
  = Pool (<[i := (_run_load k (forked_from p) wk).1]> (workers p)) (forked_from p)
      (written p ++ (_run_load k (forked_from p) wk).2).
Proof.
  revert p wk; induction k as [|k IH]; intros p wk Hi; cbn [replicate pool_run _run_load].
  - cbn. rewrite list_insert_id, app_nil_r by assumption. destruct p; reflexivity.
  - assert (i < length (workers p)) as Hlen by (eapply lookup_lt_Some; eassumption).
    unfold pool_step at 1. rewrite Hi.
    destruct (_run_load_step (forked_from p) wk) as [wk1 txs1] eqn:E1.
    rewrite (IH _ wk1) by (cbn; apply list_lookup_insert_eq; assumption).
    cbn [workers forked_from written].
    destruct (_run_load k (forked_from p) wk1) as [wk2 txs2]. cbn [fst snd].
    rewrite list_insert_insert_eq, app_assoc. reflexivity.
Qed.

Lemma pool_run_app s1 s2 p : pool_run p (s1 ++ s2) = pool_run (pool_run p s1) s2.
Proof. revert p; induction s1 as [|i s1 IH]; intros p; cbn; [reflexivity|apply IH]. Qed.

(** *** Runs that never leave the loop *)





(** *** The load generator as a whole *)

(** C1, at [load -c 10 -m 4]: [run_load] starts four workers and gives each
    the quota [int(10 / 4) = 2]; no quota is negative, but together the
    workers are given 8 transactions, not the 10 that were asked for. *)
Theorem run_load_10_over_4_quotas cpus w :
  exists p,
    (run_load cpus (load_args 4 10) w).1 = Ok p
    /\ quota <$> workers p = [Some 2; Some 2; Some 2; Some 2]%Z
    /\ sum_quotas (workers p) = 8%Z
    /\ sum_quotas (workers p) <> count (load_args 4 10).
Proof.
  rewrite (run_load_bounded cpus (load_args 4 10) w) by (cbn; lia).
  eexists. split; [reflexivity|]. cbn. repeat split. discriminate.
Qed.

(** C2, at [load -c 10 -m 4]: on a node whose keypair is configured the
    workers can all complete, and whenever they all have ended, whatever
    the interleaving, their increments add up to 8; on no node do they add
    up to the 10 that were asked for.  Along the way the snapshots of the
    counter never go down. *)
Theorem load_10_over_4_completes_at_8 cpus w :
  exists p,
    (run_load cpus (load_args 4 10) w).1 = Ok p
    /\ (keypair_configured (config w) ->
        (exists schedule, all_exited (pool_run p schedule))
        /\ (forall schedule,
              all_finished (pool_run p schedule) ->
              total_increments (pool_run p schedule) = 8%Z))
    /\ (forall schedule,
          all_finished (pool_run p schedule) ->
          total_increments (pool_run p schedule) <> count (load_args 4 10))
    /\ (forall schedule, Sorted Z.le (snapshots p schedule))
    /\ 8%Z <> count (load_args 4 10).
Proof.
  rewrite (run_load_bounded cpus (load_args 4 10) w) by (cbn; lia).
  eexists. split; [reflexivity|].
  set (node := logged _ w).
  change (count (load_args 4 10) / multiprocess (load_args 4 10))%Z with 2%Z.
  change (Z.to_nat (multiprocess (load_args 4 10))) with 4.
  split; [|split; [|split; [|discriminate]]].
  - intros Hkeys.
    destruct (Bigchain_new_configured node Hkeys) as (pub & priv & Hb).
    split.
    + exists (replicate 6 0 ++ replicate 6 1 ++ replicate 6 2 ++ replicate 6 3).
      pose proof (_run_load_quota node _ 2 Hb ltac:(lia)) as Hrun.
      change (2 + 2 * Z.to_nat 2) with 6 in Hrun.
      rewrite !pool_run_app.
      rewrite (pool_run_solo 6 _ 0 (fresh_worker (Some 2%Z))) by reflexivity.
      cbn [forked_from workers written]. rewrite Hrun. cbn [fst snd].
      rewrite (pool_run_solo 6 _ 1 (fresh_worker (Some 2%Z))) by reflexivity.
      cbn [forked_from workers written]. rewrite Hrun. cbn [fst snd].
      rewrite (pool_run_solo 6 _ 2 (fresh_worker (Some 2%Z))) by reflexivity.
      cbn [forked_from workers written]. rewrite Hrun. cbn [fst snd].
      rewrite (pool_run_solo 6 _ 3 (fresh_worker (Some 2%Z))) by reflexivity.
      cbn [forked_from workers written]. rewrite Hrun. cbn [fst snd].
      repeat constructor.
    + intros schedule Hall.
      rewrite (pool_completion_total 2 4 node schedule ltac:(lia) Hall), Hb. reflexivity.
  - intros schedule Hall.
    rewrite (pool_completion_total 2 4 node schedule ltac:(lia) Hall).
    destruct (Bigchain_new node).1; discriminate.
  - intros schedule. apply snapshots_sorted.
Qed.

Lemma load_10_over_4_completes_at_8_witness :
  exists p,
    (run_load 8 (load_args 4 10) (World configured_config true 1 [])).1 = Ok p
    /\ (exists schedule, all_exited (pool_run p schedule))
    /\ (forall schedule,
          all_finished (pool_run p schedule) ->
          total_increments (pool_run p schedule) = 8%Z).
Proof.
  destruct (load_10_over_4_completes_at_8 8 (World configured_config true 1 []))
    as (p & Hrun & Hkeys & _).
  exists p. split; [exact Hrun|]. apply Hkeys.
  exists (JStr "pub"), (JStr "priv"). vm_compute. repeat split.
Defined.







(** ** Further properties of the load generator *)



(** X14: a bounded run asked for with no worker ([multiprocess] is 0, the
    default) fails in the division and starts nothing. *)
Theorem run_load_without_workers cpus a w :
  (0 < count a)%Z -> multiprocess a = 0%Z ->
  (run_load cpus a w).1 = Raise ZeroDivisionError
  /\ exit_status (run_load cpus a w).1 = 1%Z.
Proof.
  intros Hc Hm. unfold run_load, bind, print, emit, int_truediv.
  destruct (Z.gtb_spec (count a) 0) as [_|]; [|lia]. rewrite Hm. cbn. split; reflexivity.
Qed.

Lemma run_load_without_workers_witness :
  (0 < count (load_args 0 5))%Z /\ multiprocess (load_args 0 5) = 0%Z
  /\ (run_load 8 (load_args 0 5) empty_world).1 = Raise ZeroDivisionError
  /\ exit_status (run_load 8 (load_args 0 5) empty_world).1 = 1%Z.
Proof.
  split; [reflexivity|]. split; [reflexivity|].
  apply (run_load_without_workers 8 (load_args 0 5) empty_world); reflexivity.
Defined.



Lemma sum_over_add f g ws :
  sum_over (fun wk => f wk + g wk)%Z ws = (sum_over f ws + sum_over g ws)%Z.
Proof. induction ws as [|wk ws IH]; [reflexivity|]. cbn [sum_over]. lia. Qed.

Lemma written_step node wk :
  built_with (Bigchain_new node).1 wk ->
  built_with (Bigchain_new node).1 (_run_load_step node wk).1
  /\ (increments (_run_load_step node wk).1 + uncounted (_run_load_step node wk).1
      = increments wk + uncounted wk + Z.of_nat (length (_run_load_step node wk).2))%Z
  /\ Forall (self_transfer_of (Bigchain_new node).1) (_run_load_step node wk).2.
Proof.
  unfold built_with, _run_load_step, uncounted.
  destruct wk as [[| |b|b| |e] tl n]; cbn; intros Hb;
    try (split; [exact I|split; [lia|constructor]]).
  - destruct (Bigchain_new node).1; cbn; (split; [reflexivity || exact I|]);
      (split; [lia|constructor]).
  - split; [exact Hb|]. split; [lia|]. repeat constructor. exists b. split; [exact Hb|reflexivity].
  - destruct tl as [t|]; [destruct (t - 1 =? 0)%Z|]; cbn;
      (split; [exact Hb || exact I|split; [lia|constructor]]).
Qed.

Lemma written_run schedule p :
  Forall (built_with (Bigchain_new (forked_from p)).1) (workers p) ->
  Z.of_nat (length (written p))
  = sum_over (fun wk => increments wk + uncounted wk)%Z (workers p) ->
  Forall (self_transfer_of (Bigchain_new (forked_from p)).1) (written p) ->
  Z.of_nat (length (written (pool_run p schedule)))
  = sum_over (fun wk => increments wk + uncounted wk)%Z (workers (pool_run p schedule))
  /\ Forall (self_transfer_of (Bigchain_new (forked_from p)).1)
       (written (pool_run p schedule)).
Proof.
  revert p; induction schedule as [|i schedule IH]; intros p Hb Hn Htx;
    cbn [pool_run]; [split; assumption|].
  rewrite <- (pool_step_forked p i).
  assert (Forall (built_with (Bigchain_new (forked_from p)).1) (workers (pool_step p i))
          /\ Z.of_nat (length (written (pool_step p i)))
             = sum_over (fun wk => increments wk + uncounted wk)%Z (workers (pool_step p i))
          /\ Forall (self_transfer_of (Bigchain_new (forked_from p)).1)
               (written (pool_step p i))) as (Hb' & Hn' & Htx').
  { unfold pool_step. destruct (workers p !! i) as [wk|] eqn:Hi; [|auto].
    destruct (written_step (forked_from p) wk (Forall_lookup_1 _ _ _ _ Hb Hi))
      as (H1 & H2 & H3).
    destruct (_run_load_step (forked_from p) wk) as [wk' txs].
    cbn [fst snd workers written] in *.
    split; [apply Forall_insert; assumption|]. split.
    - rewrite (sum_over_insert _ _ _ _ _ Hi), length_app. lia.
    - apply Forall_app. split; assumption. }
  apply IH; rewrite ?pool_step_forked; assumption.
Qed.

Lemma run_load_starts cpus a w p :
  (run_load cpus a w).1 = Ok p ->
  exists n tl, workers p = replicate n (fresh_worker tl) /\ written p = [].
Proof.
  unfold run_load, bind, print, emit. intros H.
  destruct (count a >? 0)%Z.
  - destruct (int_truediv _ _ _) as [[q|e] w']; cbn in H; [|discriminate].
    injection H as <-. eexists _, _. split; reflexivity.
  - cbn in H. injection H as <-. eexists _, _. split; reflexivity.
Qed.

(** X16: at every moment of a load run, the transactions written to the
    backlog are as many as the increments made and the workers that have
    written a transaction without having counted it yet: the counter never
    runs ahead of the backlog and is behind by at most one for each worker.
    Every transaction written is the node's transfer to itself, signed with
    the node's private key. *)
Theorem counter_matches_backlog cpus a w p schedule :
  (run_load cpus a w).1 = Ok p ->
  Z.of_nat (length (written (pool_run p schedule)))
  = (total_increments (pool_run p schedule)
     + sum_over uncounted (workers (pool_run p schedule)))%Z
  /\ Forall (self_transfer_of (Bigchain_new (forked_from p)).1)
       (written (pool_run p schedule)).
Proof.
  intros Hrun. destruct (run_load_starts cpus a w p Hrun) as (n & tl & Hw & Hwr).
  unfold total_increments. rewrite <- sum_over_add.
  apply written_run.
  - rewrite Hw. apply Forall_replicate. exact I.
  - rewrite Hw, Hwr, sum_over_replicate. cbn. lia.
  - rewrite Hwr. constructor.
Qed.

Lemma counter_matches_backlog_witness :
  let p := ProcessGroup_start 8 2 (Some 2%Z)
             (logged [Stdout ("Starting %s processes " +:+ pretty 2%Z)]
                (World configured_config true 1 [])) in
  let p' := pool_run p [0; 0; 0; 1; 1; 0; 1] in
  Z.of_nat (length (written p'))
  = (total_increments p' + sum_over uncounted (workers p'))%Z
  /\ Forall (self_transfer_of (Bigchain_new (forked_from p)).1) (written p').
Proof.
  apply (counter_matches_backlog 8 (load_args 2 4) (World configured_config true 1 [])).
  vm_compute. reflexivity.
Defined.

(** ** [start], step by step *)

Lemma run_start_steps ext a w :
  run_start ext a w
  = (print ("BigchainDB Version " +:+ version ext) ;;
     emit SetupLogging ;;
     keypair_phase ext a ;;
     rethinkdb_phase ext a ;;
     start_init_and_handoff) w.
Proof. reflexivity. Qed.

Lemma set_config_keypair_eval field v w kp :
  config w !! "keypair" = Some (JDict kp) ->
  set_config_keypair field v w
  = (Ok tt, World (<["keypair" := JDict (<[field := v]> kp)]> (config w))
              (db_exists w) (genesis_blocks w) (trace w)).
Proof.
  intros Hkp. unfold set_config_keypair, bind, get_config, subscript, setitem, set_config.
  rewrite Hkp. reflexivity.
Qed.

Lemma keypair_phase_eval ext a w kp priv pub :
  config w !! "keypair" = Some (JDict kp) ->
  kp !! "private" = Some priv -> kp !! "public" = Some pub ->
  keypair_phase ext a w =
    if allow_temp_keypair a then
      if truthy priv || truthy pub then
        (Ok tt, logged [LogWarning "Keypair found, no need to create one on the fly."] w)
      else
        (Ok tt,
         World (<["keypair" :=
                    JDict (<["public" := JStr (generate_key_pair ext).2]>
                             (<["private" := JStr (generate_key_pair ext).1]> kp))]>
                  (config w))
           (db_exists w) (genesis_blocks w) (trace w ++ [GenerateKeyPair]))
    else (Ok tt, w).
Proof.
  intros Hkp Hpriv Hpub. unfold keypair_phase.
  destruct (allow_temp_keypair a); [|reflexivity].
  assert (keypair_field (config w) "private" = Some priv) as Fpriv
    by (unfold keypair_field; rewrite Hkp; exact Hpriv).
  assert (keypair_field (config w) "public" = Some pub) as Fpub
    by (unfold keypair_field; rewrite Hkp; exact Hpub).
  step.
  destruct (truthy priv) eqn:Tpriv; cbn [orb].
  - step. rewrite Tpriv. reflexivity.
  - step. destruct (truthy pub) eqn:Tpub; cbn [negb]; [reflexivity|].
    step. destruct (generate_key_pair ext) as [sk pk]. cbn [fst snd].
    erewrite bind_ok by (apply set_config_keypair_eval; exact Hkp).
    erewrite set_config_keypair_eval by (cbn; apply lookup_insert_eq).
    cbn. rewrite insert_insert_eq. reflexivity.
Qed.

Lemma rethinkdb_phase_eval ext a w :
  rethinkdb_phase ext a w =
    if start_rethinkdb a then
      match rethinkdb_start ext with
      | inl reason =>
          (Raise (SystemExit ("Error starting RethinkDB, reason is: " +:+ reason)),
           logged [StartRethinkDB] w)
      | inr pid => (Ok tt, logged (rethinkdb_events ext a) w)
      end
    else (Ok tt, w).
Proof.
  unfold rethinkdb_phase, rethinkdb_events, utils_start_rethinkdb.
  destruct (start_rethinkdb a); [|reflexivity].
  destruct (rethinkdb_start ext) as [reason|pid]; cbn.
  - reflexivity.
  - unfold bind, try_except, emit. cbn. rewrite logged_logged. reflexivity.
Qed.

Lemma rethinkdb_phase_up ext a w :
  rethinkdb_up ext a ->
  rethinkdb_phase ext a w = (Ok tt, logged (rethinkdb_events ext a) w).
Proof.
  intros Hup. rewrite rethinkdb_phase_eval. unfold rethinkdb_events.
  destruct (start_rethinkdb a) eqn:Hs.
  - destruct Hup as [|[pid Hpid]]; [congruence|]. rewrite Hpid. reflexivity.
  - unfold logged. rewrite app_nil_r. destruct w; reflexivity.
Qed.

(** On a node with its keypair, the initialisation and the handoff go
    through whether the database is there or not. *)
Lemma start_init_and_handoff_configured w pub priv :
  keypair_field (config w) "public" = Some pub ->
  keypair_field (config w) "private" = Some priv ->
  truthy pub && truthy priv = true ->
  start_init_and_handoff w
  = (Ok tt,
     World (config w) true (genesis_after_init w)
       (trace w ++ init_step_events (db_exists w) ++ handoff_events pub)).
Proof.
  intros Hpub Hpriv Hboth. unfold start_init_and_handoff, genesis_after_init, init_step_events.
  pose proof (_run_init_eval w pub priv Hpub Hpriv) as Hinit. rewrite Hboth in Hinit.
  destruct (db_exists w) eqn:Hdb.
  - erewrite bind_ok by (apply (try_except_caught _ _ _ _ _ _ Hinit); reflexivity).
    erewrite bind_ok by (apply config_keypair_eval; exact Hpub).
    unfold bind, emit, logged, ret; cbn. rewrite Hdb, <- !app_assoc. reflexivity.
  - erewrite bind_ok by (apply (try_except_ok _ _ _ _ _ Hinit)).
    erewrite bind_ok by (apply config_keypair_eval; exact Hpub).
    unfold bind, emit, logged; cbn. rewrite <- !app_assoc. reflexivity.
Qed.

(** X5: on a node whose keypair is configured, [start] goes through to the
    handoff whether the database is there or not, provided RethinkDB, when
    asked for, starts: it returns, [processes.start()] is the last thing it
    does, the configuration is untouched, and a genesis record is created
    exactly when the database was not there. *)
Theorem start_hands_off_on_configured_node ext a w kp pub priv :
  config w !! "keypair" = Some (JDict kp) ->
  kp !! "public" = Some pub -> kp !! "private" = Some priv ->
  truthy pub && truthy priv = true ->
  rethinkdb_up ext a ->
  run_start ext a w
  = (Ok tt,
     World (config w) true (genesis_after_init w)
       (trace w ++ start_banner ext ++ keypair_found_events a ++ rethinkdb_events ext a
        ++ init_step_events (db_exists w) ++ handoff_events pub)).
Proof.
  intros Hkp Hpub Hpriv Hboth Hup.
  assert (keypair_field (config w) "public" = Some pub) as Fpub
    by (unfold keypair_field; rewrite Hkp; exact Hpub).
  assert (keypair_field (config w) "private" = Some priv) as Fpriv
    by (unfold keypair_field; rewrite Hkp; exact Hpriv).
  apply andb_true_iff in Hboth as Hboth'. destruct Hboth' as [Tpub Tpriv].
  rewrite run_start_steps. do 2 step. rewrite logged_logged.
  change (logged _ w) with (logged (start_banner ext) w).
  assert (keypair_phase ext a (logged (start_banner ext) w)
          = (Ok tt, logged (start_banner ext ++ keypair_found_events a) w)) as E.
  { rewrite (keypair_phase_eval ext a (logged (start_banner ext) w) kp priv pub
               Hkp Hpriv Hpub), Tpriv. cbn [orb].
    unfold keypair_found_events. destruct (allow_temp_keypair a).
    - rewrite logged_logged. reflexivity.
    - rewrite app_nil_r. reflexivity. }
  rewrite (bind_ok _ _ _ _ _ E).
  erewrite bind_ok by (apply rethinkdb_phase_up; exact Hup). rewrite logged_logged.
  match goal with |- start_init_and_handoff ?W = _ =>
    rewrite (start_init_and_handoff_configured W pub priv Fpub Fpriv Hboth) end.
  unfold genesis_after_init, logged. cbn [config db_exists genesis_blocks trace].
  rewrite <- !app_assoc. reflexivity.
Qed.

Lemma start_hands_off_on_configured_node_witness :
  run_start accepting_backend (start_args false true) (World configured_config true 1 [])
  = (Ok tt,
     World configured_config true (genesis_after_init (World configured_config true 1 []))
       ([] ++ start_banner accepting_backend ++ keypair_found_events (start_args false true)
        ++ rethinkdb_events accepting_backend (start_args false true)
        ++ init_step_events true ++ handoff_events (JStr "pub"))).
Proof.
  apply (start_hands_off_on_configured_node accepting_backend (start_args false true)
           (World configured_config true 1 [])
           {[ "public" := JStr "pub"; "private" := JStr "priv" ]} (JStr "pub") (JStr "priv"));
    [vm_compute; reflexivity|vm_compute; reflexivity|vm_compute; reflexivity|reflexivity|].
  right. exists 1%Z. reflexivity.
Defined.

(** X6: with [--dev-allow-temp-keypair] on a node without any key, [start]
    generates a keypair, keeps it in the in-memory configuration only, and,
    when the generated keys are not empty and RethinkDB (if asked for)
    starts, goes on to the initialisation and the handoff with it: the
    public key it announces is the generated one. *)
Theorem start_generates_temporary_keypair ext a w kp pub priv sk pk :
  allow_temp_keypair a = true ->
  config w !! "keypair" = Some (JDict kp) ->
  kp !! "public" = Some pub -> kp !! "private" = Some priv ->
  truthy pub = false -> truthy priv = false ->
  generate_key_pair ext = (sk, pk) -> sk <> "" -> pk <> "" ->
  rethinkdb_up ext a ->
  run_start ext a w
  = (Ok tt,
     World (<["keypair" := JDict (<["public" := JStr pk]> (<["private" := JStr sk]> kp))]>
              (config w))
       true (genesis_after_init w)
       (trace w ++ start_banner ext ++ [GenerateKeyPair] ++ rethinkdb_events ext a
        ++ init_step_events (db_exists w) ++ handoff_events (JStr pk))).
Proof.
  intros Ha Hkp Hpub Hpriv Tpub Tpriv Hgen Hsk Hpk Hup.
  rewrite run_start_steps. do 2 step. rewrite logged_logged.
  change (logged _ w) with (logged (start_banner ext) w).
  pose proof (keypair_phase_eval ext a (logged (start_banner ext) w) kp priv pub
                Hkp Hpriv Hpub) as E.
  rewrite Ha, Tpriv, Tpub, Hgen in E. cbn [orb fst snd] in E.
  rewrite (bind_ok _ _ _ _ _ E).
  erewrite bind_ok by (apply rethinkdb_phase_up; exact Hup).
  erewrite (start_init_and_handoff_configured _ (JStr pk) (JStr sk)).
  - unfold genesis_after_init, logged. cbn [config db_exists genesis_blocks trace].
    rewrite <- !app_assoc. reflexivity.
  - unfold keypair_field. cbn. rewrite lookup_insert_eq. apply lookup_insert_eq.
  - unfold keypair_field. cbn. rewrite lookup_insert_eq.
    rewrite lookup_insert_ne by discriminate. apply lookup_insert_eq.
  - rewrite (truthy_nonempty pk Hpk), (truthy_nonempty sk Hsk). reflexivity.
Qed.

Lemma start_generates_temporary_keypair_witness :
  run_start accepting_backend (start_args true false) (World empty_keypair_config false 0 [])
  = (Ok tt,
     World (<["keypair" :=
                JDict (<["public" := JStr "pub"]>
                         (<["private" := JStr "priv"]>
                            {[ "public" := JNull; "private" := JNull ]}))]>
              empty_keypair_config)
       true (genesis_after_init (World empty_keypair_config false 0 []))
       ([] ++ start_banner accepting_backend ++ [GenerateKeyPair]
        ++ rethinkdb_events accepting_backend (start_args true false)
        ++ init_step_events false ++ handoff_events (JStr "pub"))).
Proof.
  apply (start_generates_temporary_keypair accepting_backend (start_args true false)
           (World empty_keypair_config false 0 [])
           {[ "public" := JNull; "private" := JNull ]} JNull JNull "priv" "pub");
    try reflexivity; try discriminate; try (vm_compute; reflexivity).
  left. reflexivity.
Defined.

(** X7: when RethinkDB is asked for and does not start, [start] exits with
    the reason (status 1) right after the attempt: the database is not
    touched and the node's processes are not started. *)
Theorem start_rethinkdb_failure_is_fatal ext a w reason :
  start_rethinkdb a = true ->
  rethinkdb_start ext = inl reason ->
  allow_temp_keypair a = false
  \/ (exists kp pub priv,
        config w !! "keypair" = Some (JDict kp)
        /\ kp !! "public" = Some pub /\ kp !! "private" = Some priv) ->
  exists w' evs,
    run_start ext a w
    = (Raise (SystemExit ("Error starting RethinkDB, reason is: " +:+ reason)), w')
    /\ db_exists w' = db_exists w
    /\ genesis_blocks w' = genesis_blocks w
    /\ new_events w w' = start_banner ext ++ evs ++ [StartRethinkDB]
    /\ Forall before_init evs.
Proof.
  intros Hs Hdown Hkeys. rewrite run_start_steps. do 2 step. rewrite logged_logged.
  change (logged _ w) with (logged (start_banner ext) w).
  assert (exists w1 evs,
            keypair_phase ext a (logged (start_banner ext) w) = (Ok tt, w1)
            /\ db_exists w1 = db_exists w /\ genesis_blocks w1 = genesis_blocks w
            /\ trace w1 = trace w ++ start_banner ext ++ evs
            /\ Forall before_init evs) as (w1 & evs & E & Hd & Hg & Ht & Hev).
  { destruct Hkeys as [Ha | (kp & pub & priv & Hkp & Hpub & Hpriv)].
    - unfold keypair_phase. rewrite Ha. eexists _, []. split; [reflexivity|].
      cbn. repeat split. constructor.
    - rewrite (keypair_phase_eval ext a (logged (start_banner ext) w) kp priv pub
                 Hkp Hpriv Hpub).
      destruct (allow_temp_keypair a); [destruct (truthy priv || truthy pub)|].
      + eexists _, [LogWarning "Keypair found, no need to create one on the fly."].
        split; [reflexivity|]. cbn. rewrite <- app_assoc. repeat split.
        repeat constructor.
      + eexists _, [GenerateKeyPair]. split; [reflexivity|]. cbn.
        rewrite <- app_assoc. repeat split. repeat constructor.
      + eexists _, []. split; [reflexivity|]. cbn.
        repeat split. constructor. }
  rewrite (bind_ok _ _ _ _ _ E).
  exists (logged [StartRethinkDB] w1), evs. split.
  - apply bind_raise. rewrite rethinkdb_phase_eval, Hs, Hdown. reflexivity.
  - cbn. repeat split; try assumption.
    apply new_events_app. cbn. rewrite Ht. unfold start_banner.
    rewrite <- !app_assoc. reflexivity.
Qed.

Lemma start_rethinkdb_failure_is_fatal_witness :
  exists w' evs,
    run_start rethinkdb_down (start_args false true) (World configured_config false 0 [])
    = (Raise (SystemExit ("Error starting RethinkDB, reason is: " +:+ "address in use")), w')
    /\ db_exists w' = db_exists (World configured_config false 0 [])
    /\ genesis_blocks w' = genesis_blocks (World configured_config false 0 [])
    /\ new_events (World configured_config false 0 []) w'
       = start_banner rethinkdb_down ++ evs ++ [StartRethinkDB]
    /\ Forall before_init evs.
Proof.
  apply (start_rethinkdb_failure_is_fatal rethinkdb_down (start_args false true)
           (World configured_config false 0 []) "address in use");
    [reflexivity|reflexivity|left; reflexivity].
Defined.

(** ** Further properties of the commands *)

(** X8: [init] on a backend whose database exists creates no genesis
    record and leaves the database and the configuration as they are; on a
    configured node it returns after saying so on standard error. *)
Theorem init_on_existing_database a w :
  db_exists w = true ->
  let r := run_init a w in
  db_exists r.2 = true
  /\ genesis_blocks r.2 = genesis_blocks w
  /\ config r.2 = config w
  /\ Forall not_genesis (new_events w r.2)
  /\ (keypair_configured (config w) ->
        r.1 = Ok tt
        /\ new_events w r.2
           = [InitDatabase; Stderr "The database already exists.";
              Stderr "If you wish to re-initialize it, first drop it."]).
Proof.
  intros Hdb. cbn zeta. unfold run_init.
  destruct (_run_init_cases w) as [(e & He & Hne) | [(_ & He) | (Hno & _)]];
    [| |congruence].
  - assert (try_except _run_init
              (fun e0 =>
                 match e0 with
                 | DatabaseAlreadyExists =>
                     Some (print_stderr "The database already exists." ;;
                           print_stderr "If you wish to re-initialize it, first drop it.")
                 | _ => None
                 end) w = (Raise e, w)) as ->
      by (apply (try_except_uncaught _ _ _ _ _ He); destruct e; congruence).
    cbn [fst snd]. split; [assumption|]. do 2 (split; [reflexivity|]). split.
    + unfold new_events. rewrite drop_all. constructor.
    + intros (pub & priv & Hpub & Hpriv & Tpub & Tpriv). exfalso.
      rewrite (_run_init_eval w pub priv Hpub Hpriv), Tpub, Tpriv, Hdb in He.
      cbn in He. congruence.
  - rewrite (try_except_caught _ _ _ _ _ _ He eq_refl).
    unfold print_stderr, bind, emit. cbn [fst snd]. rewrite !logged_logged.
    cbn [fst snd logged db_exists genesis_blocks config app].
    split; [assumption|]. do 2 (split; [reflexivity|]).
    rewrite (new_events_app w _ [InitDatabase; Stderr "The database already exists.";
                                  Stderr "If you wish to re-initialize it, first drop it."])
      by reflexivity.
    split; [repeat constructor|]. intros _. split; reflexivity.
Qed.

Lemma init_on_existing_database_witness :
  let r := run_init parser_defaults (World configured_config true 1 []) in
  db_exists r.2 = true
  /\ genesis_blocks r.2 = genesis_blocks (World configured_config true 1 [])
  /\ config r.2 = config (World configured_config true 1 [])
  /\ Forall not_genesis (new_events (World configured_config true 1 []) r.2)
  /\ (keypair_configured (config (World configured_config true 1 [])) ->
        r.1 = Ok tt
        /\ new_events (World configured_config true 1 []) r.2
           = [InitDatabase; Stderr "The database already exists.";
              Stderr "If you wish to re-initialize it, first drop it."]).
Proof.
  apply (init_on_existing_database parser_defaults (World configured_config true 1 [])).
  reflexivity.
Defined.

(** X9: [show-config] prints everything but the private key and the
    [CONFIGURED] flag as it is: the printed dictionary has no [CONFIGURED]
    entry, agrees with the configuration on every other top-level entry but
    [keypair], and its keypair agrees with the configured one on every field
    but [private], which holds the mask when a key is set and [null] when
    none is. *)
Theorem show_config_prints_the_rest ext a w v kp private_key :
  config w !! "CONFIGURED" = Some v ->
  config w !! "keypair" = Some (JDict kp) ->
  kp !! "private" = Some private_key ->
  exists d kp',
    run_show_config ext a w = (Ok tt, logged [Stdout (json_dumps ext (JDict d))] w)
    /\ d !! "CONFIGURED" = None
    /\ d !! "keypair" = Some (JDict kp')
    /\ (forall k, k <> "CONFIGURED" -> k <> "keypair" -> d !! k = config w !! k)
    /\ (forall f, f <> "private" -> kp' !! f = kp !! f)
    /\ kp' !! "private"
       = Some (if truthy private_key then JStr private_key_mask else JNull).
Proof.
  intros Hc Hkp Hpk. rewrite run_show_config_eval, Hc, Hkp, Hpk. unfold redacted.
  exists (<["keypair" :=
             JDict (<["private" :=
                        if truthy private_key then JStr private_key_mask else JNull]> kp)]>
            (delete "CONFIGURED" (config w))),
    (<["private" := if truthy private_key then JStr private_key_mask else JNull]> kp).
  split; [reflexivity|]. repeat split.
  - rewrite lookup_insert_ne by discriminate. apply lookup_delete_eq.
  - apply lookup_insert_eq.
  - intros k Hk1 Hk2. rewrite lookup_insert_ne by congruence.
    apply lookup_delete_ne. congruence.
  - intros f Hf. apply lookup_insert_ne. congruence.
  - apply lookup_insert_eq.
Qed.

Lemma show_config_prints_the_rest_witness :
  exists d kp',
    run_show_config accepting_backend parser_defaults (World keyless_config true 1 [])
    = (Ok tt,
       logged [Stdout (json_dumps accepting_backend (JDict d))]
         (World keyless_config true 1 []))
    /\ d !! "CONFIGURED" = None
    /\ d !! "keypair" = Some (JDict kp')
    /\ (forall k, k <> "CONFIGURED" -> k <> "keypair" ->
                  d !! k = config (World keyless_config true 1 []) !! k)
    /\ (forall f, f <> "private" ->
                  kp' !! f = ({[ "public" := JNull; "private" := JNull ]} : gmap string json) !! f)
    /\ kp' !! "private" = Some (if truthy JNull then JStr private_key_mask else JNull).
Proof.
  apply (show_config_prints_the_rest accepting_backend parser_defaults
           (World keyless_config true 1 []) (JBool true)
           {[ "public" := JNull; "private" := JNull ]} JNull);
    vm_compute; reflexivity.
Defined.

(** X10: on a configuration without the [CONFIGURED] flag, or without a
    private-key entry in a keypair dictionary, [show-config] fails and
    prints nothing. *)
Theorem show_config_fails_on_malformed_config ext a w :
  config w !! "CONFIGURED" = None \/ keypair_field (config w) "private" = None ->
  exists e, run_show_config ext a w = (Raise e, w).
Proof.
  intros H. rewrite run_show_config_eval. unfold keypair_field in H.
  destruct (config w !! "CONFIGURED") as [v|]; [|eauto].
  destruct H as [H|H]; [discriminate|].
  destruct (config w !! "keypair") as [[| | | | |kp]|]; eauto.
  rewrite H. eauto.
Qed.

Lemma show_config_fails_on_malformed_config_witness :
  exists e, run_show_config accepting_backend parser_defaults empty_world = (Raise e, empty_world).
Proof.
  apply (show_config_fails_on_malformed_config accepting_backend parser_defaults empty_world).
  left. reflexivity.
Defined.

(** X11: whatever the backend answers, a topology command connects, makes
    its one call to the backend, and does not go back to it. *)
Theorem topology_makes_one_backend_call ext op w :
  exists rest,
    new_events w (run_topology ext op w).2 = Connect :: op_event op :: rest
    /\ Forall (fun e => touches_backend e = false) rest.
Proof.
  rewrite run_topology_eval.
  destruct (backend_answer ext op) as [e|].
  - destruct (is_OperationError e || _); cbn [snd]; rewrite new_events_logged;
      eexists; (split; [reflexivity|]); repeat constructor.
  - destruct op; cbn [snd]; rewrite new_events_logged;
      eexists; (split; [reflexivity|]); repeat constructor.
Qed.

(** X12: an exception of the backend that the command has no [except]
    clause for leaves the command (exit status 1) with nothing printed. *)
Theorem topology_unexpected_error_propagates ext op e w :
  backend_answer ext op = Some e ->
  is_OperationError e || (is_NotImplementedError e && is_replica_set_op op) = false ->
  run_topology ext op w = (Raise e, logged [Connect; op_event op] w)
  /\ exit_status (run_topology ext op w).1 = 1%Z
  /\ stdout_lines (new_events w (run_topology ext op w).2) = []
  /\ stderr_lines (new_events w (run_topology ext op w).2) = [].
Proof.
  intros Hans Hun. rewrite run_topology_eval, Hans, Hun. cbn [fst snd].
  rewrite new_events_logged. repeat split; destruct op; reflexivity.
Qed.

Lemma topology_unexpected_error_propagates_witness :
  run_topology broken_backend (AddReplicasOp ["localhost:27017"]) empty_world
  = (Raise TypeError, logged [Connect; op_event (AddReplicasOp ["localhost:27017"])] empty_world)
  /\ exit_status (run_topology broken_backend (AddReplicasOp ["localhost:27017"]) empty_world).1
     = 1%Z
  /\ stdout_lines
       (new_events empty_world
          (run_topology broken_backend (AddReplicasOp ["localhost:27017"]) empty_world).2) = []
  /\ stderr_lines
       (new_events empty_world
          (run_topology broken_backend (AddReplicasOp ["localhost:27017"]) empty_world).2) = [].
Proof.
  apply (topology_unexpected_error_propagates broken_backend
           (AddReplicasOp ["localhost:27017"]) TypeError empty_world); reflexivity.
Defined.

(** X13: when the backend accepts the change, the command returns with
    nothing on standard error; [add-replicas] and [remove-replicas] confirm
    on standard output, naming the hosts, [set-shards] and [set-replicas]
    print nothing. *)
Theorem topology_success_is_confirmed ext op w :
  backend_answer ext op = None ->
  (run_topology ext op w).1 = Ok tt
  /\ stdout_lines (new_events w (run_topology ext op w).2) = confirmation op
  /\ stderr_lines (new_events w (run_topology ext op w).2) = [].
Proof.
  intros Hans. rewrite run_topology_eval, Hans.
  destruct op; cbn [fst snd]; rewrite new_events_logged; repeat split.
Qed.

Lemma topology_success_is_confirmed_witness :
  (run_topology accepting_backend (RemoveReplicasOp ["a:1"; "b:2"]) empty_world).1 = Ok tt
  /\ stdout_lines
       (new_events empty_world
          (run_topology accepting_backend (RemoveReplicasOp ["a:1"; "b:2"]) empty_world).2)
     = confirmation (RemoveReplicasOp ["a:1"; "b:2"])
  /\ stderr_lines
       (new_events empty_world
          (run_topology accepting_backend (RemoveReplicasOp ["a:1"; "b:2"]) empty_world).2)
     = [].
Proof.
  apply (topology_success_is_confirmed accepting_backend (RemoveReplicasOp ["a:1"; "b:2"])
           empty_world). reflexivity.
Defined.

(** ** [export-my-pubkey] *)

(** X17: when a public key is set (anything but [None], the empty string
    included), [export-my-pubkey] prints it, and nothing else, on standard
    output and returns. *)
Theorem export_prints_public_key fmt a w pub :
  keypair_field (config w) "public" = Some pub -> pub <> JNull ->
  run_export_my_pubkey fmt a w
  = (Ok tt, logged [Stderr ("bigchaindb args = " +:+ str_args fmt a);
                    Stdout (format fmt pub)] w)
  /\ stdout_lines (new_events w (run_export_my_pubkey fmt a w).2) = [format fmt pub].
Proof.
  intros Hpub Hset.
  assert (run_export_my_pubkey fmt a w
          = (Ok tt, logged [Stderr ("bigchaindb args = " +:+ str_args fmt a);
                            Stdout (format fmt pub)] w)) as E.
  { unfold run_export_my_pubkey. erewrite bind_ok by reflexivity.
    erewrite bind_ok by (apply config_keypair_eval; exact Hpub).
    destruct pub; try contradiction; unfold print, emit; rewrite logged_logged; reflexivity. }
  rewrite E. split; [reflexivity|]. cbn [snd]. rewrite new_events_logged. reflexivity.
Qed.

Lemma export_prints_public_key_witness :
  run_export_my_pubkey plain_formatting parser_defaults (World configured_config true 1 [])
  = (Ok tt,
     logged [Stderr ("bigchaindb args = " +:+ str_args plain_formatting parser_defaults);
             Stdout (format plain_formatting (JStr "pub"))]
       (World configured_config true 1 []))
  /\ stdout_lines
       (new_events (World configured_config true 1 [])
          (run_export_my_pubkey plain_formatting parser_defaults
             (World configured_config true 1 [])).2)
     = [format plain_formatting (JStr "pub")].
Proof.
  apply (export_prints_public_key plain_formatting parser_defaults
           (World configured_config true 1 []) (JStr "pub"));
    [vm_compute; reflexivity|discriminate].
Defined.

(** X18: when the public key is [None], [export-my-pubkey] prints no key:
    it exits with a message and status 1. *)
Theorem export_without_public_key_is_fatal fmt a w :
  keypair_field (config w) "public" = Some JNull ->
  (run_export_my_pubkey fmt a w).1
  = Raise (SystemExit "This node's public key wasn't set anywhere so it can't be exported")
  /\ exit_status (run_export_my_pubkey fmt a w).1 = 1%Z
  /\ stdout_lines (new_events w (run_export_my_pubkey fmt a w).2) = [].
Proof.
  intros Hpub.
  assert (run_export_my_pubkey fmt a w
          = (Raise (SystemExit
                      "This node's public key wasn't set anywhere so it can't be exported"),
             logged [Stderr ("bigchaindb args = " +:+ str_args fmt a)] w)) as E.
  { unfold run_export_my_pubkey. erewrite bind_ok by reflexivity.
    erewrite bind_ok by (apply config_keypair_eval; exact Hpub). reflexivity. }
  rewrite E. cbn [fst snd]. rewrite new_events_logged. repeat split.
Qed.

Lemma export_without_public_key_is_fatal_witness :
  (run_export_my_pubkey plain_formatting parser_defaults (World keyless_config true 1 [])).1
  = Raise (SystemExit "This node's public key wasn't set anywhere so it can't be exported")
  /\ exit_status
       (run_export_my_pubkey plain_formatting parser_defaults
          (World keyless_config true 1 [])).1 = 1%Z
  /\ stdout_lines
       (new_events (World keyless_config true 1 [])
          (run_export_my_pubkey plain_formatting parser_defaults
             (World keyless_config true 1 [])).2) = [].
Proof.
  apply (export_without_public_key_is_fatal plain_formatting parser_defaults
           (World keyless_config true 1 [])).
  vm_compute; reflexivity.
Defined.

Lemma config_keypair_public_with_private_key k c db g t :
  exists r,
    config_keypair "public" (World (with_private_key k c) db g t)
    = (r, World (with_private_key k c) db g t)
    /\ config_keypair "public" (World c db g t) = (r, World c db g t).
Proof.
  unfold config_keypair, bind, get_config, subscript, with_private_key. cbn [config].
  destruct (c !! "keypair") as [[| | | | |kp]|] eqn:Hkp; cbn; rewrite ?Hkp; cbn;
    try (eexists; split; reflexivity).
  rewrite lookup_insert_eq. cbn. rewrite lookup_insert_ne by discriminate.
  destruct (kp !! "public"); eexists; split; reflexivity.
Qed.

Lemma run_export_my_pubkey_eval fmt a w :
  run_export_my_pubkey fmt a w =
    match config_keypair "public"
            (logged [Stderr ("bigchaindb args = " +:+ str_args fmt a)] w) with
    | (Ok JNull, w1) =>
        (Raise (SystemExit "This node's public key wasn't set anywhere so it can't be exported"),
         w1)
    | (Ok pubkey, w1) => (Ok tt, logged [Stdout (format fmt pubkey)] w1)
    | (Raise e, w1) => (Raise e, w1)
    end.
Proof.
  unfold run_export_my_pubkey, bind, print_stderr, emit.
  destruct (config_keypair "public" _) as [[[]|e] w1]; reflexivity.
Qed.

(** X19: what [export-my-pubkey] prints and how it ends do not depend on
    the private key: with any two values in its place the result and the
    trace are the same. *)
Theorem export_does_not_depend_on_private_key fmt a c k1 k2 db g t :
  let run k := run_export_my_pubkey fmt a (World (with_private_key k c) db g t) in
  (run k1).1 = (run k2).1 /\ trace (run k1).2 = trace (run k2).2.
Proof.
  cbn zeta.
  assert (forall k,
            (run_export_my_pubkey fmt a (World (with_private_key k c) db g t)).1
            = (run_export_my_pubkey fmt a (World c db g t)).1
            /\ trace (run_export_my_pubkey fmt a (World (with_private_key k c) db g t)).2
               = trace (run_export_my_pubkey fmt a (World c db g t)).2) as H.
  { intros k. rewrite !run_export_my_pubkey_eval.
    destruct (config_keypair_public_with_private_key k c db g
                (t ++ [Stderr ("bigchaindb args = " +:+ str_args fmt a)]))
      as (r & E1 & E2).
    unfold logged; cbn [config db_exists genesis_blocks trace].
    rewrite E1, E2. destruct r as [[]|e]; split; reflexivity. }
  destruct (H k1) as [-> ->]. destruct (H k2) as [-> ->]. split; reflexivity.
Qed.

(** ** The operator's side *)

Lemma with_node_node h : with_node (node h) h = h.
Proof. destruct h; reflexivity. Qed.

Lemma hbind_returned {A B} (m : H A) (k : A -> H B) h a h1 :
  m h = (Returned a, h1) -> hbind m k h = k a h1.
Proof. intros E. unfold hbind. rewrite E. reflexivity. Qed.

Lemma lift_ok {A} (m : M A) h a w :
  m (node h) = (Ok a, w) -> lift m h = (Returned a, with_node w h).
Proof. intros E. unfold lift. rewrite E. reflexivity. Qed.

Lemma lift_raise {A} (m : M A) h e w :
  m (node h) = (Raise e, w) -> lift m h = (Raised e, with_node w h).
Proof. intros E. unfold lift. rewrite E. reflexivity. Qed.

Lemma config_database_name_eval w name :
  database_name (config w) = Some name -> config_database_name w = (Ok name, w).
Proof.
  unfold database_name, config_database_name, bind, get_config, subscript. cbn.
  destruct (config w !! "database") as [[| | | | |db]|]; try discriminate.
  cbn. intros ->. reflexivity.
Qed.

Lemma config_database_name_reads w : (config_database_name w).2 = w.
Proof.
  unfold config_database_name, bind, get_config, subscript. cbn.
  destruct (config w !! "database") as [[| | | | |db]|]; try reflexivity.
  cbn. destruct (db !! "name"); reflexivity.
Qed.

Lemma input_on_stderr_line prompt h line rest :
  stdin h = line :: rest ->
  input_on_stderr prompt h
  = (Returned line,
     Host (logged [Stderr prompt] (node h)) rest (files h) (database_map h) (dropped h)).
Proof.
  intros E. unfold input_on_stderr, hbind, lift, print_stderr, emit, input, with_node.
  cbn. rewrite E. reflexivity.
Qed.

Lemma input_on_stderr_eof prompt h :
  stdin h = [] ->
  input_on_stderr prompt h = (EOFError, with_node (logged [Stderr prompt] (node h)) h).
Proof.
  intros E. unfold input_on_stderr, hbind, lift, print_stderr, emit, input, with_node.
  cbn. rewrite E. reflexivity.
Qed.

(** X20: [drop] without [--yes] drops nothing unless the operator answers
    exactly [y]: whatever else is typed (or nothing at all), and whatever
    the configuration holds, no name reaches [schema.drop_database], the
    database and its genesis blocks stay, and the backend is not even
    connected to. *)
Theorem drop_needs_confirmation fmt sur o h :
  yes o = false -> head (stdin h) <> Some "y" ->
  let h' := (run_drop fmt sur o h).2 in
  dropped h' = dropped h
  /\ db_exists (node h') = db_exists (node h)
  /\ genesis_blocks (node h') = genesis_blocks (node h)
  /\ Forall (fun e => touches_backend e = false) (new_events (node h) (node h')).
Proof.
  intros Hyes Hans. cbn zeta.
  pose proof (config_database_name_reads (node h)) as Hr.
  destruct (config_database_name (node h)) as [[name|e] w] eqn:E; cbn in Hr; subst w.
  - destruct (stdin h) as [|line rest] eqn:Hin.
    + assert (run_drop fmt sur o h
              = (EOFError, with_node (logged [Stderr (drop_prompt fmt name)] (node h)) h))
        as ->.
      { unfold run_drop, hbind. rewrite Hyes, (lift_ok _ h name (node h) E), with_node_node.
        cbn [negb]. rewrite (input_on_stderr_eof _ h Hin). reflexivity. }
      cbn [fst snd with_node node dropped]. rewrite new_events_logged.
      repeat split. repeat constructor.
    + assert (run_drop fmt sur o h
              = (Returned tt,
                 Host (logged [Stderr (drop_prompt fmt name)] (node h)) rest (files h)
                   (database_map h) (dropped h))) as ->.
      { unfold run_drop, hbind. rewrite Hyes, (lift_ok _ h name (node h) E), with_node_node.
        cbn [negb]. rewrite (input_on_stderr_line _ h line rest Hin). unfold hret.
        destruct (String.eqb line "y") eqn:Q; [|reflexivity].
        apply String.eqb_eq in Q. cbn in Hans. congruence. }
      cbn [fst snd node dropped]. rewrite new_events_logged.
      repeat split. repeat constructor.
  - assert (run_drop fmt sur o h = (Raised e, h)) as ->.
    { unfold run_drop, hbind. rewrite (lift_raise _ h e (node h) E), with_node_node.
      reflexivity. }
    cbn [fst snd]. unfold new_events. rewrite drop_all. repeat split. constructor.
Qed.

Lemma drop_needs_confirmation_witness :
  let h := drop_test_host ["Y"] in
  let h' := (run_drop plain_formatting plain_surroundings (drop_options false) h).2 in
  dropped h' = dropped h
  /\ db_exists (node h') = db_exists (node h)
  /\ genesis_blocks (node h') = genesis_blocks (node h)
  /\ Forall (fun e => touches_backend e = false) (new_events (node h) (node h')).
Proof.
  apply (drop_needs_confirmation plain_formatting plain_surroundings (drop_options false)
           (drop_test_host ["Y"])); [reflexivity|vm_compute; discriminate].
Defined.

Lemma run_drop_confirmed fmt sur o h name :
  database_name (config (node h)) = Some name ->
  yes o = true \/ head (stdin h) = Some "y" ->
  run_drop fmt sur o h
  = drop_database sur Conn name
      (Host (logged ((if yes o then [] else [Stderr (drop_prompt fmt name)]) ++ [Connect])
               (node h))
         (if yes o then stdin h else tail (stdin h))
         (files h) (database_map h) (dropped h)).
Proof.
  intros Hname Hconf. pose proof (config_database_name_eval _ _ Hname) as E.
  unfold run_drop, hbind. rewrite (lift_ok _ h name (node h) E), with_node_node.
  destruct (yes o) eqn:Hyes.
  - cbn [negb hret app]. unfold lift at 1, backend_connect, bind, emit, ret.
    cbn [node with_node]. unfold lift.
    cbn [node with_node stdin files database_map dropped].
    rewrite (config_database_name_eval (logged [Connect] (node h)) name) by exact Hname.
    destruct h; reflexivity.
  - destruct Hconf as [|Hhead]; [discriminate|].
    destruct (stdin h) as [|line rest] eqn:Hin; [discriminate|].
    cbn in Hhead. injection Hhead as ->.
    cbn [negb]. rewrite (input_on_stderr_line _ h "y" rest Hin). unfold hret.
    cbn [String.eqb Ascii.eqb Bool.eqb andb]. unfold lift at 1, backend_connect, bind, emit, ret.
    cbn [node with_node]. unfold lift.
    cbn [node with_node stdin files database_map dropped tail].
    rewrite logged_logged. unfold drop_prompt.
    match goal with
    | |- context [config_database_name ?W] =>
        rewrite (config_database_name_eval W name) by exact Hname
    end.
    reflexivity.
Qed.

(** X21: a confirmed [drop] (with [--yes], or when the operator answers
    [y]) on a node whose configuration names the database hands that name
    to [schema.drop_database]; when the backend accepts, the database and
    its genesis blocks are gone.  One line of input is read, none with
    [--yes]. *)
Theorem drop_confirmed_drops_database fmt sur o h name :
  database_name (config (node h)) = Some name ->
  schema_drop_database sur name = None ->
  yes o = true \/ head (stdin h) = Some "y" ->
  let h' := (run_drop fmt sur o h).2 in
  (run_drop fmt sur o h).1 = Returned tt
  /\ dropped h' = dropped h ++ [name]
  /\ db_exists (node h') = false
  /\ genesis_blocks (node h') = 0
  /\ stdin h' = (if yes o then stdin h else tail (stdin h)).
Proof.
  intros Hname Hdrop Hconf. cbn zeta.
  rewrite (run_drop_confirmed fmt sur o h name Hname Hconf).
  unfold drop_database. rewrite Hdrop.
  cbn [fst snd node stdin dropped with_node db_exists genesis_blocks].
  repeat split.
Qed.

Lemma drop_confirmed_drops_database_witness :
  let h := drop_test_host ["y"; "later"] in
  let h' := (run_drop plain_formatting plain_surroundings (drop_options false) h).2 in
  (run_drop plain_formatting plain_surroundings (drop_options false) h).1 = Returned tt
  /\ dropped h' = dropped h ++ [JStr "bigchain"]
  /\ db_exists (node h') = false
  /\ genesis_blocks (node h') = 0
  /\ stdin h' = (if yes (drop_options false) then stdin h else tail (stdin h)).
Proof.
  apply (drop_confirmed_drops_database plain_formatting plain_surroundings
           (drop_options false) (drop_test_host ["y"; "later"]) (JStr "bigchain"));
    [vm_compute; reflexivity|reflexivity|right; reflexivity].
Defined.

Lemma config_database_name_name w name :
  config_database_name w = (Ok name, w) -> database_name (config w) = Some name.
Proof.
  unfold config_database_name, database_name, bind, get_config, subscript. cbn.
  destruct (config w !! "database") as [[| | | | |db]|]; try discriminate.
  cbn. destruct (db !! "name"); [|discriminate]. intros [= ->]. reflexivity.
Qed.

(** X22: with [--yes], [drop] never prompts: it reads nothing from
    standard input and writes nothing on standard error, whatever the
    configuration holds and whatever the backend answers. *)
Theorem drop_with_yes_never_prompts fmt sur o h :
  yes o = true ->
  let h' := (run_drop fmt sur o h).2 in
  stdin h' = stdin h /\ stderr_lines (new_events (node h) (node h')) = [].
Proof.
  intros Hyes. cbn zeta.
  pose proof (config_database_name_reads (node h)) as Hr.
  destruct (config_database_name (node h)) as [[name|e] w] eqn:E; cbn in Hr; subst w.
  - pose proof (config_database_name_name _ _ E) as Hname.
    rewrite (run_drop_confirmed fmt sur o h name Hname (or_introl Hyes)).
    rewrite Hyes. unfold drop_database.
    destruct (schema_drop_database sur name);
      cbn [fst snd node stdin with_node trace app];
      (split; [reflexivity|]);
      unfold new_events, logged; cbn [trace]; rewrite drop_app_length; reflexivity.
  - assert (run_drop fmt sur o h = (Raised e, h)) as ->.
    { unfold run_drop, hbind. rewrite (lift_raise _ h e (node h) E), with_node_node.
      reflexivity. }
    cbn [fst snd]. unfold new_events. rewrite drop_all. split; reflexivity.
Qed.

Lemma drop_with_yes_never_prompts_witness :
  let h := drop_test_host ["n"] in
  let h' := (run_drop plain_formatting plain_surroundings (drop_options true) h).2 in
  stdin h' = stdin h /\ stderr_lines (new_events (node h) (node h')) = [].
Proof.
  apply (drop_with_yes_never_prompts plain_formatting plain_surroundings (drop_options true)
           (drop_test_host ["n"])); reflexivity.
Defined.

(** X23: [drop] followed by [init] leaves a database with exactly one
    genesis block, however many the dropped database held: on a node with
    its keypair and database name configured, once the drop is confirmed
    and accepted by the backend, [init] finds no database, creates it and
    writes the genesis block. *)
Theorem drop_then_init_gives_one_genesis_block fmt sur o a h name :
  keypair_configured (config (node h)) ->
  database_name (config (node h)) = Some name ->
  schema_drop_database sur name = None ->
  yes o = true \/ head (stdin h) = Some "y" ->
  let r := hbind (run_drop fmt sur o) (fun _ => lift (run_init a)) h in
  r.1 = Returned tt
  /\ db_exists (node r.2) = true
  /\ genesis_blocks (node r.2) = 1
  /\ dropped r.2 = dropped h ++ [name].
Proof.
  intros (pub & priv & Hpub & Hpriv & Tpub & Tpriv) Hname Hdrop Hconf. cbn zeta.
  unfold hbind. rewrite (run_drop_confirmed fmt sur o h name Hname Hconf).
  unfold drop_database. rewrite Hdrop.
  cbn [node stdin files database_map dropped with_node config trace logged].
  unfold lift. cbn [node].
  match goal with
  | |- context [run_init a ?W] =>
      assert (run_init a W
              = (Ok tt, World (config W) true (S (genesis_blocks W)) (trace W ++ init_events)))
        as ->
  end.
  { unfold run_init. apply try_except_ok.
    match goal with
    | |- _run_init ?W = _ => rewrite (_run_init_eval W pub priv Hpub Hpriv)
    end.
    rewrite Tpub, Tpriv. reflexivity. }
  cbn [fst snd node with_node db_exists genesis_blocks dropped]. repeat split.
Qed.

Lemma drop_then_init_gives_one_genesis_block_witness :
  let r := hbind (run_drop plain_formatting plain_surroundings (drop_options true))
             (fun _ => lift (run_init parser_defaults)) (drop_test_host []) in
  r.1 = Returned tt
  /\ db_exists (node r.2) = true
  /\ genesis_blocks (node r.2) = 1
  /\ dropped r.2 = dropped (drop_test_host []) ++ [JStr "bigchain"].
Proof.
  apply (drop_then_init_gives_one_genesis_block plain_formatting plain_surroundings
           (drop_options true) parser_defaults (drop_test_host []) (JStr "bigchain")).
  - exists (JStr "pub"), (JStr "priv"). vm_compute. repeat split.
  - vm_compute; reflexivity.
  - reflexivity.
  - left; reflexivity.
Defined.

(** ** [configure] *)

Lemma os_path_exists_eval path h :
  os_path_exists path h = (Returned (bool_decide (is_Some (files h !! path))), h).
Proof. reflexivity. Qed.

(** X24: called with [skip_if_exists], [configure] does nothing at all
    when the configuration file is there: no prompt, no keypair, no
    output, and the file is left as it is. *)
Theorem configure_skips_existing_file ext fmt sur o h :
  config_path_of sur o <> "-" ->
  is_Some (files h !! config_path_of sur o) ->
  run_configure ext fmt sur o true h = (Returned tt, h).
Proof.
  intros Hpath Hfile. unfold run_configure, hbind.
  apply String.eqb_neq in Hpath. rewrite Hpath. cbn [negb].
  rewrite os_path_exists_eval, (bool_decide_eq_true_2 _ Hfile). reflexivity.
Qed.

Lemma configure_skips_existing_file_witness :
  run_configure accepting_backend plain_formatting plain_surroundings
    (configure_options (Some "node.conf") false) true
    (configure_test_host [] {[ "node.conf" := JStr "kept" ]})
  = (Returned tt, configure_test_host [] {[ "node.conf" := JStr "kept" ]}).
Proof.
  apply (configure_skips_existing_file accepting_backend plain_formatting plain_surroundings
           (configure_options (Some "node.conf") false)
           (configure_test_host [] {[ "node.conf" := JStr "kept" ]})).
  - vm_compute; discriminate.
  - exists (JStr "kept"). vm_compute; reflexivity.
Defined.

(** X25: when the configuration file is there and [--yes] was not given,
    [configure] asks before anything else, and unless the answer is exactly
    [y] it stops there: the prompt is all it wrote, no keypair was
    generated, and the files and [_database_map] are as before. *)
Theorem configure_keeps_file_unless_confirmed ext fmt sur o h :
  config_path_of sur o <> "-" ->
  is_Some (files h !! config_path_of sur o) ->
  yes o = false ->
  head (stdin h) <> Some "y" ->
  let h' := (run_configure ext fmt sur o false h).2 in
  files h' = files h
  /\ database_map h' = database_map h
  /\ new_events (node h) (node h') = [Stderr (overwrite_prompt (config_path_of sur o))].
Proof.
  intros Hpath Hfile Hyes Hans. cbn zeta. unfold run_configure, hbind.
  apply String.eqb_neq in Hpath. rewrite Hpath. cbn [negb].
  rewrite os_path_exists_eval, (bool_decide_eq_true_2 _ Hfile), Hyes. cbn [andb negb].
  fold (overwrite_prompt (config_path_of sur o)).
  destruct (stdin h) as [|line rest] eqn:Hin.
  - rewrite (input_on_stderr_eof _ h Hin).
    cbn [fst snd with_node node files database_map]. rewrite new_events_logged.
    repeat split.
  - rewrite (input_on_stderr_line _ h line rest Hin). unfold hret.
    destruct (String.eqb line "y") eqn:Q.
    { apply String.eqb_eq in Q. cbn in Hans. congruence. }
    cbn [fst snd node files database_map]. rewrite new_events_logged. repeat split.
Qed.

Lemma configure_keeps_file_unless_confirmed_witness :
  let o := configure_options (Some "node.conf") false in
  let h := configure_test_host ["yes"] {[ "node.conf" := JStr "kept" ]} in
  let h' := (run_configure accepting_backend plain_formatting plain_surroundings o false h).2 in
  files h' = files h
  /\ database_map h' = database_map h
  /\ new_events (node h) (node h')
     = [Stderr (overwrite_prompt (config_path_of plain_surroundings o))].
Proof.
  apply (configure_keeps_file_unless_confirmed accepting_backend plain_formatting
           plain_surroundings (configure_options (Some "node.conf") false)
           (configure_test_host ["yes"] {[ "node.conf" := JStr "kept" ]})).
  - vm_compute; discriminate.
  - exists (JStr "kept"). vm_compute; reflexivity.
  - reflexivity.
  - vm_compute; discriminate.
Defined.

(** *** What [configure] leaves alone *)

Lemma keeps_hret {A X} (f : host -> X) (a : A) : keeps f (hret a).
Proof. intros h. reflexivity. Qed.

Lemma keeps_hbind {A B X} (f : host -> X) (m : H A) (k : A -> H B) :
  keeps f m -> (forall a, keeps f (k a)) -> keeps f (hbind m k).
Proof.
  intros Hm Hk h. unfold hbind. specialize (Hm h).
  destruct (m h) as [[a|e|] h1]; cbn [snd] in *; [rewrite Hk|..]; exact Hm.
Qed.

Lemma keeps_lift {A X} (f : host -> X) (m : M A) :
  (forall w h, f (with_node w h) = f h) -> keeps f (lift m).
Proof.
  intros Hf h. unfold lift. destruct (m (node h)) as [[a|e] w]; apply Hf.
Qed.

Lemma keeps_for_keys {X} (f : host -> X) body keys conf :
  (forall conf key, keeps f (body conf key)) -> keeps f (for_keys body keys conf).
Proof.
  intros Hbody. revert conf. induction keys as [|key keys IH]; intros conf; cbn [for_keys].
  - apply keeps_hret.
  - apply keeps_hbind; [apply Hbody|exact IH].
Qed.

Ltac keeps_primitive :=
  let h := fresh "h" in
  intros h;
  cbv [input os_path_exists get_database_map set_database_map write_config];
  try reflexivity;
  repeat match goal with
         | |- context [match ?x with _ => _ end] => destruct x
         end;
  reflexivity.

Ltac keeps_step :=
  match goal with
  | |- keeps _ (hbind _ _) => apply keeps_hbind; [|intros]
  | |- keeps _ (hret _) => apply keeps_hret
  | |- keeps _ (lift _) => apply keeps_lift; reflexivity
  | |- keeps _ (for_keys _ _ _) => apply keeps_for_keys; intros
  | |- keeps _ (input_or _ _) => unfold input_or
  | |- keeps _ (input_on_stderr _) => unfold input_on_stderr
  | |- keeps _ (ask_server _ _ _) => unfold ask_server
  | |- keeps _ (ask_database _ _ _ _) => unfold ask_database
  | |- keeps _ (let '(_, _) := ?p in _) => destruct p
  | |- keeps _ (if ?b then _ else _) => destruct b
  | |- keeps _ _ => keeps_primitive
  end.

Lemma write_new_config_to_stdout_keeps_files ext fmt sur o :
  keeps files (write_new_config ext fmt sur o "-").
Proof.
  unfold write_new_config. change (negb (String.eqb "-" "-")) with false. cbv iota.
  repeat keeps_step.
Qed.

(** X26: with [-] as the path, the configuration goes to standard output:
    [configure] creates or changes no file, however it ends and whatever
    the operator types. *)
Theorem configure_to_stdout_writes_no_file ext fmt sur o skip_if_exists h :
  config_path_of sur o = "-" ->
  files (run_configure ext fmt sur o skip_if_exists h).2 = files h.
Proof.
  intros Hpath. unfold run_configure. rewrite Hpath.
  change (negb (String.eqb "-" "-")) with false. cbv iota.
  unfold hbind at 1, hret at 1. cbn [andb].
  unfold hbind at 1, hret at 1.
  apply write_new_config_to_stdout_keeps_files.
Qed.

Lemma configure_to_stdout_writes_no_file_witness :
  files (run_configure accepting_backend plain_formatting plain_surroundings
           (configure_options (Some "-") false) false
           (configure_test_host ["0.0.0.0:9984"; "db.example.org"] ∅)).2
  = files (configure_test_host ["0.0.0.0:9984"; "db.example.org"] ∅).
Proof.
  apply (configure_to_stdout_writes_no_file accepting_backend plain_formatting
           plain_surroundings (configure_options (Some "-") false) false
           (configure_test_host ["0.0.0.0:9984"; "db.example.org"] ∅)).
  reflexivity.
Defined.

(** X27: with [--yes], [configure] is not interactive: it reads nothing
    from standard input and leaves [_database_map] as it is, however it
    ends. *)
Theorem configure_with_yes_reads_no_input ext fmt sur o skip_if_exists h :
  yes o = true ->
  let h' := (run_configure ext fmt sur o skip_if_exists h).2 in
  stdin h' = stdin h /\ database_map h' = database_map h.
Proof.
  intros Hyes. cbn zeta.
  assert (forall X (f : host -> X),
            (forall w h, f (with_node w h) = f h) ->
            keeps f (os_path_exists (config_path_of sur o)) ->
            keeps f (get_database_map (backend o)) ->
            (forall conf path, keeps f (write_config conf path)) ->
            keeps f (run_configure ext fmt sur o skip_if_exists)) as Hkeeps.
  { intros X f Hf Hexists Hget Hwrite.
    unfold run_configure, write_new_config. rewrite Hyes. cbn [negb].
    repeat first
      [ exact Hexists | exact Hget | apply Hwrite
      | match goal with
        | |- keeps _ (lift _) => apply keeps_lift; exact Hf
        | |- keeps _ (hbind _ _) => apply keeps_hbind; [|intros]
        | |- keeps _ (hret _) => apply keeps_hret
        | |- keeps _ (let '(_, _) := ?p in _) => destruct p
        | |- keeps _ (if ?b && false then _ else _) => rewrite (andb_false_r b)
        | |- keeps _ (if ?b then _ else _) => destruct b
        end ]. }
  split; apply Hkeeps; try reflexivity; try keeps_primitive; intros; keeps_primitive.
Qed.

Lemma configure_with_yes_reads_no_input_witness :
  let h := configure_test_host ["y"; "0.0.0.0:9984"] {[ "node.conf" := JStr "old" ]} in
  let h' := (run_configure accepting_backend plain_formatting plain_surroundings
               (configure_options (Some "node.conf") true) false h).2 in
  stdin h' = stdin h /\ database_map h' = database_map h.
Proof.
  apply (configure_with_yes_reads_no_input accepting_backend plain_formatting
           plain_surroundings (configure_options (Some "node.conf") true) false
           (configure_test_host ["y"; "0.0.0.0:9984"] {[ "node.conf" := JStr "old" ]})).
  reflexivity.
Defined.

(** *** What [configure] writes *)

Lemma lift_subscript h d k v :
  d !! k = Some v -> lift (subscript (JDict d) k) h = (Returned v, h).
Proof.
  intros E. unfold lift, subscript. rewrite E. cbn. apply f_equal, with_node_node.
Qed.

Lemma lift_setitem h d k v :
  lift (setitem (JDict d) k v) h = (Returned (JDict (<[k := v]> d)), h).
Proof. unfold lift, setitem. cbn. apply f_equal, with_node_node. Qed.

Lemma lift_emit h e :
  lift (emit e) h = (Returned tt, with_node (logged [e] (node h)) h).
Proof. reflexivity. Qed.

Lemma lift_get_config h : lift get_config h = (Returned (config (node h)), h).
Proof. unfold lift, get_config. apply f_equal, with_node_node. Qed.

Lemma get_database_map_eval h k db :
  database_map h !! k = Some db -> get_database_map k h = (Returned db, h).
Proof. intros E. unfold get_database_map. rewrite E. reflexivity. Qed.

Ltac solve_lookup :=
  repeat first [rewrite lookup_insert_eq | rewrite lookup_insert_ne by discriminate];
  first [reflexivity | eassumption].

Ltac hstep :=
  erewrite hbind_returned
    by first [ apply lift_get_config
             | apply lift_emit
             | apply lift_setitem
             | apply lift_subscript; solve_lookup
             | apply get_database_map_eval; eassumption
             | reflexivity ];
  cbv beta zeta; unfold with_node; cbn [node stdin files database_map dropped].

Lemma write_new_config_yes ext fmt sur o path h kp db :
  yes o = true -> path <> "-" ->
  env_update sur (config (node h)) !! "keypair" = Some (JDict kp) ->
  database_map h !! backend o = Some db ->
  write_new_config ext fmt sur o path h
  = (Returned tt,
     Host (logged (configure_preamble o ++ configure_epilogue path) (node h)) (stdin h)
       (<[path := JDict (default_conf ext sur (config (node h)) kp db)]> (files h))
       (database_map h) (dropped h)).
Proof.
  intros Hyes Hpath Hkp Hdb. unfold write_new_config, print_stderr.
  apply String.eqb_neq in Hpath. rewrite Hyes, Hpath. cbn [negb].
  unfold default_conf, with_generated_keypair.
  destruct (generate_key_pair ext) as [private_key public_key]. cbn [fst snd].
  destruct h as [w sin fs dm dr]. cbn [node stdin files database_map dropped] in *.
  do 9 hstep. rewrite insert_insert_eq.
  unfold hret at 1. hstep. unfold write_config at 1. do 2 hstep.
  rewrite lift_emit. unfold with_node. cbn [node stdin files database_map dropped].
  rewrite !logged_logged. reflexivity.
Qed.

(** X28: [configure --yes] writes, without a question, the patched
    configuration with a generated keypair and the defaults of the chosen
    backend to the configuration file, whether a file was there or not;
    it returns, and says on standard error what it did. *)
Theorem configure_yes_writes_defaults ext fmt sur o h kp db :
  yes o = true ->
  config_path_of sur o <> "-" ->
  env_update sur (config (node h)) !! "keypair" = Some (JDict kp) ->
  database_map h !! backend o = Some db ->
  let r := run_configure ext fmt sur o false h in
  r.1 = Returned tt
  /\ files r.2
     = <[config_path_of sur o := JDict (default_conf ext sur (config (node h)) kp db)]>
         (files h)
  /\ new_events (node h) (node r.2)
     = configure_preamble o ++ configure_epilogue (config_path_of sur o).
Proof.
  intros Hyes Hpath Hkp Hdb. cbn zeta.
  assert (run_configure ext fmt sur o false h
          = write_new_config ext fmt sur o (config_path_of sur o) h) as ->.
  { unfold run_configure, hbind. rewrite Hyes.
    destruct (negb (String.eqb (config_path_of sur o) "-")).
    - rewrite os_path_exists_eval. rewrite !andb_false_r. reflexivity.
    - reflexivity. }
  rewrite (write_new_config_yes ext fmt sur o _ h kp db Hyes Hpath Hkp Hdb).
  cbn [fst snd node files]. rewrite new_events_logged. repeat split.
Qed.

Lemma configure_yes_writes_defaults_witness :
  let o := configure_options (Some "node.conf") true in
  let h := configure_test_host [] {[ "node.conf" := JStr "old" ]} in
  let r := run_configure accepting_backend plain_formatting plain_surroundings o false h in
  r.1 = Returned tt
  /\ files r.2
     = <[config_path_of plain_surroundings o :=
           JDict (default_conf accepting_backend plain_surroundings (config (node h))
                    {[ "public" := JNull; "private" := JNull ]} (JDict rethinkdb_defaults))]>
         (files h)
  /\ new_events (node h) (node r.2)
     = configure_preamble o ++ configure_epilogue (config_path_of plain_surroundings o).
Proof.
  apply (configure_yes_writes_defaults accepting_backend plain_formatting plain_surroundings
           (configure_options (Some "node.conf") true)
           (configure_test_host [] {[ "node.conf" := JStr "old" ]})
           {[ "public" := JNull; "private" := JNull ]} (JDict rethinkdb_defaults)).
  - reflexivity.
  - vm_compute; discriminate.
  - vm_compute; reflexivity.
  - vm_compute; reflexivity.
Defined.

Lemma input_or_line prompt val h line rest :
  stdin h = line :: rest ->
  input_or prompt val h
  = (Returned (or_default line val),
     Host (logged [Stderr prompt] (node h)) rest (files h) (database_map h) (dropped h)).
Proof.
  intros E. unfold input_or, hbind. rewrite (input_on_stderr_line _ h line rest E).
  reflexivity.
Qed.

Lemma hbind_assoc {A B C} (m : H A) (k : A -> H B) (g : B -> H C) h :
  hbind (hbind m k) g h = hbind m (fun a => hbind (k a) g) h.
Proof. unfold hbind. destruct (m h) as [[a|e|] h1]; reflexivity. Qed.

Lemma hbind_hret {A B} (a : A) (k : A -> H B) h : hbind (hret a) k h = k a h.
Proof. reflexivity. Qed.

Lemma ask_server_line fmt conf key srv val h line rest :
  conf !! "server" = Some (JDict srv) -> srv !! key = Some val ->
  stdin h = line :: rest ->
  ask_server fmt conf key h
  = (Returned (<["server" := JDict (<[key := or_default line val]> srv)]> conf),
     Host (logged [Stderr (server_prompt fmt key val)] (node h)) rest (files h)
       (database_map h) (dropped h)).
Proof.
  intros Hsrv Hval Hin. unfold ask_server.
  do 2 hstep. erewrite hbind_returned by (apply input_or_line; exact Hin).
  cbv beta. do 2 hstep. reflexivity.
Qed.

Lemma ask_database_line fmt o conf key dbm val h line rest :
  conf !! "database" = Some (JDict dbm) -> dbm !! key = Some val ->
  stdin h = line :: rest ->
  ask_database fmt o conf key h
  = (Returned (<["database" := JDict (<[key := or_default line val]> dbm)]> conf),
     Host (logged [Stderr (database_prompt fmt key val)] (node h)) rest (files h)
       (<[backend o := JDict (<[key := or_default line val]> dbm)]> (database_map h))
       (dropped h)).
Proof.
  intros Hdb Hval Hin. unfold ask_database.
  do 2 hstep. erewrite hbind_returned by (apply input_or_line; exact Hin).
  cbv beta. do 2 hstep. unfold set_database_map at 1. hstep. reflexivity.
Qed.

Ltac ask_step :=
  first
    [ rewrite hbind_assoc
    | rewrite hbind_hret
    | erewrite hbind_returned
        by first [ apply ask_server_line; [solve_lookup|solve_lookup|reflexivity]
                 | apply ask_database_line; [solve_lookup|solve_lookup|reflexivity]
                 | apply input_or_line; reflexivity
                 | apply lift_subscript; solve_lookup
                 | apply lift_emit
                 | reflexivity ] ];
  cbv beta; unfold with_node; cbn [node stdin files database_map dropped].

Lemma write_new_config_interactive ext fmt sur o path h kp srv bv dv dbm hv pv nv
    a1 a2 a3 a4 a5 rest :
  yes o = false -> path <> "-" ->
  env_update sur (config (node h)) !! "keypair" = Some (JDict kp) ->
  env_update sur (config (node h)) !! "server" = Some (JDict srv) ->
  srv !! "bind" = Some bv ->
  env_update sur (config (node h)) !! "backlog_reassign_delay" = Some dv ->
  database_map h !! backend o = Some (JDict dbm) ->
  dbm !! "host" = Some hv -> dbm !! "port" = Some pv -> dbm !! "name" = Some nv ->
  stdin h = a1 :: a2 :: a3 :: a4 :: a5 :: rest ->
  exists evs,
    write_new_config ext fmt sur o path h
    = (Returned tt,
       Host (logged evs (node h)) rest
         (<[path := JDict (answered_conf
                             (default_conf ext sur (config (node h)) kp (JDict dbm))
                             srv bv dv (answered_database dbm hv pv nv a2 a3 a4) a1 a5)]>
            (files h))
         (<[backend o := JDict (answered_database dbm hv pv nv a2 a3 a4)]> (database_map h))
         (dropped h)).
Proof.
  intros Hyes Hpath Hkp Hsrv Hbind Hdelay Hdb Hhost Hport Hname Hin.
  unfold write_new_config, print_stderr.
  apply String.eqb_neq in Hpath. rewrite Hyes, Hpath. cbn [negb for_keys].
  unfold answered_conf, answered_database, default_conf, with_generated_keypair.
  destruct (generate_key_pair ext) as [private_key public_key]. cbn [fst snd].
  destruct h as [w sin fs dm dr]. cbn [node stdin files database_map dropped] in *.
  subst sin. eexists.
  do 9 hstep. rewrite insert_insert_eq.
  repeat ask_step.
  rewrite lift_emit. unfold with_node. cbn [node stdin files database_map dropped].
  rewrite !logged_logged, !insert_insert_eq. reflexivity.
Qed.

Lemma run_configure_new_file ext fmt sur o h :
  config_path_of sur o <> "-" ->
  files h !! config_path_of sur o = None ->
  run_configure ext fmt sur o false h
  = write_new_config ext fmt sur o (config_path_of sur o) h.
Proof.
  intros Hpath Hnew. unfold run_configure, hbind.
  apply String.eqb_neq in Hpath. rewrite Hpath. cbn [negb].
  rewrite os_path_exists_eval, bool_decide_eq_false_2; [reflexivity|].
  rewrite Hnew. intros [? [=]].
Qed.

Lemma or_default_empty val : or_default "" val = val.
Proof. reflexivity. Qed.

Lemma or_default_typed answer val : answer <> "" -> or_default answer val = JStr answer.
Proof. intros Hne. unfold or_default. apply String.eqb_neq in Hne. rewrite Hne. reflexivity. Qed.

(** X29: pressing Enter at every prompt gives the file that [--yes]
    gives: on a node without a configuration file, where the entries
    [configure] asks about are there, five empty answers make the
    interactive run return with the same files as the unattended run, and
    [_database_map] is as before. *)
Theorem configure_enter_keeps_defaults ext fmt sur o h db rest :
  yes o = false ->
  config_path_of sur o <> "-" ->
  files h !! config_path_of sur o = None ->
  database_map h !! backend o = Some db ->
  has_defaults (env_update sur (config (node h))) db ->
  stdin h = "" :: "" :: "" :: "" :: "" :: rest ->
  let interactive := run_configure ext fmt sur o false h in
  let unattended := run_configure ext fmt sur (with_yes o) false h in
  interactive.1 = Returned tt
  /\ unattended.1 = Returned tt
  /\ files interactive.2 = files unattended.2
  /\ database_map interactive.2 = database_map h
  /\ stdin interactive.2 = rest.
Proof.
  intros Hyes Hpath Hnew Hdb
    ((kp & Hkp) & (srv & Hsrv & bv & Hbind) & (dv & Hdelay)
     & dbm & -> & (hv & Hhost) & (pv & Hport) & (nv & Hname)) Hin.
  cbn zeta.
  rewrite (run_configure_new_file ext fmt sur o h Hpath Hnew).
  rewrite (run_configure_new_file ext fmt sur (with_yes o) h Hpath Hnew).
  destruct (write_new_config_interactive ext fmt sur o (config_path_of sur o) h
              kp srv bv dv dbm hv pv nv "" "" "" "" "" rest
              Hyes Hpath Hkp Hsrv Hbind Hdelay Hdb Hhost Hport Hname Hin) as [evs ->].
  change (config_path_of sur (with_yes o)) with (config_path_of sur o).
  rewrite (write_new_config_yes ext fmt sur (with_yes o) (config_path_of sur o) h kp
             (JDict dbm) eq_refl Hpath Hkp Hdb).
  cbn [fst snd files database_map stdin].
  unfold answered_conf, answered_database. rewrite !or_default_empty.
  assert (<["name" := nv]> (<["port" := pv]> (<["host" := hv]> dbm)) = dbm) as ->.
  { rewrite (insert_id dbm "host" hv Hhost), (insert_id dbm "port" pv Hport).
    apply insert_id, Hname. }
  rewrite (insert_id srv "bind" bv Hbind).
  rewrite (insert_id (database_map h) (backend o) (JDict dbm) Hdb).
  set (conf := default_conf ext sur (config (node h)) kp (JDict dbm)).
  assert (conf !! "server" = Some (JDict srv)) as Hs by (unfold conf, default_conf; solve_lookup).
  assert (conf !! "database" = Some (JDict dbm)) as Hd
    by (unfold conf, default_conf; solve_lookup).
  assert (conf !! "backlog_reassign_delay" = Some dv) as Hbd
    by (unfold conf, default_conf; solve_lookup).
  rewrite (insert_id conf "server" _ Hs), (insert_id conf "database" _ Hd),
    (insert_id conf "backlog_reassign_delay" _ Hbd).
  repeat split.
Qed.

Lemma configure_enter_keeps_defaults_witness :
  let o := configure_options (Some "node.conf") false in
  let h := configure_test_host [""; ""; ""; ""; ""; "left"] ∅ in
  let interactive :=
    run_configure accepting_backend plain_formatting plain_surroundings o false h in
  let unattended :=
    run_configure accepting_backend plain_formatting plain_surroundings (with_yes o) false h in
  interactive.1 = Returned tt
  /\ unattended.1 = Returned tt
  /\ files interactive.2 = files unattended.2
  /\ database_map interactive.2 = database_map h
  /\ stdin interactive.2 = ["left"].
Proof.
  apply (configure_enter_keeps_defaults accepting_backend plain_formatting plain_surroundings
           (configure_options (Some "node.conf") false)
           (configure_test_host [""; ""; ""; ""; ""; "left"] ∅)
           (JDict rethinkdb_defaults) ["left"]).
  - reflexivity.
  - vm_compute; discriminate.
  - vm_compute; reflexivity.
  - vm_compute; reflexivity.
  - split; [|split; [|split]].
    + exists {[ "public" := JNull; "private" := JNull ]}. vm_compute; reflexivity.
    + exists {[ "bind" := JStr "localhost:9984" ]}. split; [vm_compute; reflexivity|].
      exists (JStr "localhost:9984"). vm_compute; reflexivity.
    + exists (JInt 120). vm_compute; reflexivity.
    + exists rethinkdb_defaults. split; [reflexivity|].
      split; [|split].
      * exists (JStr "localhost"). vm_compute; reflexivity.
      * exists (JInt 28015). vm_compute; reflexivity.
      * exists (JStr "bigchain"). vm_compute; reflexivity.
  - reflexivity.
Defined.

(** X30: what the operator types is stored as text: every non-empty
    answer replaces its default in the written file as a string, the port
    and the reassignment delay included, and the answers about the database
    reach the dictionary of [_database_map] as well. *)
Theorem configure_stores_answers_as_strings ext fmt sur o h db
    a_bind a_host a_port a_name a_delay rest :
  yes o = false ->
  config_path_of sur o <> "-" ->
  files h !! config_path_of sur o = None ->
  database_map h !! backend o = Some db ->
  has_defaults (env_update sur (config (node h))) db ->
  stdin h = a_bind :: a_host :: a_port :: a_name :: a_delay :: rest ->
  let r := run_configure ext fmt sur o false h in
  exists conf srv dbm,
    r.1 = Returned tt
    /\ files r.2 !! config_path_of sur o = Some (JDict conf)
    /\ conf !! "server" = Some (JDict srv)
    /\ conf !! "database" = Some (JDict dbm)
    /\ database_map r.2 !! backend o = Some (JDict dbm)
    /\ (a_bind <> "" -> srv !! "bind" = Some (JStr a_bind))
    /\ (a_host <> "" -> dbm !! "host" = Some (JStr a_host))
    /\ (a_port <> "" -> dbm !! "port" = Some (JStr a_port))
    /\ (a_name <> "" -> dbm !! "name" = Some (JStr a_name))
    /\ (a_delay <> "" -> conf !! "backlog_reassign_delay" = Some (JStr a_delay)).
Proof.
  intros Hyes Hpath Hnew Hdb
    ((kp & Hkp) & (srv & Hsrv & bv & Hbind) & (dv & Hdelay)
     & dbm & -> & (hv & Hhost) & (pv & Hport) & (nv & Hname)) Hin.
  cbn zeta.
  rewrite (run_configure_new_file ext fmt sur o h Hpath Hnew).
  destruct (write_new_config_interactive ext fmt sur o (config_path_of sur o) h
              kp srv bv dv dbm hv pv nv a_bind a_host a_port a_name a_delay rest
              Hyes Hpath Hkp Hsrv Hbind Hdelay Hdb Hhost Hport Hname Hin) as [evs ->].
  cbn [fst snd files database_map].
  eexists _, _, _. split; [reflexivity|].
  split; [apply lookup_insert_eq|].
  unfold answered_conf, answered_database.
  split; [solve_lookup|]. split; [solve_lookup|]. split; [apply lookup_insert_eq|].
  repeat split; intros Hne; rewrite (or_default_typed _ _ Hne) || idtac; solve_lookup.
Qed.

Lemma configure_stores_answers_as_strings_witness :
  let o := configure_options (Some "node.conf") false in
  let h := configure_test_host ["0.0.0.0:9984"; "db.example.org"; "28016"; ""; "30"] ∅ in
  let r := run_configure accepting_backend plain_formatting plain_surroundings o false h in
  exists conf srv dbm,
    r.1 = Returned tt
    /\ files r.2 !! config_path_of plain_surroundings o = Some (JDict conf)
    /\ conf !! "server" = Some (JDict srv)
    /\ conf !! "database" = Some (JDict dbm)
    /\ database_map r.2 !! backend o = Some (JDict dbm)
    /\ ("0.0.0.0:9984" <> "" -> srv !! "bind" = Some (JStr "0.0.0.0:9984"))
    /\ ("db.example.org" <> "" -> dbm !! "host" = Some (JStr "db.example.org"))
    /\ ("28016" <> "" -> dbm !! "port" = Some (JStr "28016"))
    /\ ("" <> "" -> dbm !! "name" = Some (JStr ""))
    /\ ("30" <> "" -> conf !! "backlog_reassign_delay" = Some (JStr "30")).
Proof.
  apply (configure_stores_answers_as_strings accepting_backend plain_formatting
           plain_surroundings (configure_options (Some "node.conf") false)
           (configure_test_host ["0.0.0.0:9984"; "db.example.org"; "28016"; ""; "30"] ∅)
           (JDict rethinkdb_defaults) "0.0.0.0:9984" "db.example.org" "28016" "" "30" []).
  - reflexivity.
  - vm_compute; discriminate.
  - vm_compute; reflexivity.
  - vm_compute; reflexivity.
  - split; [|split; [|split]].
    + exists {[ "public" := JNull; "private" := JNull ]}. vm_compute; reflexivity.
    + exists {[ "bind" := JStr "localhost:9984" ]}. split; [vm_compute; reflexivity|].
      exists (JStr "localhost:9984"). vm_compute; reflexivity.
    + exists (JInt 120). vm_compute; reflexivity.
    + exists rethinkdb_defaults. split; [reflexivity|].
      split; [|split].
      * exists (JStr "localhost"). vm_compute; reflexivity.
      * exists (JInt 28015). vm_compute; reflexivity.
      * exists (JStr "bigchain"). vm_compute; reflexivity.
  - reflexivity.
Defined.
